(** * Auto_gui_tool: the step-execution engine

    A shallow embedding of the step model, the nested-loop plan expander,
    the step executor and the run controller of [Auto_gui_tool.py], with the
    properties its specification states about them.

    Conventions of the embedding.
    - Python values stored in [params] are the scalars a JSON document or the
      editor dialogs can put there ([pyval]); floats are binary64
      ([PrimFloat.float]), integers are unbounded ([Z]).
    - Text is a [string] of code points below 256; [py_lower] and the regular
      expression classes agree with Python on that range.
    - Exceptions are values ([exn]); a message built by an f-string is a
      constructor of [message] that keeps the interpolated values.
    - The worker thread's effects are state passing over a [World]: the
      [running] flag, a clock that counts the calls into the external
      services, and the trace of those calls.  The services themselves
      (screen capture, template matching, input synthesis, processes, the
      wall clock, the foreground thread's stop requests) are the fields of
      an [Env]. *)

From Stdlib Require Import ZArith String Ascii List Lia Floats.
From stdpp Require Import base option list gmap strings.

Open Scope string_scope.
Open Scope list_scope.
Open Scope nat_scope.

(* ===================================================================== *)
(** ** Python values and exceptions *)

Inductive pyval : Type :=
| VNone
| VBool (b : bool)
| VInt (z : Z)
| VFloat (f : float)
| VStr (s : string).

Abbreviation dict := (gmap string pyval).

(** [d.get(key, default)] *)
Definition dict_get (d : dict) (key : string) (dflt : pyval) : pyval :=
  match d !! key with
  | Some v => v
  | None => dflt
  end.

Inductive exn : Type :=
| KeyError (key : string)
| IndexError
| TypeError (operation : string)
| AttributeError (attribute : string)
| UnboundLocalError (variable : string)
| OverflowError
| ValueError (m : message)
| RuntimeError (m : message)
| TimeoutExpired
| ServiceError (description : string)
with message : Type :=
(** f"対応するrepeat_endが見つかりません: ステップ{i}" *)
| NoMatchingRepeatEnd (step_index : nat)
(** f"画像ファイルの読み込みに失敗しました: {path}" *)
| ImageLoadFailed (path : pyval)
(** f"画像が見つかりませんでした: {os.path.basename(path)}" *)
| ImageNotFound (path : pyval)
(** f"無効なクリックタイプ: {click_type}" *)
| InvalidClickType (click_type : pyval)
(** f"画像クリックの実行に失敗しました: {e}" *)
| ImageClickFailed (e : exn)
(** f"画像右クリックの実行に失敗しました: {e}" *)
| ImageRightClickFailed (e : exn)
(** f"キー操作の実行に失敗しました: {e}" *)
| KeyActionFailed (e : exn)
(** f"安全でないコマンドが検出されました: {command[:100]}..." *)
| UnsafeCommand (command : string)
(** f"コマンドがタイムアウトしました ({timeout}秒)" *)
| CommandTimedOut (timeout : pyval)
(** the three messages built from a non-zero exit status *)
| CommandExited (returncode : Z) (command stderr : string)
(** f"cmdコマンドの実行に失敗しました: {e}" *)
| CmdCommandFailed (e : exn)
(** "無効なステップです" *)
| InvalidStep
(** a message of a conversion or of a service, kept as text *)
| Text (s : string).

Inductive Outcome (A : Type) : Type :=
| Ok (a : A)
| Raise (e : exn).
Arguments Ok {A} a.
Arguments Raise {A} e.

Definition obind {A B} (m : Outcome A) (k : A -> Outcome B) : Outcome B :=
  match m with
  | Ok a => k a
  | Raise e => Raise e
  end.

Declare Scope outcome_scope.
Delimit Scope outcome_scope with outcome.
Notation "'let!' x ':=' m 'in' k" := (obind m (fun x => k))
  (at level 10, x name, m at level 100, k at level 200) : outcome_scope.
Open Scope outcome_scope.

(** [for x in xs: acc.extend(body(x))], stopping at the first exception. *)
Fixpoint for_extend {A B} (body : A -> Outcome (list B)) (xs : list A)
  : Outcome (list B) :=
  match xs with
  | [] => Ok []
  | x :: xs' =>
      let! ys := body x in
      let! rest := for_extend body xs' in
      Ok (ys ++ rest)
  end.

(** [range(n)] as the list of its values; [n] must be an [int] (a [bool] is
    one), anything else is a [TypeError]. *)
Definition py_range (n : pyval) : Outcome (list nat) :=
  match n with
  | VInt z => Ok (seq 0 (Z.to_nat z))
  | VBool b => Ok (seq 0 (if b then 1 else 0))
  | _ => Raise (TypeError "range")
  end.

(* ===================================================================== *)
(** ** Step *)

Record Step : Type := mkStep {
  type : string;
  params : dict;
  comment : string;
  created_at : string;
  enabled : bool
}.

(** The attributes a [Step] instance carries (the dataclass fields). *)
Definition Step_attributes : list string :=
  ["type"; "params"; "comment"; "created_at"; "enabled"].

Definition hasattr (_ : Step) (field : string) : bool :=
  existsb (String.eqb field) Step_attributes.

(** [Step.validate] *)
Definition validate (self : Step) : bool :=
  let required_fields := ["type"; "params"; "comment"] in
  forallb (hasattr self) required_fields.

(** [Step(type, params, comment, created_at, enabled)]: the generated
    [__init__] stores its arguments and [__post_init__] stamps an empty
    [created_at] with the current time [now]. *)
Definition Step_init (now : string) (type : string) (params : dict)
    (comment : string) (created_at : string) (enabled : bool) : Step :=
  mkStep type params comment
         (if String.eqb created_at "" then now else created_at) enabled.

(** A step record as the persisted format has it: each key of the dataclass
    may be absent, and [sd_other] lists the keys that are none of them. *)
Record StepData : Type := mkStepData {
  sd_type : option string;
  sd_params : option dict;
  sd_comment : option string;
  sd_created_at : option string;
  sd_enabled : option bool;
  sd_other : list string
}.

(** [Step] called with [data] unpacked into keyword arguments: an
    unexpected keyword or a missing positional argument is a [TypeError];
    [created_at] and [enabled] have defaults. *)
Definition Step_of_kwargs (now : string) (data : StepData) : Outcome Step :=
  match sd_other data with
  | _ :: _ => Raise (TypeError "__init__() got an unexpected keyword argument")
  | [] =>
      match sd_type data, sd_params data, sd_comment data with
      | Some t, Some p, Some c =>
          Ok (Step_init now t p c
                (default "" (sd_created_at data))
                (default true (sd_enabled data)))
      | _, _, _ =>
          Raise (TypeError "__init__() missing required positional argument")
      end
  end.

(** [Step.from_dict] *)
Definition from_dict (now : string) (data : StepData) : Outcome Step :=
  let data :=
    match sd_enabled data with
    | None =>
        mkStepData (sd_type data) (sd_params data) (sd_comment data)
                   (sd_created_at data) (Some true) (sd_other data)
    | Some _ => data
    end in
  Step_of_kwargs now data.

(** The body of the loaders' loop over [config["steps"]]
    ([load_config], [load_config_file], the start-up reload). *)
Definition load_step (now : string) (step_data : StepData) : Outcome Step :=
  if bool_decide (sd_type step_data = Some "image_click")
     && bool_decide (default ∅ (sd_params step_data) !! "click_type" = None)
  then
    match sd_params step_data with
    | None => Raise (KeyError "params")
    | Some p =>
        Step_of_kwargs now
          (mkStepData (sd_type step_data)
                      (Some (<["click_type" := VStr "single"]> p))
                      (sd_comment step_data) (sd_created_at step_data)
                      (sd_enabled step_data) (sd_other step_data))
    end
  else Step_of_kwargs now step_data.

(** [add_step] up to its guard: a step that fails [validate] is refused. *)
Definition add_step_guard (step : Step) : Outcome unit :=
  if negb (validate step) then Raise (ValueError InvalidStep) else Ok tt.

(* ===================================================================== *)
(** ** Plan expansion *)

Definition plan := list (nat * nat).

Definition is_repeat_start (s : Step) : bool := String.eqb (type s) "repeat_start".
Definition is_repeat_end (s : Step) : bool := String.eqb (type s) "repeat_end".

(** One turn of the scan for the matching [repeat_end]: the new [nest_depth]. *)
Definition scan_depth (s : Step) (nest_depth : nat) : nat :=
  if is_repeat_start s then S nest_depth
  else if is_repeat_end s then Nat.pred nest_depth
  else nest_depth.

(** The inner [while end_pos < end_idx and nest_depth > 0] loop; it returns
    [(nest_depth, end_pos)] as they stand when the loop exits.  The first
    argument bounds the number of turns and is [end_idx - end_pos]. *)
Fixpoint find_repeat_end (n : nat) (steps : list Step)
    (end_idx end_pos nest_depth : nat) : Outcome (nat * nat) :=
  match n with
  | 0 => Ok (nest_depth, end_pos)
  | S n' =>
      if (end_pos <? end_idx) && (0 <? nest_depth) then
        match steps !! end_pos with
        | None => Raise IndexError
        | Some s =>
            find_repeat_end n' steps end_idx (S end_pos) (scan_depth s nest_depth)
        end
      else Ok (nest_depth, end_pos)
  end.

Definition scan (steps : list Step) (end_idx end_pos nest_depth : nat)
  : Outcome (nat * nat) :=
  find_repeat_end (end_idx - end_pos) steps end_idx end_pos nest_depth.

(** [_expand_nested_loops_from_steps]; the first argument bounds the number
    of steps left in the window, [end_idx - i]. *)
Fixpoint expand_from (n : nat) (steps : list Step)
    (i end_idx offset nest_level : nat) : Outcome plan :=
  match n with
  | 0 => Ok []
  | S n' =>
      if i <? end_idx then
        match steps !! i with
        | None => Raise IndexError
        | Some step =>
            let actual_index := i + offset in
            if is_repeat_start step then
              let repeat_count := dict_get (params step) "count" (VInt 1) in
              let! found := scan steps end_idx (i + 1) 1 in
              let '(nest_depth, end_pos) := found in
              if nest_depth =? 0 then
                let end_pos := end_pos - 1 in
                let! iterations := py_range repeat_count in
                let! body :=
                  for_extend
                    (fun repeat_iter =>
                       let! inner_plan :=
                         expand_from n' steps (i + 1) end_pos offset
                                     (nest_level + repeat_iter + 1) in
                       Ok (inner_plan
                             ++ [(end_pos + offset, nest_level + repeat_iter + 1)]))
                    iterations in
                let! rest := expand_from n' steps (end_pos + 1) end_idx offset nest_level in
                Ok ((actual_index, nest_level) :: body ++ rest)
              else Raise (ValueError (NoMatchingRepeatEnd actual_index))
            else if is_repeat_end step then
              expand_from n' steps (i + 1) end_idx offset nest_level
            else
              let! rest := expand_from n' steps (i + 1) end_idx offset nest_level in
              Ok ((actual_index, nest_level) :: rest)
        end
      else Ok []
  end.

Definition _expand_nested_loops_from_steps (steps : list Step)
    (start_idx end_idx offset nest_level : nat) : Outcome plan :=
  expand_from (end_idx - start_idx) steps start_idx end_idx offset nest_level.

Definition _generate_execution_plan_from_steps (steps : list Step) (offset : nat)
  : Outcome plan :=
  _expand_nested_loops_from_steps steps 0 (length steps) offset 0.

(** [_expand_nested_loops] *)
Fixpoint expand (n : nat) (steps : list Step)
    (i end_idx nest_level : nat) : Outcome plan :=
  match n with
  | 0 => Ok []
  | S n' =>
      if i <? end_idx then
        match steps !! i with
        | None => Raise IndexError
        | Some step =>
            if is_repeat_start step then
              let repeat_count := dict_get (params step) "count" (VInt 1) in
              let! found := scan steps end_idx (i + 1) 1 in
              let '(nest_depth, end_pos) := found in
              if nest_depth =? 0 then
                let end_pos := end_pos - 1 in
                let! iterations := py_range repeat_count in
                let! body :=
                  for_extend
                    (fun repeat_iter =>
                       let! inner_plan :=
                         expand n' steps (i + 1) end_pos
                                (nest_level + repeat_iter + 1) in
                       Ok (inner_plan ++ [(end_pos, nest_level + repeat_iter + 1)]))
                    iterations in
                let! rest := expand n' steps (end_pos + 1) end_idx nest_level in
                Ok ((i, nest_level) :: body ++ rest)
              else Raise (ValueError (NoMatchingRepeatEnd i))
            else if is_repeat_end step then
              expand n' steps (i + 1) end_idx nest_level
            else
              let! rest := expand n' steps (i + 1) end_idx nest_level in
              Ok ((i, nest_level) :: rest)
        end
      else Ok []
  end.

Definition _expand_nested_loops (steps : list Step)
    (start_idx end_idx nest_level : nat) : Outcome plan :=
  expand (end_idx - start_idx) steps start_idx end_idx nest_level.

Definition _generate_execution_plan (steps : list Step) : Outcome plan :=
  _expand_nested_loops steps 0 (length steps) 0.

(* ===================================================================== *)
(** ** Text *)

Definition code (c : ascii) : N := N_of_ascii c.

(** [str.lower] on one code point below 256: A-Z and the Latin-1 capitals
    (U+00C0 to U+00DE but the multiplication sign) move up by 32. *)
Definition lower_char (c : ascii) : ascii :=
  let n := code c in
  if ((65 <=? n) && (n <=? 90)
      || (192 <=? n) && (n <=? 222) && negb (n =? 215))%N
  then ascii_of_N (n + 32) else c.

Fixpoint py_lower (s : string) : string :=
  match s with
  | EmptyString => EmptyString
  | String c t => String (lower_char c) (py_lower t)
  end.

(** [str.isspace] on one code point below 256; it is also the class [\s]. *)
Definition is_space (c : ascii) : bool :=
  let n := code c in
  ((9 <=? n) && (n <=? 13) || (28 <=? n) && (n <=? 32)
   || (n =? 133) || (n =? 160))%N.

Definition is_digit (c : ascii) : bool :=
  let n := code c in ((48 <=? n) && (n <=? 57))%N.

Fixpoint lstrip (s : string) : string :=
  match s with
  | String c t => if is_space c then lstrip t else s
  | EmptyString => EmptyString
  end.

Fixpoint rstrip (s : string) : string :=
  match s with
  | EmptyString => EmptyString
  | String c t =>
      match rstrip t with
      | EmptyString => if is_space c then EmptyString else String c EmptyString
      | t' => String c t'
      end
  end.

(** [str.strip] *)
Definition py_strip (s : string) : string := rstrip (lstrip s).

(** [c in s] for a one-character [c] *)
Fixpoint contains_char (c : ascii) (s : string) : bool :=
  match s with
  | EmptyString => false
  | String d t => Ascii.eqb c d || contains_char c t
  end.

(** [s.split(sep)] for a one-character separator *)
Fixpoint py_split (sep : ascii) (s : string) : list string :=
  match s with
  | EmptyString => [EmptyString]
  | String c t =>
      if Ascii.eqb c sep then EmptyString :: py_split sep t
      else match py_split sep t with
           | [] => [String c EmptyString]
           | w :: ws => String c w :: ws
           end
  end.

(** [s[:n]] *)
Definition py_prefix (n : nat) (s : string) : string := substring 0 n s.

(** Every suffix of [s], the whole string first, the empty one last. *)
Fixpoint suffixes (s : string) : list string :=
  s :: match s with
       | EmptyString => []
       | String _ t => suffixes t
       end.

(* ===================================================================== *)
(** ** Regular expressions: the fragment of Python's [re] the denylist uses *)

Module Re.

Inductive charset : Type :=
| Dot                         (** [.]: anything but a newline *)
| Space                       (** [\s] *)
| Digit                       (** [\d] *)
| OneOf (chars : string)      (** [[abc]] *)
| Range (lo hi : ascii).      (** [[a-z]] *)

Inductive regex : Type :=
| Lit (s : string)            (** literal characters *)
| Cls (cs : charset)
| Cat (a b : regex)
| Alt (a b : regex)
| Star (a : regex)
| Eol.                        (** [$] *)

Definition Plus (a : regex) : regex := Cat a (Star a).

Definition in_charset (cs : charset) (c : ascii) : bool :=
  match cs with
  | Dot => negb (Ascii.eqb c "010")
  | Space => is_space c
  | Digit => is_digit c
  | OneOf chars => contains_char c chars
  | Range lo hi => ((code lo <=? code c) && (code c <=? code hi))%N
  end.

(** [strip_prefix l s] is what is left of [s] after the prefix [l]. *)
Fixpoint strip_prefix (l s : string) : option string :=
  match l, s with
  | EmptyString, _ => Some s
  | String a l', String b s' => if Ascii.eqb a b then strip_prefix l' s' else None
  | String _ _, EmptyString => None
  end.

Section Iterate.
Variable step : string -> list string.

(** The remainders after zero or more rounds of [step]; a round that
    consumes nothing is not repeated. *)
Fixpoint iterate (n : nat) (s : string) : list string :=
  s :: match n with
       | 0 => []
       | S n' =>
           flat_map (iterate n')
                    (List.filter (fun t => String.length t <? String.length s) (step s))
       end.
End Iterate.

(** [rmatch r s]: every remainder [t] such that [r] matches the prefix of
    [s] that ends where [t] starts. *)
Fixpoint rmatch (r : regex) (s : string) : list string :=
  match r with
  | Lit l => match strip_prefix l s with Some t => [t] | None => [] end
  | Cls cs =>
      match s with
      | String c t => if in_charset cs c then [t] else []
      | EmptyString => []
      end
  | Cat a b => flat_map (rmatch b) (rmatch a s)
  | Alt a b => rmatch a s ++ rmatch b s
  | Star a => iterate (rmatch a) (String.length s) s
  | Eol =>
      match s with
      | EmptyString => [s]
      | String c EmptyString => if Ascii.eqb c "010" then [s] else []
      | _ => []
      end
  end.

Definition matches_at (r : regex) (s : string) : bool :=
  match rmatch r s with
  | [] => false
  | _ :: _ => true
  end.

(** [re.search(pattern, s)] as a truth value *)
Definition search (r : regex) (s : string) : bool :=
  existsb (matches_at r) (suffixes s).

End Re.

Import Re.

Declare Scope re_scope.
Delimit Scope re_scope with re.
Bind Scope re_scope with regex.
Notation "a ⋅ b" := (Cat a b) (at level 40, left associativity) : re_scope.
Notation "a ∣ b" := (Alt a b) (at level 45, left associativity) : re_scope.
Notation "'\s+'" := (Plus (Cls Space)) : re_scope.
Notation "'\s*'" := (Star (Cls Space)) : re_scope.
Notation "'\s'" := (Cls Space) : re_scope.
Notation "'\d+'" := (Plus (Cls Digit)) : re_scope.
Notation "'.*'" := (Star (Cls Dot)) : re_scope.
Coercion Lit : string >-> regex.

(** [dangerous_patterns], in the order of the source; each entry is followed
    by the pattern it stands for. *)
Definition dangerous_patterns : list regex :=
  [ ("del" ⋅ \s+ ⋅ .* ⋅ ("/" ⋅ Cls (OneOf "sq") ∣ "\" ∣ "*"))%re
      (* r"del\s+.*(/[sq]|\\|\* )", without the space *)
  ; ("rmdir" ⋅ \s+ ⋅ .* ⋅ ("/s" ∣ "/q"))%re          (* r"rmdir\s+.*(/s|/q)" *)
  ; ("rd" ⋅ \s+ ⋅ .* ⋅ ("/s" ∣ "/q"))%re             (* r"rd\s+.*(/s|/q)" *)
  ; ("erase" ⋅ \s+ ⋅ .* ⋅ ("*" ∣ "\"))%re            (* r"erase\s+.*(\*|\\)" *)
  ; ("remove-item" ⋅ \s+ ⋅ .* ⋅ ("-recurse" ∣ "-force"))%re
      (* r"remove-item\s+.*(-recurse|-force)" *)
  ; ("format" ⋅ \s+ ⋅ Cls (Range "a" "z") ⋅ ":")%re  (* r"format\s+[a-z]:" *)
  ; ("fdisk" ⋅ \s+)%re                               (* r"fdisk\s+" *)
  ; ("diskpart" ⋅ \s* ⋅ Eol)%re                      (* r"diskpart\s*$" *)
  ; ("bootrec" ⋅ \s+)%re                             (* r"bootrec\s+" *)
  ; ("bcdedit" ⋅ \s+)%re                             (* r"bcdedit\s+" *)
  ; ("shutdown" ⋅ \s+ ⋅ .* ⋅ ("/" ⋅ Cls (OneOf "rs") ∣ "/" ⋅ Cls (OneOf "fth")))%re
      (* r"shutdown\s+.*(/[rs]|/[fth])" *)
  ; Lit "restart-computer"                           (* r"restart-computer" *)
  ; Lit "stop-computer"                              (* r"stop-computer" *)
  ; ("netsh" ⋅ \s+)%re                               (* r"netsh\s+" *)
  ; ("netstat" ⋅ \s+ ⋅ .* ⋅ ("-a" ∣ "-n"))%re        (* r"netstat\s+.*(-a|-n)" *)
  ; ("arp" ⋅ \s+ ⋅ ("-" ⋅ Cls (OneOf "ads")))%re     (* r"arp\s+(-[ads])" *)
  ; ("reg" ⋅ \s+ ⋅ ("delete" ∣ "add" ∣ "import"))%re (* r"reg\s+(delete|add|import)" *)
  ; ("regedit" ⋅ \s+ ⋅ ("/" ⋅ Cls (OneOf "si")))%re  (* r"regedit\s+(/[si])" *)
  ; ("sc" ⋅ \s+ ⋅ ("delete" ∣ "create" ∣ "config"))%re
      (* r"sc\s+(delete|create|config)" *)
  ; ("net" ⋅ \s+ ⋅ ("start" ∣ "stop" ∣ "user"))%re   (* r"net\s+(start|stop|user)" *)
  ; ("wmic" ⋅ \s+)%re                                (* r"wmic\s+" *)
  ; ("taskkill" ⋅ \s+ ⋅ .* ⋅ ("/f" ∣ "/im"))%re      (* r"taskkill\s+.*(/f|/im)" *)
  ; ("tskill" ⋅ \s+)%re                              (* r"tskill\s+" *)
  ; ("stop-process" ⋅ \s+ ⋅ .* ⋅ "-force")%re        (* r"stop-process\s+.*-force" *)
  ; ("powershell" ⋅ \s ⋅ .*
       ⋅ ("-encodedcommand" ∣ "-enc" ∣ "-ep" ⋅ \s+ ⋅ "bypass"))%re
      (* r"powershell\s.*(-encodedcommand|-enc|-ep\s+bypass)" *)
  ; ("invoke-expression" ⋅ \s* ⋅ "(")%re             (* r"invoke-expression\s*\(" *)
  ; ("iex" ⋅ \s* ⋅ "(")%re                           (* r"iex\s*\(" *)
  ; ("invoke-webrequest" ⋅ .* ⋅ "downloadfile")%re   (* r"invoke-webrequest.*downloadfile" *)
  ; ("start-process" ⋅ \s+ ⋅ .* ⋅ "-windowstyle" ⋅ \s+ ⋅ "hidden")%re
      (* r"start-process\s+.*-windowstyle\s+hidden" *)
  ; ("schtasks" ⋅ \s+ ⋅ .* ⋅ ("/create" ∣ "/delete"))%re
      (* r"schtasks\s+.*(/create|/delete)" *)
  ; ("at" ⋅ \s+ ⋅ \d+ ⋅ ":" ⋅ \d+)%re                (* r"at\s+\d+:\d+" *)
  ; ("netsh" ⋅ \s+ ⋅ "advfirewall")%re               (* r"netsh\s+advfirewall" *)
  ; ("netsh" ⋅ \s+ ⋅ "firewall")%re                  (* r"netsh\s+firewall" *)
  ; (Cls (OneOf ";&|`") ⋅ \s*
       ⋅ ("del" ∣ "rmdir" ∣ "rd" ∣ "format" ∣ "shutdown"))%re
      (* r"[;&|`]\s*(del|rmdir|rd|format|shutdown)" *)
  ; ("|" ⋅ \s* ⋅ ("del" ∣ "rmdir" ∣ "rd" ∣ "format"))%re
      (* r"\|\s*(del|rmdir|rd|format)" *)
  ; ("attrib" ⋅ \s+ ⋅ .* ⋅ "+" ⋅ Cls (OneOf "hs"))%re (* r"attrib\s+.*\+[hs]" *)
  ; ("icacls" ⋅ \s+ ⋅ .* ⋅ ("/deny" ∣ "/remove"))%re (* r"icacls\s+.*(/deny|/remove)" *)
  ; ("cmd" ⋅ \s+ ⋅ "/c" ⋅ \s+ ⋅ .* ⋅ ("|" ∣ "&"))%re (* r"cmd\s+/c\s+.*(\||&)" *)
  ; ("start" ⋅ \s+ ⋅ "/min")%re                      (* r"start\s+/min" *)
  ].

(** [ord(c) < 32 and c not in ['\t', '\n', '\r']] *)
Definition is_forbidden_control (c : ascii) : bool :=
  let n := code c in
  ((n <? 32) && negb ((n =? 9) || (n =? 10) || (n =? 13)))%N.

Fixpoint any_char (p : ascii -> bool) (s : string) : bool :=
  match s with
  | EmptyString => false
  | String c t => p c || any_char p t
  end.

(** [_validate_command_safety] *)
Definition _validate_command_safety (command : string) : bool :=
  let command_lower := py_lower command in
  if existsb (fun pattern => Re.search pattern command_lower) dangerous_patterns
  then false
  else if any_char is_forbidden_control command then false
  else true.

(* ===================================================================== *)
(** ** Numbers *)

Open Scope Z_scope.

(** A Python [int] used where a [float] is expected: the nearest binary64,
    ties to even; too large a magnitude is an [OverflowError]. *)
Definition float_of_Z (z : Z) : Outcome float :=
  match binary_normalize prec emax z 0 false with
  | S754_infinity _ => Raise OverflowError
  | sf => Ok (SF2Prim sf)
  end.

(** [int(f)] for a float: truncation toward zero. *)
Definition Z_of_float (f : float) : Outcome Z :=
  match Prim2SF f with
  | S754_zero _ => Ok 0
  | S754_finite s m e =>
      let magnitude := if 0 <=? e then Z.pos m * 2 ^ e else Z.pos m / 2 ^ (- e) in
      Ok (if s then - magnitude else magnitude)
  | S754_infinity _ => Raise OverflowError
  | S754_nan => Raise (ValueError (Text "cannot convert float NaN to integer"))
  end.

Definition py_truthy (v : pyval) : bool :=
  match v with
  | VNone => false
  | VBool b => b
  | VInt z => negb (z =? 0)
  | VFloat f => negb (PrimFloat.eqb f 0%float)
  | VStr s => negb (String.eqb s "")
  end.

(** [v == s] for a string literal [s] *)
Definition eq_str (v : pyval) (s : string) : bool :=
  match v with
  | VStr t => String.eqb t s
  | _ => false
  end.

(* ===================================================================== *)
(** ** The world of a run *)

Definition point : Type := Z * Z.

(** What [cv2.imdecode] returns for a readable image: [template.shape[:2]]
    is [(shape_h, shape_w)]. *)
Record Template : Type := mkTemplate {
  template_id : nat;
  shape_h : Z;
  shape_w : Z
}.

Record CompletedProcess : Type := mkCompleted {
  returncode : Z;
  stdout : string;
  stderr : string
}.

Inductive Event : Type :=
(** calls into the external services *)
| CaptureScreenshot (monitor_index : Z)
| TimeSleep (seconds : float)
| Click (click_point : point)                 (** [pyautogui.click(p)] *)
| ClickRightButton (click_point : point)      (** [pyautogui.click(p, button='right')] *)
| DoubleClick (click_point : point)           (** [pyautogui.doubleClick(p)] *)
| RightClick (click_point : point)            (** [pyautogui.rightClick(p)] *)
| Press (key : string)                        (** [pyautogui.press(key)] *)
| Hotkey (keys : list string)                 (** [pyautogui.hotkey] on [keys] *)
| TakeScreenshotAndSave
| WaitForScheduledTime (scheduled_time : pyval)
| SubprocessRun (command : string) (timeout : pyval)
| SubprocessPopen (command : string)
| ShowCommandOutput (command output : string)
| OtherHandler (name : string)
(** what the worker tells the user *)
| LogSearchAttempt (attempt : nat) (max_val : float)
| StepStarted (step_index executed_steps total_valid_steps : nat)
| StepSucceeded (step_index : nat)
| StatusInterrupted                           (** "⛔ 実行中断" *)
| StepErrorDialog (step_index : nat) (e : exn)
| RunErrorDialog (e : exn)
| RunCompleted
| ExecutionButtons (running : bool)
| TrackingStarted
| ThreadStarted (target : string).

Record World : Type := mkWorld {
  running : bool;          (** [self.running] *)
  loop_count : Z;          (** [self.loop_count] *)
  clock : nat;             (** calls into the services so far *)
  trace : list Event       (** oldest first *)
}.

Definition M (A : Type) : Type := World -> Outcome A * World.

Definition ret {A} (a : A) : M A := fun w => (Ok a, w).
Definition raise {A} (e : exn) : M A := fun w => (Raise e, w).
Definition bind {A B} (m : M A) (k : A -> M B) : M B :=
  fun w => match m w with
           | (Ok a, w') => k a w'
           | (Raise e, w') => (Raise e, w')
           end.
Definition lift {A} (o : Outcome A) : M A := fun w => (o, w).

(** [try: m  except Exception as e: handler(e)] *)
Definition try_except {A} (m : M A) (handler : exn -> M A) : M A :=
  fun w => match m w with
           | (Ok a, w') => (Ok a, w')
           | (Raise e, w') => handler e w'
           end.

(** The outcome of [m] as a value: what a [try] block hands to the code
    after it. *)
Definition attempt {A} (m : M A) : M (Outcome A) :=
  fun w => match m w with (o, w') => (Ok o, w') end.

Declare Scope world_scope.
Delimit Scope world_scope with world.
Notation "'let*' x ':=' m 'in' k" := (bind m (fun x => k))
  (at level 10, x name, m at level 100, k at level 200) : world_scope.
Open Scope world_scope.

Definition get_running : M bool := fun w => (Ok (running w), w).
Definition set_running (b : bool) : M unit :=
  fun w => (Ok tt, mkWorld b (loop_count w) (clock w) (trace w)).
Definition emit (e : Event) : M unit :=
  fun w => (Ok tt, mkWorld (running w) (loop_count w) (clock w) (trace w ++ [e])).

(** The external collaborators of the engine.  Answers that can change
    during a run are indexed by the clock. *)
Record Env : Type := mkEnv {
  (** the foreground thread runs [stop_execution] during call number [n] *)
  stop_requested : nat -> bool;
  (** [float(s)] and [int(s)] for a string *)
  float_of_str : string -> Outcome float;
  int_of_str : string -> Outcome Z;
  (** [self.dpi_scale] *)
  dpi_scale : float;
  (** [cv2.imdecode(np.fromfile(path, ...), ...)]: an exception, [None], or
      the decoded template *)
  read_template : pyval -> Outcome (option Template);
  (** [self.get_monitor_region(monitor_index)] *)
  get_monitor_region : Z -> Outcome (Z * Z * Z * Z);
  (** [self.capture_screenshot] followed by [cv2.matchTemplate] and
      [cv2.minMaxLoc]: the capture fails, or the match yields
      [(max_val, max_loc)] *)
  capture_and_match : nat -> Z -> Template -> Outcome (float * point);
  (** [time.sleep(seconds)]: [None] when it returns *)
  time_sleep : float -> option exn;
  (** a [pyautogui] call: [None] when it returns *)
  pyautogui : nat -> Event -> option exn;
  (** [self._wait_for_scheduled_time]: [True] when the wait was interrupted *)
  _wait_for_scheduled_time : nat -> pyval -> Outcome bool;
  (** [subprocess.run(command, shell=True, capture_output=True, timeout=...)] *)
  subprocess_run : nat -> string -> pyval -> Outcome CompletedProcess;
  (** [subprocess.Popen(command, shell=True, ...)] *)
  subprocess_popen : nat -> string -> option exn;
  (** the handlers this development does not enter *)
  _execute_coord_click : Step -> M unit;
  _execute_coord_drag : Step -> M unit;
  _execute_sleep : Step -> M unit;
  _execute_custom_text : Step -> M unit
}.

Section Engine.

Context (env : Env).

(** A call into a service: the call is recorded, the clock advances, and a
    stop request that arrives during the call clears [running]. *)
Definition tick (e : Event) (w : World) : World :=
  mkWorld (running w && negb (stop_requested env (clock w)))
          (loop_count w) (S (clock w)) (trace w ++ [e]).

Definition call {A} (e : Event) (answer : nat -> Outcome A) : M A :=
  fun w => (answer (clock w), tick e w).

Definition call_unit (e : Event) (answer : nat -> option exn) : M unit :=
  call e (fun n => match answer n with None => Ok tt | Some x => Raise x end).

(** [float(v)] *)
Definition py_float (v : pyval) : Outcome float :=
  match v with
  | VFloat f => Ok f
  | VInt z => float_of_Z z
  | VBool b => Ok (if b then 1 else 0)%float
  | VStr s => float_of_str env s
  | VNone => Raise (TypeError "float")
  end.

(** [int(v)] *)
Definition py_int (v : pyval) : Outcome Z :=
  match v with
  | VInt z => Ok z
  | VBool b => Ok (if b then 1 else 0)
  | VFloat f => Z_of_float f
  | VStr s => int_of_str env s
  | VNone => Raise (TypeError "int")
  end.

(** [d[key]] *)
Definition getitem (d : dict) (key : string) : Outcome pyval :=
  match d !! key with
  | Some v => Ok v
  | None => Raise (KeyError key)
  end.

(** [int(base + (loc + size // 2) * scale)] *)
Definition scaled_center (base loc size : Z) (scale : float) : Outcome Z :=
  let! center := float_of_Z (loc + size / 2) in
  let! origin := float_of_Z base in
  Z_of_float (origin + center * scale)%float.

Definition scale : float := (dpi_scale env / 100)%float.

(** The point at the centre of the match, in screen coordinates. *)
Definition center_point (min_x min_y : Z) (max_loc : point) (template : Template)
  : Outcome point :=
  let h := shape_h template in
  let w := shape_w template in
  let! x := scaled_center min_x (fst max_loc) w scale in
  let! y := scaled_center min_y (snd max_loc) h scale in
  Ok (x, y).

(** [int(offset * scale)] *)
Definition scaled_offset (offset : Z) : Outcome Z :=
  let! o := float_of_Z offset in
  Z_of_float (o * scale)%float.

(* ------------------------------------------------------------------- *)
(** *** [_execute_image_click] *)

(** The [if click_type == ...] chain of [_execute_image_click] *)
Definition image_click_at (click_type : pyval) (click_point : point) : M unit :=
  if eq_str click_type "single" then
    call_unit (Click click_point) (fun n => pyautogui env n (Click click_point))
  else if eq_str click_type "double" then
    call_unit (DoubleClick click_point)
              (fun n => pyautogui env n (DoubleClick click_point))
  else if eq_str click_type "right" then
    call_unit (ClickRightButton click_point)
              (fun n => pyautogui env n (ClickRightButton click_point))
  else raise (ValueError (InvalidClickType click_type)).

(** The [for attempt in range(retry + 1)] loop; [true] when the body
    returned from the handler after a click, [false] when the loop ended
    (by [break] or by exhausting the range). *)
Fixpoint image_click_loop (monitor_index : Z) (template : Template)
    (min_x min_y : Z) (threshold : float) (click_type : pyval) (delay : float)
    (attempts : list nat) : M bool :=
  match attempts with
  | [] => ret false
  | attempt :: rest =>
      let* is_running := get_running in
      if negb is_running then ret false
      else
        let* found := call (CaptureScreenshot monitor_index)
                     (fun n => capture_and_match env n monitor_index template) in
        let '(max_val, max_loc) := found in
        if (threshold <=? max_val)%float then
          let* click_point := lift (center_point min_x min_y max_loc template) in
          let* _ := image_click_at click_type click_point in
          ret true
        else
          let* _ := call_unit (TimeSleep delay) (fun _ => time_sleep env delay) in
          let* _ := emit (LogSearchAttempt (attempt + 1) max_val) in
          image_click_loop monitor_index template min_x min_y threshold
                           click_type delay rest
  end.

Definition range_Z (n : Z) : list nat := seq 0 (Z.to_nat n).

Definition _execute_image_click (step : Step) (monitor_index : Z) : M unit :=
  let params := params step in
  match params !! "path" with
  | None => raise (UnboundLocalError "path")
  | Some path =>
      try_except
        (let* threshold := lift (py_float (dict_get params "threshold" VNone)) in
         let click_type := dict_get params "click_type" (VStr "single") in
         let* retry := lift (let! v := getitem params "retry" in py_int v) in
         let* delay := lift (let! v := getitem params "delay" in py_float v) in
         let* decoded := lift (read_template env path) in
         match decoded with
         | None => raise (ValueError (ImageLoadFailed path))
         | Some template =>
             let* region := lift (get_monitor_region env monitor_index) in
             let '(min_x, min_y, _, _) := region in
             let* clicked := image_click_loop monitor_index template min_x min_y
                         threshold click_type delay (range_Z (retry + 1)) in
             if clicked : bool then ret tt
             else raise (RuntimeError (ImageNotFound path))
         end)
        (fun e => raise (RuntimeError (ImageClickFailed e)))
  end.

(* ------------------------------------------------------------------- *)
(** *** [_execute_image_right_click] *)

Definition image_right_click_at (click_type : pyval) (click_point : point) : M unit :=
  if eq_str click_type "single" then
    call_unit (Click click_point) (fun n => pyautogui env n (Click click_point))
  else if eq_str click_type "double" then
    call_unit (DoubleClick click_point)
              (fun n => pyautogui env n (DoubleClick click_point))
  else if eq_str click_type "right" then
    call_unit (RightClick click_point)
              (fun n => pyautogui env n (RightClick click_point))
  else raise (ValueError (InvalidClickType click_type)).

Fixpoint image_right_click_loop (monitor_index : Z) (template : Template)
    (min_x min_y : Z) (threshold : float) (click_type : pyval)
    (offset_x offset_y : Z) (delay : float) (attempts : list nat) : M bool :=
  match attempts with
  | [] => ret false
  | attempt :: rest =>
      let* is_running := get_running in
      if negb is_running then ret false
      else
        let* found := call (CaptureScreenshot monitor_index)
                     (fun n => capture_and_match env n monitor_index template) in
        let '(max_val, max_loc) := found in
        if (threshold <=? max_val)%float then
          let* base_point := lift (center_point min_x min_y max_loc template) in
          let* dx := lift (scaled_offset offset_x) in
          let* dy := lift (scaled_offset offset_y) in
          let click_point := (fst base_point + dx, snd base_point + dy) in
          let* _ := image_right_click_at click_type click_point in
          ret true
        else
          let* _ := call_unit (TimeSleep delay) (fun _ => time_sleep env delay) in
          let* _ := emit (LogSearchAttempt (attempt + 1) max_val) in
          image_right_click_loop monitor_index template min_x min_y threshold
                                 click_type offset_x offset_y delay rest
  end.

Definition _execute_image_right_click (step : Step) (monitor_index : Z) : M unit :=
  let params := params step in
  match params !! "path" with
  | None => raise (UnboundLocalError "path")
  | Some path =>
      try_except
        (let* threshold := lift (let! v := getitem params "threshold" in py_float v) in
         let click_type := dict_get params "click_type" (VStr "right") in
         let* offset_x := lift (let! v := getitem params "offset_x" in py_int v) in
         let* offset_y := lift (let! v := getitem params "offset_y" in py_int v) in
         let* retry := lift (let! v := getitem params "retry" in py_int v) in
         let* delay := lift (let! v := getitem params "delay" in py_float v) in
         let* decoded := lift (read_template env path) in
         match decoded with
         | None => raise (ValueError (ImageLoadFailed path))
         | Some template =>
             let* region := lift (get_monitor_region env monitor_index) in
             let '(min_x, min_y, _, _) := region in
             let* clicked := image_right_click_loop monitor_index template min_x min_y
                         threshold click_type offset_x offset_y delay
                         (range_Z (retry + 1)) in
             if clicked : bool then ret tt
             else raise (RuntimeError (ImageNotFound path))
         end)
        (fun e => raise (RuntimeError (ImageRightClickFailed e)))
  end.

(* ------------------------------------------------------------------- *)
(** *** [_execute_key_action] *)

(** [take_screenshot_and_save] catches whatever its body raises. *)
Definition take_screenshot_and_save : M unit :=
  call TakeScreenshotAndSave (fun _ => Ok tt).

Definition _execute_key_action (step : Step) : M unit :=
  let params := params step in
  match params !! "key" with
  | None => raise (UnboundLocalError "key")
  | Some key =>
      try_except
        match key with
        | VStr key =>
            if String.eqb (py_lower key) "ctrl+shift+f12" then
              take_screenshot_and_save
            else if contains_char "+" key then
              let keys := map (fun k => py_lower (py_strip k)) (py_split "+" key) in
              call_unit (Hotkey keys) (fun n => pyautogui env n (Hotkey keys))
            else
              call_unit (Press (py_lower key))
                        (fun n => pyautogui env n (Press (py_lower key)))
        | _ => raise (AttributeError "lower")
        end
        (fun e => raise (RuntimeError (KeyActionFailed e)))
  end.

(* ------------------------------------------------------------------- *)
(** *** [_execute_cmd_command] *)

Definition _execute_cmd_command (step : Step) : M unit :=
  let params := params step in
  match params !! "command" with
  | None => raise (UnboundLocalError "command")
  | Some command =>
      let timeout := dict_get params "timeout" (VInt 30) in
      let wait_completion := dict_get params "wait_completion" (VBool true) in
      let scheduled_time := dict_get params "scheduled_time" VNone in
      try_except
        match command with
        | VStr command =>
            if negb (_validate_command_safety command) then
              raise (RuntimeError (UnsafeCommand (py_prefix 100 command)))
            else
              let* interrupted :=
                if py_truthy scheduled_time then
                  call (WaitForScheduledTime scheduled_time)
                       (fun n => _wait_for_scheduled_time env n scheduled_time)
                else ret false in
              if interrupted : bool then ret tt
              else if py_truthy wait_completion then
                let* result := call (SubprocessRun command timeout)
                                    (fun n => subprocess_run env n command timeout) in
                if returncode result =? 0 then
                  if negb (String.eqb (py_strip (stdout result)) "") then
                    emit (ShowCommandOutput (py_prefix 50 command) (stdout result))
                  else ret tt
                else
                  raise (RuntimeError
                           (CommandExited (returncode result) command (stderr result)))
              else
                call_unit (SubprocessPopen command)
                          (fun n => subprocess_popen env n command)
        | _ => raise (AttributeError "lower")
        end
        (fun e =>
           match e with
           | TimeoutExpired => raise (RuntimeError (CommandTimedOut timeout))
           | _ => raise (RuntimeError (CmdCommandFailed e))
           end)
  end.

(* ------------------------------------------------------------------- *)
(** *** The step loop *)

(** The [if step.type == ... elif ... else] chain of the step loop. *)
Definition dispatch (step : Step) (monitor_index : Z) : M unit :=
  if String.eqb (type step) "repeat_start" then
    (* the log line reads step.params['count'] *)
    let* _ := lift (getitem (params step) "count") in ret tt
  else if String.eqb (type step) "repeat_end" then ret tt
  else if String.eqb (type step) "image_click" then
    _execute_image_click step monitor_index
  else if String.eqb (type step) "coord_click" then _execute_coord_click env step
  else if String.eqb (type step) "coord_drag" then _execute_coord_drag env step
  else if String.eqb (type step) "image_relative_right_click" then
    _execute_image_right_click step monitor_index
  else if String.eqb (type step) "sleep" then _execute_sleep env step
  else if String.eqb (type step) "custom_text" then _execute_custom_text env step
  else if String.eqb (type step) "cmd_command" then _execute_cmd_command step
  else _execute_key_action step.

(** The [for ... in enumerate(execution_plan, start=1)] loop of
    [_execute_steps_for_monitor]; its value is the value the function
    returns: [False] on interruption or on a failed step, [True] after
    the last entry. *)
Fixpoint run_plan (steps : list Step) (monitor_index : Z)
    (total_valid_steps : nat) (execution_plan : plan) (executed_steps : nat)
  : M bool :=
  match execution_plan with
  | [] =>
      let* _ := emit RunCompleted in ret true
  | (step_index, repeat_iter) :: rest =>
      let* is_running := get_running in
      if negb is_running then
        let* _ := emit StatusInterrupted in ret false
      else
        match steps !! step_index with
        | None => raise IndexError
        | Some step =>
            if negb (enabled step) then
              run_plan steps monitor_index total_valid_steps rest executed_steps
            else
              let executed_steps := S executed_steps in
              let* _ := emit (StepStarted step_index executed_steps total_valid_steps) in
              let* dispatched := attempt (dispatch step monitor_index) in
              match dispatched with
              | Ok _ =>
                  let* _ := emit (StepSucceeded step_index) in
                  run_plan steps monitor_index total_valid_steps rest executed_steps
              | Raise e =>
                  let* _ := emit (StepErrorDialog step_index e) in
                  let* _ := set_running false in
                  let* _ := emit (ExecutionButtons false) in
                  ret false
              end
        end
  end.

(** [sum(1 for step_index, _ in execution_plan if self.steps[step_index].enabled)] *)
Fixpoint count_enabled (steps : list Step) (execution_plan : plan) : Outcome nat :=
  match execution_plan with
  | [] => Ok 0%nat
  | (step_index, _) :: rest =>
      match steps !! step_index with
      | None => Raise IndexError
      | Some step =>
          let! n := count_enabled steps rest in
          Ok (if enabled step then S n else n)
      end
  end.

(** The outer [except Exception] of both step runners. *)
Definition run_failed (e : exn) : M bool :=
  let* _ := emit (RunErrorDialog e) in
  let* _ := set_running false in
  let* _ := emit (ExecutionButtons false) in
  ret false.

Definition _execute_steps_for_monitor (steps : list Step) (monitor_index : Z)
  : M bool :=
  try_except
    (let* execution_plan := lift (_generate_execution_plan steps) in
     let* total_valid_steps := lift (count_enabled steps execution_plan) in
     run_plan steps monitor_index total_valid_steps execution_plan 0)
    run_failed.

Definition _execute_steps_for_monitor_from_index (steps : list Step)
    (monitor_index : Z) (start_index : nat) : M bool :=
  try_except
    (let steps_from_index := drop start_index steps in
     let* execution_plan :=
       lift (_generate_execution_plan_from_steps steps_from_index start_index) in
     let* total_valid_steps := lift (count_enabled steps execution_plan) in
     run_plan steps monitor_index total_valid_steps execution_plan 0)
    run_failed.

End Engine.

(* ===================================================================== *)
(** ** The run controller *)

(** [run_all_steps]: the body of its [try]; [self.loop_count] is 1 when the
    guard reads it, so the [ValueError] branch is dead. *)
Definition run_all_steps (w : World) : World :=
  let loop_count := 1 in
  if loop_count <? 0 then w
  else
    mkWorld true loop_count (clock w)
            (trace w ++ [ExecutionButtons true; TrackingStarted;
                         ThreadStarted "_run_all_steps"]).

(** [stop_execution] *)
Definition stop_execution (w : World) : World :=
  mkWorld false (loop_count w) (clock w) (trace w ++ [ExecutionButtons false]).

(** The worker threads a trace has started. *)
Definition threads_started (t : list Event) : nat :=
  length (List.filter (fun e => match e with ThreadStarted _ => true | _ => false end) t).

Close Scope Z_scope.

(* ===================================================================== *)
(** ** Vocabulary of the properties *)

(** A step that is neither loop marker. *)
Definition plain (s : Step) : Prop :=
  type s <> "repeat_start" /\ type s <> "repeat_end".

(** Every [repeat_start] of the window [a, b) closes inside it. *)
Definition closed (steps : list Step) (a b : nat) : Prop :=
  forall p s, a <= p < b -> steps !! p = Some s -> is_repeat_start s = true ->
              exists q, scan steps b (p + 1) 1 = Ok (0, q).

(** The scan that starts after the [repeat_start] at [k] reaches the end of
    the sequence with the nesting counter still positive. *)
Definition unmatched (steps : list Step) (k : nat) : Prop :=
  exists s d q, steps !! k = Some s /\ is_repeat_start s = true
                /\ scan steps (length steps) (k + 1) 1 = Ok (d, q) /\ d <> 0.

(** The [repeat_start] steps carry an integer [count], or none. *)
Definition integer_counts (steps : list Step) : Prop :=
  forall s, In s steps -> is_repeat_start s = true ->
            exists iterations,
              py_range (dict_get (params s) "count" (VInt 1)) = Ok iterations.

(** Plans of the sub-list expander, seen from the plain one. *)
Definition shift_entry (offset : nat) (entry : nat * nat) : nat * nat :=
  (fst entry + offset, snd entry).

Definition shift_exn (offset : nat) (e : exn) : exn :=
  match e with
  | ValueError (NoMatchingRepeatEnd i) => ValueError (NoMatchingRepeatEnd (i + offset))
  | _ => e
  end.

Definition shift_outcome (offset : nat) (o : Outcome plan) : Outcome plan :=
  match o with
  | Ok p => Ok (map (shift_entry offset) p)
  | Raise e => Raise (shift_exn offset e)
  end.

(** The value of [running] after [n] more calls into the services, when
    only stop requests touch it. *)
Definition flag_after (env : Env) (w : World) (n : nat) : bool :=
  running w && forallb (fun t => negb (stop_requested env (clock w + t))) (seq 0 n).

(** The score the capture at clock [c] yields. *)
Definition score_at (env : Env) (c : nat) (monitor_index : Z) (template : Template)
  : float :=
  match capture_and_match env c monitor_index template with
  | Ok (max_val, _) => max_val
  | Raise _ => 0%float
  end.

(** The capture at clock [c] succeeds with a score below [threshold]. *)
Definition below_threshold (env : Env) (c : nat) (monitor_index : Z)
    (template : Template) (threshold : float) : Prop :=
  exists max_val max_loc,
    capture_and_match env c monitor_index template = Ok (max_val, max_loc)
    /\ (threshold <=? max_val)%float = false.

(** What [k] attempts without a match leave in the trace, the first of them
    being attempt number [a] at clock [c]: a capture, the sleep between
    attempts, the log line with the score. *)
Definition search_events (env : Env) (monitor_index : Z) (template : Template)
    (delay : float) (c a k : nat) : list Event :=
  flat_map (fun j => [CaptureScreenshot monitor_index; TimeSleep delay;
                      LogSearchAttempt (a + j + 1)
                                       (score_at env (c + 2 * j) monitor_index template)])
           (seq 0 k).

(** The world after those [k] attempts. *)
Definition after_search (env : Env) (monitor_index : Z) (template : Template)
    (delay : float) (a k : nat) (w : World) : World :=
  mkWorld (flag_after env w (2 * k)) (loop_count w) (clock w + 2 * k)
          (trace w ++ search_events env monitor_index template delay (clock w) a k).

(** What [_execute_image_click] reads before its loop. *)
Definition image_click_setup (env : Env) (step : Step) (monitor_index : Z)
    (path : pyval) (threshold : float) (retry : Z) (delay : float)
    (template : Template) (min_x min_y : Z) : Prop :=
  params step !! "path" = Some path
  /\ py_float env (dict_get (params step) "threshold" VNone) = Ok threshold
  /\ (let! v := getitem (params step) "retry" in py_int env v) = Ok retry
  /\ (let! v := getitem (params step) "delay" in py_float env v) = Ok delay
  /\ read_template env path = Ok (Some template)
  /\ exists total_w total_h,
       get_monitor_region env monitor_index = Ok (min_x, min_y, total_w, total_h).

(** What [_execute_image_right_click] reads before its loop. *)
Definition image_right_click_setup (env : Env) (step : Step) (monitor_index : Z)
    (path : pyval) (threshold : float) (offset_x offset_y retry : Z) (delay : float)
    (template : Template) (min_x min_y : Z) : Prop :=
  params step !! "path" = Some path
  /\ (let! v := getitem (params step) "threshold" in py_float env v) = Ok threshold
  /\ (let! v := getitem (params step) "offset_x" in py_int env v) = Ok offset_x
  /\ (let! v := getitem (params step) "offset_y" in py_int env v) = Ok offset_y
  /\ (let! v := getitem (params step) "retry" in py_int env v) = Ok retry
  /\ (let! v := getitem (params step) "delay" in py_float env v) = Ok delay
  /\ read_template env path = Ok (Some template)
  /\ exists total_w total_h,
       get_monitor_region env monitor_index = Ok (min_x, min_y, total_w, total_h).

(** The event of the click [_execute_image_click] performs for a valid
    [click_type]. *)
Definition image_click_event (click_type : pyval) (p : point) : option Event :=
  if eq_str click_type "single" then Some (Click p)
  else if eq_str click_type "double" then Some (DoubleClick p)
  else if eq_str click_type "right" then Some (ClickRightButton p)
  else None.

(** The screen captures a trace records. *)
Definition captures (t : list Event) : nat :=
  length (List.filter
            (fun e => match e with CaptureScreenshot _ => true | _ => false end) t).

(** The exception both image handlers raise when their loop ends without a
    click, before the handler's own [except] wraps it. *)
Definition image_not_found (path : pyval) : exn :=
  RuntimeError (ImageNotFound path).

(** The world in which a handler starts once the step loop has announced
    the step. *)
Definition step_started (step_index executed_steps total_valid_steps : nat)
    (w : World) : World :=
  mkWorld (running w) (loop_count w) (clock w)
          (trace w ++ [StepStarted step_index executed_steps total_valid_steps]).

(** The world the step loop leaves when the handler of [step_index] raised
    [e] in world [w]. *)
Definition step_failed (step_index : nat) (e : exn) (w : World) : World :=
  mkWorld false (loop_count w) (clock w)
          (trace w ++ [StepErrorDialog step_index e; ExecutionButtons false]).

(** The kinds the step loop names before its final [else]. *)
Definition dispatched_kinds : list string :=
  ["repeat_start"; "repeat_end"; "image_click"; "coord_click"; "coord_drag";
   "image_relative_right_click"; "sleep"; "custom_text"; "cmd_command"].

(** The service call [_execute_key_action] makes for the key text [key]. *)
Definition key_event (key : string) : Event :=
  if String.eqb (py_lower key) "ctrl+shift+f12" then TakeScreenshotAndSave
  else if contains_char "+" key then
    Hotkey (map (fun k => py_lower (py_strip k)) (py_split "+" key))
  else Press (py_lower key).

(** What that call answers at clock [n]: the screenshot helper never
    raises, the synthesizer may. *)
Definition key_answer (env : Env) (n : nat) (key : string) : option exn :=
  match key_event key with
  | TakeScreenshotAndSave => None
  | e => pyautogui env n e
  end.

(** The events that start a process. *)
Definition spawns (e : Event) : bool :=
  match e with
  | SubprocessRun _ _ | SubprocessPopen _ => true
  | _ => false
  end.

(** [ord(c) < 32] *)
Definition is_control (c : ascii) : bool := (code c <? 32)%N.

(** A step with its [click_type] parameter set. *)
Definition with_click_type (click_type : string) (step : Step) : Step :=
  mkStep (type step) (<["click_type" := VStr click_type]> (params step))
         (comment step) (created_at step) (enabled step).

(** The specification's validation rules, in its words: the kinds of its
    data model, a confidence threshold in [0.0, 1.0], a retry count of at
    least 0, a loop count of at least 1. *)
Definition spec_kinds : list string :=
  ["image_click"; "coord_click"; "coord_drag"; "image_offset_click"; "sleep";
   "key"; "copy"; "paste"; "custom_text"; "cmd_command"; "repeat_start";
   "repeat_end"].

Definition spec_recognized (kind : string) : bool :=
  existsb (String.eqb kind) spec_kinds.

Definition spec_threshold_in_range (p : dict) : bool :=
  match p !! "threshold" with
  | Some (VFloat f) => ((0 <=? f) && (f <=? 1))%float
  | _ => false
  end.

Definition spec_retry_in_range (p : dict) : bool :=
  match p !! "retry" with
  | Some (VInt n) => (0 <=? n)%Z
  | _ => false
  end.

Definition spec_count_in_range (p : dict) : bool :=
  match p !! "count" with
  | Some (VInt n) => (1 <=? n)%Z
  | _ => false
  end.

Definition spec_valid (kind : string) (p : dict) : bool :=
  spec_recognized kind
  && (if String.eqb kind "repeat_start" then spec_count_in_range p else true)
  && (if String.eqb kind "image_click" || String.eqb kind "image_offset_click"
      then spec_threshold_in_range p && spec_retry_in_range p else true).

(* ===================================================================== *)
(** ** Concrete runs *)

Module Example.

Definition template : Template := mkTemplate 0 10 20.

(** A screen on which the template scores [score_of n] at clock [n], at
    (100, 50); the stop button is pressed during call [n] when
    [stop_at n]; every other service succeeds. *)
Definition env (stop_at : nat -> bool) (score_of : nat -> float) : Env :=
  mkEnv stop_at
        (fun _ => Raise (ValueError (Text "could not convert string to float")))
        (fun _ => Raise (ValueError (Text "invalid literal for int()")))
        150%float
        (fun _ => Ok (Some template))
        (fun _ => Ok (0, 0, 1920, 1080)%Z)
        (fun n _ _ => Ok (score_of n, (100, 50)%Z))
        (fun _ => None)
        (fun _ _ => None)
        (fun _ _ => Ok false)
        (fun _ _ _ => Ok (mkCompleted 0 "" ""))
        (fun _ _ => None)
        (fun _ => ret tt) (fun _ => ret tt) (fun _ => ret tt) (fun _ => ret tt).

Definition never (_ : nat) : bool := false.

Definition quiet_low : Env := env never (fun _ => 0.5%float).
Definition quiet_lower : Env := env never (fun _ => 0.25%float).
Definition quiet_hit : Env := env never (fun _ => 0.75%float).
Definition stopped_in_first_sleep : Env :=
  env (fun n => n =? 1) (fun _ => 0.5%float).

Definition idle : World := mkWorld false 1 0 [].
Definition started : World := mkWorld true 1 0 [].

Definition step (kind : string) (p : dict) : Step := mkStep kind p "" "t" true.

Definition search_params (retry : Z) : dict :=
  {[ "path" := VStr "button.png"; "threshold" := VFloat 0.75;
     "retry" := VInt retry; "delay" := VFloat 0.5 ]}.

Definition offset_search_params (retry : Z) : dict :=
  {[ "path" := VStr "button.png"; "threshold" := VFloat 0.75;
     "offset_x" := VInt 4; "offset_y" := VInt 6;
     "retry" := VInt retry; "delay" := VFloat 0.5 ]}.

Definition record (kind : string) (p : dict) : StepData :=
  mkStepData (Some kind) (Some p) (Some "") None None [].

(** "echo", a tab, "hello" *)
Definition echo_tab_hello : string := String.append "echo" (String "009" "hello").

End Example.

(* ===================================================================== *)
(** ** More of the step model and of the vocabulary *)

(** [Step.to_dict]: [asdict(self)], every field under its name. *)
Definition to_dict (self : Step) : StepData :=
  mkStepData (Some (type self)) (Some (params self)) (Some (comment self))
             (Some (created_at self)) (Some (enabled self)) [].

(** [paste_step] up to [add_step]: the step built from the clipboard, its
    comment extended by [suffix] (the text " (コピー)"). *)
Definition pasted_step (now suffix : string) (clipboard_step : StepData)
  : Outcome Step :=
  let! new_step := from_dict now clipboard_step in
  Ok (mkStep (type new_step) (params new_step)
             (String.append (comment new_step) suffix)
             (created_at new_step) (enabled new_step)).

(** The indices of the window [a, b) whose step is no [repeat_end]. *)
Definition kept_indices (steps : list Step) (a b : nat) : list nat :=
  List.filter (fun i => match steps !! i with
                        | Some s => negb (is_repeat_end s)
                        | None => false
                        end)
              (seq a (b - a)).

(** The plan of one loop of [count] rounds around [m] plain steps, the
    [repeat_start] at index 0 and the [repeat_end] at index [m + 1]. *)
Definition single_loop_plan (m : nat) (count : Z) (nest_level : nat) : plan :=
  (0, nest_level)
    :: flat_map (fun repeat_iter =>
                   map (fun j => (j + 1, nest_level + repeat_iter + 1)) (seq 0 m)
                   ++ [(m + 1, nest_level + repeat_iter + 1)])
                (seq 0 (Z.to_nat count)).

(** The event of the click [_execute_image_right_click] performs for a
    valid [click_type]. *)
Definition image_right_click_event (click_type : pyval) (p : point) : option Event :=
  if eq_str click_type "single" then Some (Click p)
  else if eq_str click_type "double" then Some (DoubleClick p)
  else if eq_str click_type "right" then Some (RightClick p)
  else None.

(** A pattern without [$]. *)
Fixpoint eol_free (r : regex) : bool :=
  match r with
  | Lit _ | Cls _ => true
  | Cat a b | Alt a b => eol_free a && eol_free b
  | Star a => eol_free a
  | Eol => false
  end.

Module Sample.

Definition key_step : Step := Example.step "key" {[ "key" := VStr "a" ]}.
Definition end_step : Step := Example.step "repeat_end" ∅.
Definition start_step (count : Z) : Step :=
  Example.step "repeat_start" {[ "count" := VInt count ]}.
Definition bare_start_step : Step := Example.step "repeat_start" ∅.
Definition disabled_key_step : Step :=
  mkStep "key" {[ "key" := VStr "a" ]} "" "t" false.

(** A [repeat_start] whose count is the text "3". *)
Definition text_count_start_step : Step :=
  Example.step "repeat_start" {[ "count" := VStr "3" ]}.

(** A closed loop with the count "3", then a [repeat_start] that is never
    closed. *)
Definition text_count_then_open_loop : list Step :=
  [text_count_start_step; end_step; start_step 2; key_step].

(** [repeat_start(count), key, repeat_end] *)
Definition loop (count : Z) : list Step := [start_step count; key_step; end_step].

(** [repeat_start(2), key, key, repeat_end, key]: the tail of it from
    index 2 is the rest of the loop body, the [repeat_end] and the step
    after the loop. *)
Definition loop_then_key : list Step :=
  [start_step 2; key_step; key_step; end_step; key_step].

End Sample.

Module Screens.

(** The template scores 0.5 at the first capture and 0.75 from then on. *)
Definition found_on_second_capture : Env :=
  Example.env Example.never (fun n => if n =? 0 then 0.5%float else 0.75%float).

(** The template is on the screen and the stop button is pressed during
    the first capture. *)
Definition stopped_in_matching_capture : Env :=
  Example.env (fun n => n =? 0) (fun _ => 0.75%float).

Definition middle_click_params : dict :=
  <[ "click_type" := VStr "middle" ]> (Example.search_params 3).

End Screens.

(* ===================================================================== *)
(** ** The worker threads: [_execute_loop] and what runs in it *)

(** An exception above the step runners: as it was raised, or wrapped by
    [_run_steps_for_monitor] into the [RuntimeError] that names the
    monitor. *)
Inductive failure : Type :=
| AsRaised (e : exn)
| MonitorStepsFailed (monitor_index : Z) (e : exn).

(** What the controller shows outside the step loop. *)
Inductive Notice : Type :=
| LoopStatus (mode : string) (round : nat)    (** "🔄 {mode} {round}/{loop_count}" *)
| StatusCompleted                             (** "✅ 実行完了" *)
| StatusError                                 (** "❌ エラー発生" *)
| StatusRunningFrom (step_number : nat)       (** "▶️ ステップ{n}から実行中..." *)
| SelectStepInfo                              (** "実行開始するステップを選択してください" *)
| CompletionNotification                      (** [show_completion_notification] *)
| LoopErrorDialog (mode : string) (f : failure).

Record App : Type := mkApp {
  world : World;
  execution_start_index : nat;     (** [self.execution_start_index] *)
  selected_monitor : Z;            (** [self.selected_monitor] *)
  notices : list Notice            (** oldest first *)
}.

Inductive Attempt (X : Type) : Type :=
| Returned (x : X)
| Failed (f : failure).
Arguments Returned {X} x.
Arguments Failed {X} f.

Definition Worker (X : Type) : Type := App -> Attempt X * App.

Definition with_world (w : World) (a : App) : App :=
  mkApp w (execution_start_index a) (selected_monitor a) (notices a).

Definition notify (n : Notice) (a : App) : App :=
  mkApp (world a) (execution_start_index a) (selected_monitor a) (notices a ++ [n]).

(** [_run_steps_for_monitor] *)
Definition _run_steps_for_monitor (env : Env) (steps : list Step) : Worker bool :=
  fun a =>
    match _execute_steps_for_monitor env steps (selected_monitor a) (world a) with
    | (Ok result, w) => (Returned result, with_world w a)
    | (Raise e, w) =>
        (Failed (MonitorStepsFailed (selected_monitor a) e), with_world w a)
    end.

(** [_run_steps_from_index] *)
Definition _run_steps_from_index (env : Env) (steps : list Step) : Worker bool :=
  fun a =>
    match _execute_steps_for_monitor_from_index
            env steps (selected_monitor a) (execution_start_index a) (world a) with
    | (Ok result, w) => (Returned result, with_world w a)
    | (Raise _, w) => (Returned false, with_world w a)
    end.

(** The [for i in range(int(loop_count))] loop of [_execute_loop]; what
    [run_func] returns is not looked at. *)
Fixpoint loop_rounds {X} (run_func : Worker X) (mode : string) (rounds : list nat)
  : Worker unit :=
  fun a =>
    match rounds with
    | [] => (Returned tt, a)
    | i :: rest =>
        if negb (running (world a)) then (Returned tt, a)
        else
          match run_func (notify (LoopStatus mode (i + 1)) a) with
          | (Returned _, a') => loop_rounds run_func mode rest a'
          | (Failed f, a') => (Failed f, a')
          end
    end.

(** The end of [_execute_loop] after its loop. *)
Definition loop_completed (a : App) : App :=
  let w := world a in
  mkApp (mkWorld false (loop_count w) (clock w) (trace w ++ [ExecutionButtons false]))
        0 (selected_monitor a)
        (notices a ++ [StatusCompleted; CompletionNotification]).

(** The [except Exception] of [_execute_loop]. *)
Definition loop_failed (mode : string) (f : failure) (a : App) : App :=
  let a := notify StatusError a in
  let a := with_world (stop_execution (world a)) a in
  notify (LoopErrorDialog mode f) a.

(** [_execute_loop]: a [loop_count] of zero or less is turned into
    [float('inf')], and [int] of that is an [OverflowError]. *)
Definition _execute_loop {X} (run_func : Worker X) (mode : string) (a : App) : App :=
  let attempted :=
    if (0 <? loop_count (world a))%Z then
      match loop_rounds run_func mode (seq 0 (Z.to_nat (loop_count (world a)))) a with
      | (Returned _, a') => (Returned tt, loop_completed a')
      | (Failed f, a') => (Failed f, a')
      end
    else (Failed (AsRaised OverflowError), a) in
  match attempted with
  | (Returned _, a') => a'
  | (Failed f, a') => loop_failed mode f a'
  end.

(** [_run_all_steps] and [_run_from_index]: [_execute_loop] returns, so
    their own [except] is not entered. *)
Definition _run_all_steps (env : Env) (steps : list Step) (a : App) : App :=
  _execute_loop (_run_steps_for_monitor env steps) "ループ" a.

Definition _run_from_index (env : Env) (steps : list Step) (a : App) : App :=
  _execute_loop (_run_steps_from_index env steps) "選択ステップ" a.

(** [run_from_selected] with the selected row [selection], up to the start
    of the thread, whose target is [_run_from_index]. *)
Definition run_from_selected (selection : option nat) (a : App) : App :=
  match selection with
  | None => notify SelectStepInfo a
  | Some start_index =>
      let w := world a in
      mkApp (mkWorld true 1 (clock w) (trace w ++ [ThreadStarted "_run_from_index"]))
            start_index (selected_monitor a)
            (notices a ++ [StatusRunningFrom (start_index + 1)])
  end.

Module Apps.

(** The worker's view when a run has just been started. *)
Definition fresh : App := mkApp Example.started 0 0 [].

(** The same with a loop count of 0. *)
Definition unbounded : App := mkApp (mkWorld true 0 0 []) 0 0 [].

(** One image click with no retry. *)
Definition one_search : list Step :=
  [Example.step "image_click" (Example.search_params 0)].

End Apps.

(* ===================================================================== *)
(** ** The step list editor and its undo history *)

Module Editing.

(** A [Step] instance as the editor holds it.  [restore_state] calls
    [Step] with the saved [enabled] in the place of [created_at], so the
    attribute holds a [bool] as well as a [str]. *)
Record StepObject : Type := mkObject {
  o_type : string;
  o_params : dict;
  o_comment : string;
  o_created_at : pyval;
  o_enabled : bool
}.

Definition object_of (s : Step) : StepObject :=
  mkObject (type s) (params s) (comment s) (VStr (created_at s)) (enabled s).

(** [Step(type, params, comment, created_at, enabled)] for any value of
    [created_at]: [__post_init__] replaces a falsy one by the time [now]. *)
Definition Step_object (now : string) (type : string) (params : dict)
    (comment : string) (created_at : pyval) (enabled : bool) : StepObject :=
  mkObject type params comment
           (if py_truthy created_at then created_at else VStr now) enabled.

(** The [action] texts of the snapshots. *)
Inductive Action : Type :=
| StepAdded (type : string)                  (** f"ステップ追加: {step.type}" *)
| StepMoved (from_index to_index : Z)        (** f"ステップ移動: {from} → {to}" *)
| StepToggled (was_enabled : bool) (index : Z)
    (** f"ステップ無効化: {index}" for an enabled step, else f"ステップ有効化: {index}" *)
| StepsDeleted (n : nat)                     (** f"ステップ削除: {n}個" *)
| AllStepsCleared                            (** "全ステップクリア" *)
| CurrentState.                              (** 'Current State' *)

(** A snapshot: [steps] holds [asdict(step)] of every step. *)
Record Snapshot : Type := mkSnapshot {
  snap_id : string;
  snap_timestamp : string;
  snap_action : Action;
  snap_steps : list StepObject;
  snap_monitor_index : string
}.

Inductive Dialog : Type :=
| NothingToUndo              (** "元に戻すことのできる操作がありません" *)
| NothingToRedo              (** "やり直すことのできる操作がありません" *)
| UndoFailed (e : exn)       (** f"Undo操作に失敗しました: {e}" *)
| RedoFailed (e : exn).      (** f"Redo操作に失敗しました: {e}" *)

Record Editor : Type := mkEditor {
  steps : list StepObject;
  undo_stack : list Snapshot;            (** [deque(maxlen=50)], newest last *)
  redo_stack : list Snapshot;            (** [deque(maxlen=50)], newest last *)
  current_state_id : option string;
  monitor_var : string;
  shown : list Dialog                    (** oldest first *)
}.

(** [AutoActionTool.__init__], as far as the editor goes *)
Definition initial (monitor : string) : Editor := mkEditor [] [] [] None monitor [].

(** [q.append(x)] on a [deque(maxlen=50)] *)
Definition deque_append {A} (x : A) (q : list A) : list A :=
  let q' := q ++ [x] in
  drop (length q' - 50) q'.

(** [if self.current_state_id:] *)
Definition has_state_id (ed : Editor) : bool :=
  match current_state_id ed with
  | Some id => negb (String.eqb id "")
  | None => false
  end.

(** [save_state]; [fresh_id] is [str(uuid.uuid4())], [now] the time. *)
Definition save_state (fresh_id now : string) (action_description : Action)
    (ed : Editor) : Editor :=
  let state := mkSnapshot fresh_id now action_description (steps ed) (monitor_var ed) in
  mkEditor (steps ed)
           (if has_state_id ed then deque_append state (undo_stack ed)
            else undo_stack ed)
           [] (Some fresh_id) (monitor_var ed) (shown ed).

(** The [Step(...)] call of [restore_state]: positional arguments, the
    fourth of which is [created_at]; [enabled] keeps its default. *)
Definition restored_step (now : string) (step_dict : StepObject) : StepObject :=
  Step_object now (o_type step_dict) (o_params step_dict) (o_comment step_dict)
              (VBool (o_enabled step_dict)) true.

(** [restore_state]: the steps and the monitor are replaced, then the call
    of [self.update_tree], a method [AutoActionTool] does not have, raises
    and the handler re-raises; [times i] is the time at which step [i] is
    built. *)
Definition restore_state (times : nat -> string) (state : Snapshot) (ed : Editor)
  : exn * Editor :=
  (AttributeError "update_tree",
   mkEditor (imap (fun i step_dict => restored_step (times i) step_dict)
                  (snap_steps state))
            (undo_stack ed) (redo_stack ed) (current_state_id ed)
            (snap_monitor_index state) (shown ed)).

Definition show (d : Dialog) (ed : Editor) : Editor :=
  mkEditor (steps ed) (undo_stack ed) (redo_stack ed) (current_state_id ed)
           (monitor_var ed) (shown ed ++ [d]).

(** [undo] *)
Definition undo (fresh_id now : string) (times : nat -> string) (ed : Editor)
  : Editor :=
  match last (undo_stack ed) with
  | None => show NothingToUndo ed
  | Some previous_state =>
      let current_state :=
        mkSnapshot fresh_id now CurrentState (steps ed) (monitor_var ed) in
      let ed := mkEditor (steps ed) (removelast (undo_stack ed))
                         (deque_append current_state (redo_stack ed))
                         (current_state_id ed) (monitor_var ed) (shown ed) in
      let (e, ed) := restore_state times previous_state ed in
      show (UndoFailed e) ed
  end.

(** [redo] *)
Definition redo (fresh_id now : string) (times : nat -> string) (ed : Editor)
  : Editor :=
  match last (redo_stack ed) with
  | None => show NothingToRedo ed
  | Some next_state =>
      let current_state :=
        mkSnapshot fresh_id now CurrentState (steps ed) (monitor_var ed) in
      let ed := mkEditor (steps ed) (deque_append current_state (undo_stack ed))
                         (removelast (redo_stack ed))
                         (current_state_id ed) (monitor_var ed) (shown ed) in
      let (e, ed) := restore_state times next_state ed in
      show (RedoFailed e) ed
  end.

Definition with_steps (l : list StepObject) (ed : Editor) : Editor :=
  mkEditor l (undo_stack ed) (redo_stack ed) (current_state_id ed)
           (monitor_var ed) (shown ed).

(** [toggle_step_enabled] *)
Definition toggle_step_enabled (fresh_id now : string) (index : Z) (ed : Editor)
  : Editor :=
  match (if (0 <=? index)%Z then steps ed !! Z.to_nat index else None) with
  | Some step =>
      let ed := save_state fresh_id now (StepToggled (o_enabled step) index) ed in
      with_steps (<[Z.to_nat index :=
                     mkObject (o_type step) (o_params step) (o_comment step)
                              (o_created_at step) (negb (o_enabled step))]>
                    (steps ed))
                 ed
  | None => ed
  end.

(** [l.insert(i, x)] for an index that is not negative *)
Definition list_insert_at {A} (i : nat) (x : A) (l : list A) : list A :=
  take i l ++ x :: drop i l.

(** [move_step] *)
Definition move_step (fresh_id now : string) (from_index to_index : Z)
    (ed : Editor) : Editor :=
  let len := Z.of_nat (length (steps ed)) in
  if ((0 <=? from_index) && (from_index <? len)
      && (0 <=? to_index) && (to_index <? len))%Z then
    match steps ed !! Z.to_nat from_index with
    | Some step =>
        let ed := save_state fresh_id now (StepMoved from_index to_index) ed in
        with_steps (list_insert_at (Z.to_nat to_index) step
                                   (delete (Z.to_nat from_index) (steps ed)))
                   ed
    | None => ed
    end
  else ed.

(** [add_step]: the guard, the snapshot, the insertion below the selected
    row or at the end. *)
Definition add_step (fresh_id now : string) (selection : option nat) (step : Step)
    (ed : Editor) : Outcome unit * Editor :=
  match add_step_guard step with
  | Raise e => (Raise e, ed)
  | Ok _ =>
      let ed := save_state fresh_id now (StepAdded (type step)) ed in
      let insert_index :=
        match selection with
        | Some selected_index => selected_index + 1
        | None => length (steps ed)
        end in
      (Ok tt, with_steps (list_insert_at insert_index (object_of step) (steps ed)) ed)
  end.

(** [clear_all_steps] once the question is answered by yes *)
Definition clear_all_steps (fresh_id now : string) (ed : Editor) : Editor :=
  with_steps [] (save_state fresh_id now AllStepsCleared ed).

(** What a snapshot keeps of a step and a restore gives back. *)
Definition core (s : StepObject) : string * dict * string :=
  (o_type s, o_params s, o_comment s).

End Editing.

Module Desk.
Import Editing.

(** An enabled key step and a disabled one. *)
Definition two_steps : list StepObject :=
  [object_of Sample.key_step; object_of Sample.disabled_key_step].

(** An editor that holds them after earlier edits. *)
Definition at_work : Editor := mkEditor two_steps [] [] (Some "id-1") "0" [].

(** The same before any edit, as after loading a file. *)
Definition untouched : Editor := mkEditor two_steps [] [] None "0" [].

(** The second step has just been enabled. *)
Definition after_toggle : Editor := toggle_step_enabled "id-2" "10:00:00" 1 at_work.

Definition before_toggle : Snapshot :=
  mkSnapshot "id-2" "10:00:00" (StepToggled false 1) two_steps "0".

Definition later (_ : nat) : string := "10:00:02".

End Desk.

(* ===================================================================== *)
(** ** Loading a configuration file *)

Module Loading.

(** The parsed file, for a file whose [steps] is a list of records with a
    text under [type] and a dict under [params] where they have them. *)
Record Config : Type := mkConfig {
  steps : option (list StepData);
  last_monitor : option pyval;
  loop_count : option pyval
}.

Definition valid_types : list string :=
  ["image_click"; "coord_click"; "coord_drag"; "image_right_click";
   "image_relative_right_click"; "sleep"; "custom_text"; "cmd"; "cmd_command";
   "key_action"; "key"; "copy"; "paste"; "repeat_start"; "repeat_end"].

(** [isinstance(v, int)]: a [bool] is one *)
Definition isinstance_int (v : pyval) : bool :=
  match v with
  | VInt _ | VBool _ => true
  | _ => false
  end.

Definition int_value (v : pyval) : Z :=
  match v with
  | VInt z => z
  | VBool true => 1
  | _ => 0
  end.

(** [if not isinstance(v, int) or v < lo or v > hi: config[key] = dflt] *)
Definition corrected (lo hi dflt : Z) (entry : option pyval) : option pyval :=
  match entry with
  | Some v =>
      if negb (isinstance_int v) || (int_value v <? lo)%Z || (hi <? int_value v)%Z
      then Some (VInt dflt) else Some v
  | None => None
  end.

(** The checks on one step record: [type] and [params] are there and the
    type is a known one. *)
Definition step_structure (step : StepData) : bool :=
  match sd_type step, sd_params step with
  | Some t, Some _ => existsb (String.eqb t) valid_types
  | _, _ => false
  end.

(** [_validate_config_structure]: the verdict, and the config with the
    corrections the function writes into it. *)
Definition _validate_config_structure (config : Config) : bool * Config :=
  match steps config with
  | None => (false, config)
  | Some records =>
      if forallb step_structure records then
        (true, mkConfig (steps config)
                        (corrected 0 10 0 (last_monitor config))
                        (corrected 1 10000 1 (loop_count config)))
      else (false, config)
  end.

(** [for x in xs: ys.append(f(x))], stopping at the first exception *)
Fixpoint for_append {A B} (f : A -> Outcome B) (xs : list A) : Outcome (list B) :=
  match xs with
  | [] => Ok []
  | x :: xs' =>
      let! y := f x in
      let! ys := for_append f xs' in
      Ok (y :: ys)
  end.

Inductive Report : Type :=
| StructureRejected        (** "設定ファイルの構造が正しくありません" *)
| LoadFailed (e : exn)     (** f"設定ファイルの読み込みに失敗しました: {e}" *)
| RefreshFailed (e : exn)  (** f"ツリーの更新に失敗しました: 行番号なし, エラー: {e}" *)
| LoadCompleted (n : nat). (** f"設定読み込み完了: {name} ({n}ステップ)" *)

Record Session : Type := mkSession {
  session_steps : list Step;       (** [self.steps] *)
  selected_monitor : pyval;        (** [self.selected_monitor] *)
  session_loop_count : Z;          (** [self.loop_count] *)
  listed : list Step;              (** the rows [refresh_tree] last drew *)
  reports : list Report            (** oldest first *)
}.

Definition report (r : Report) (s : Session) : Session :=
  mkSession (session_steps s) (selected_monitor s) (session_loop_count s)
            (listed s) (reports s ++ [r]).

(** [os.path.basename(v)]: what is no text is a [TypeError]. *)
Definition basename (v : pyval) : Outcome unit :=
  match v with
  | VStr _ => Ok tt
  | _ => Raise (TypeError "expected str, bytes or os.PathLike object")
  end.

(** [v.replace(...)]: only a text has the method. *)
Definition replace_newlines (v : pyval) : Outcome unit :=
  match v with
  | VStr _ => Ok tt
  | _ => Raise (AttributeError "replace")
  end.

(** [step.params[key]] inside an f-string: the value is only formatted. *)
Definition shown (step : Step) (key : string) : Outcome unit :=
  let! _ := getitem (params step) key in Ok tt.

(** [get_params_display] as far as it can fail: the exception it raises,
    or none.  The text it returns is not rendered. *)
Definition get_params_display (step : Step) : Outcome unit :=
  let kind := type step in
  if String.eqb kind "image_click" then
    let! path := getitem (params step) "path" in
    let! _ := basename path in
    shown step "threshold"
  else if String.eqb kind "coord_click" then
    let! _ := shown step "x" in
    shown step "y"
  else if String.eqb kind "coord_drag" then
    let! _ := shown step "start_x" in
    let! _ := shown step "start_y" in
    let! _ := shown step "end_x" in
    let! _ := shown step "end_y" in
    shown step "duration"
  else if String.eqb kind "image_relative_right_click" then
    let! path := getitem (params step) "path" in
    let! _ := basename path in
    let! _ := shown step "offset_x" in
    shown step "offset_y"
  else if String.eqb kind "sleep" then
    if eq_str (dict_get (params step) "wait_type" (VStr "sleep")) "scheduled"
    then shown step "scheduled_time"
    else Ok tt
  else if existsb (String.eqb kind) ["copy"; "paste"; "key"] then
    shown step "key"
  else if String.eqb kind "custom_text" then
    let! text := getitem (params step) "text" in
    replace_newlines text
  else if String.eqb kind "cmd_command" then
    let! command := getitem (params step) "command" in
    replace_newlines command
  else if String.eqb kind "repeat_start" then
    shown step "count"
  else Ok tt.

(** The loop of [refresh_tree] over the steps: the rows it draws, and the
    exception of [get_params_display] that ends it early, if any.  The
    calls into the widgets are taken to succeed. *)
Fixpoint drawn_rows (steps : list Step) : list Step * option exn :=
  match steps with
  | [] => ([], None)
  | step :: rest =>
      match get_params_display step with
      | Raise e => ([], Some e)
      | Ok _ =>
          let (rows, failure) := drawn_rows rest in
          (step :: rows, failure)
      end
  end.

(** [refresh_tree]: the list is emptied and drawn again; an exception is
    caught, reported, and leaves the rows drawn so far. *)
Definition refresh_tree (s : Session) : Session :=
  let (rows, failure) := drawn_rows (session_steps s) in
  mkSession (session_steps s) (selected_monitor s) (session_loop_count s) rows
            (reports s ++ match failure with
                          | Some e => [RefreshFailed e]
                          | None => []
                          end).

(** [int(str(v))]: the digits of an [int] read back, the text of a [str]
    as [int] reads it, and a [ValueError] for the texts of [True], [None]
    and of a [float]. *)
Definition int_of_str_of (env : Env) (v : pyval) : Outcome Z :=
  match v with
  | VInt n => Ok n
  | VStr s => int_of_str env s
  | _ => Raise (ValueError (Text "invalid literal for int() with base 10"))
  end.

(** [select_monitor(str(self.selected_monitor))]; [monitors] is
    [len(self.monitors)]. *)
Definition select_monitor (env : Env) (monitors : nat) (s : Session)
  : Outcome unit * Session :=
  match int_of_str_of env (selected_monitor s) with
  | Raise e => (Raise e, s)
  | Ok n =>
      let s := mkSession (session_steps s) (VInt n) (session_loop_count s)
                         (listed s) (reports s) in
      if (if (0 <=? n)%Z then Z.to_nat n <? monitors else Z.to_nat (- n) <=? monitors)
      then (Ok tt, s)
      else (Raise IndexError, s)
  end.

(** [load_config_file] from the parsed file on; the writes to the disk
    that follow the update of the list are taken to succeed. *)
Definition load_config_file (env : Env) (now : string) (monitors : nat)
    (config : Config) (s : Session) : Session :=
  match _validate_config_structure config with
  | (false, _) => report StructureRejected s
  | (true, config) =>
      match for_append (load_step now) (default [] (steps config)) with
      | Raise e => report (LoadFailed e) s
      | Ok loaded =>
          let s := mkSession loaded (default (VInt 0) (last_monitor config))
                             (session_loop_count s) (listed s) (reports s) in
          match py_int env (default (VInt 1) (loop_count config)) with
          | Raise e => report (LoadFailed e) s
          | Ok n =>
              let s := mkSession (session_steps s) (selected_monitor s) n
                                 (listed s) (reports s) in
              match select_monitor env monitors s with
              | (Raise e, s) => report (LoadFailed e) s
              | (Ok _, s) => report (LoadCompleted (length loaded)) (refresh_tree s)
              end
          end
      end
  end.

End Loading.

Module Files.
Import Loading.

(** A key step as a saved record, and the same without its comment. *)
Definition key_record : StepData := Example.record "key" {[ "key" := VStr "a" ]}.
Definition bare_record : StepData :=
  mkStepData (Some "key") (Some {[ "key" := VStr "a" ]}) None None None [].

(** One key step, the monitor [monitor], a loop count of 20000. *)
Definition one_key (monitor : Z) : Config :=
  mkConfig (Some [key_record]) (Some (VInt monitor)) (Some (VInt 20000)).

(** A key step without its key: the record loads, the row cannot be
    drawn. *)
Definition keyless_record : StepData := Example.record "key" ∅.

Definition keyless : Config := mkConfig (Some [key_record; keyless_record]) None None.

Definition without_comment : Config :=
  mkConfig (Some [key_record; bare_record]) None None.

Definition empty_session : Session := mkSession [] (VInt 0) 1 [] [].

End Files.

(* ===================================================================== *)
(** ** Waiting for a time of day *)

Module Scheduled.

(** A [datetime]: the day as its ordinal, and the time of day. *)
Record DateTime : Type := mkDateTime {
  day : Z;
  hour : Z;
  minute : Z;
  second : Z;
  microsecond : Z
}.

(** The microseconds from the start of day 0 *)
Definition microseconds (t : DateTime) : Z :=
  (((day t * 24 + hour t) * 60 + minute t) * 60 + second t) * 1000000
  + microsecond t.

(** A number that fits a C [int] *)
Definition c_int (z : Z) : bool := ((-2147483648 <=? z) && (z <=? 2147483647))%Z.

(** [now.replace(hour=h, minute=m, second=s, microsecond=0)]: the
    arguments are first converted to C ints, which fails with an
    [OverflowError]; then the fields are checked. *)
Definition replace_time (now : DateTime) (h m s : Z) : Outcome DateTime :=
  if negb (c_int h && c_int m && c_int s) then Raise OverflowError
  else if negb ((0 <=? h) && (h <=? 23))%Z then
    Raise (ValueError (Text "hour must be in 0..23"))
  else if negb ((0 <=? m) && (m <=? 59))%Z then
    Raise (ValueError (Text "minute must be in 0..59"))
  else if negb ((0 <=? s) && (s <=? 59))%Z then
    Raise (ValueError (Text "second must be in 0..59"))
  else Ok (mkDateTime (day now) h m s 0).

(** [t + timedelta(days=1)]; the last day is 9999-12-31. *)
Definition next_day (t : DateTime) : Outcome DateTime :=
  if (3652059 <=? day t)%Z then Raise OverflowError
  else Ok (mkDateTime (day t + 1) (hour t) (minute t) (second t) (microsecond t)).

(** The moment the wait ends: today at the given time, or tomorrow when
    that is not after [now]. *)
Definition target_time (now : DateTime) (h m s : Z) : Outcome DateTime :=
  let! target_today := replace_time now h m s in
  if (microseconds target_today <=? microseconds now)%Z then next_day target_today
  else Ok target_today.

(** [int((target - now).total_seconds())]: the true quotient of the
    microseconds by a million as a float, truncated. *)
Definition whole_seconds (target now : DateTime) : Outcome Z :=
  let! delta := float_of_Z (microseconds target - microseconds now) in
  Z_of_float (delta / 1000000)%float.

Inductive WaitResult : Type :=
| Returns (interrupted : bool)
| FormatError (e : exn)    (** RuntimeError(f"時刻の形式が正しくありません: {e}") *)
| WaitFailure (e : exn).   (** RuntimeError(f"時間待機に失敗しました: {e}") *)

Section Wait.
Context (env : Env).

(** [while remaining > 0 and self.running: ... time.sleep(1); remaining -= 1] *)
Fixpoint wait_loop (remaining : nat) : M unit :=
  match remaining with
  | 0 => ret tt
  | S remaining' =>
      let* is_running := get_running in
      if is_running : bool then
        let* _ := call_unit env (TimeSleep 1%float)
                             (fun _ => time_sleep env 1%float) in
        wait_loop remaining'
      else ret tt
  end.

(** The [try] block of [_wait_for_scheduled_time]; [now] is what
    [datetime.now()] answers.  The status lines are not recorded. *)
Definition wait_body (now : DateTime) (scheduled_time : pyval) : M bool :=
  match scheduled_time with
  | VStr text =>
      match py_split ":" text with
      | [hour_text; minute_text; second_text] =>
          let* target_hour := lift (int_of_str env hour_text) in
          let* target_minute := lift (int_of_str env minute_text) in
          let* target_second := lift (int_of_str env second_text) in
          let* target := lift (target_time now target_hour target_minute
                                           target_second) in
          let* remaining := lift (whole_seconds target now) in
          let* _ := wait_loop (Z.to_nat remaining) in
          let* is_running := get_running in
          ret (negb is_running)
      | _ =>
          raise (ValueError (Text
            "時刻の形式が正しくありません。HH:MM:SS形式で入力してください。"))
      end
  | _ => raise (AttributeError "split")
  end.

(** [_wait_for_scheduled_time] *)
Definition _wait_for_scheduled_time (now : DateTime) (scheduled_time : pyval)
    (w : World) : WaitResult * World :=
  match wait_body now scheduled_time w with
  | (Ok interrupted, w') => (Returns interrupted, w')
  | (Raise (ValueError m), w') => (FormatError (ValueError m), w')
  | (Raise e, w') => (WaitFailure e, w')
  end.

End Wait.

(** [n] sleeps of one second *)
Definition sleeps (n : nat) : list Event := repeat (TimeSleep 1%float) n.

End Scheduled.

(** The wait for [scheduled_time], entered at [now], reads its three
    numbers and has [remaining] whole seconds to go. *)
Definition due (env : Env) (now : Scheduled.DateTime) (scheduled_time : pyval)
    (remaining : Z) : Prop :=
  exists text hour_text minute_text second_text h m s target,
    scheduled_time = VStr text
    /\ py_split ":" text = [hour_text; minute_text; second_text]
    /\ int_of_str env hour_text = Ok h
    /\ int_of_str env minute_text = Ok m
    /\ int_of_str env second_text = Ok s
    /\ Scheduled.target_time now h m s = Ok target
    /\ Scheduled.whole_seconds target now = Ok remaining.

(** The world after [n] sleeps of one second, when only stop requests
    touch the flag. *)
Definition slept (env : Env) (n : nat) (w : World) : World :=
  mkWorld (flag_after env w n) (loop_count w) (clock w + n)
          (trace w ++ Scheduled.sleeps n).

(** A time of day as [datetime] has it. *)
Definition time_of_day (t : Scheduled.DateTime) : Prop :=
  (0 <= Scheduled.hour t <= 23 /\ 0 <= Scheduled.minute t <= 59
   /\ 0 <= Scheduled.second t <= 59 /\ 0 <= Scheduled.microsecond t <= 999999)%Z.

Module Clocks.

(** Reads the decimal numbers of at most two digits the examples use. *)
Definition two_digits (s : string) : Outcome Z :=
  match s with
  | String a (String b EmptyString) =>
      if is_digit a && is_digit b
      then Ok ((Z.of_N (code a) - 48) * 10 + (Z.of_N (code b) - 48))%Z
      else Raise (ValueError (Text "invalid literal for int() with base 10"))
  | _ => Raise (ValueError (Text "invalid literal for int() with base 10"))
  end.

(** Reads a text of decimal digits. *)
Fixpoint decimal_from (acc : Z) (s : string) : Outcome Z :=
  match s with
  | EmptyString => Ok acc
  | String c t =>
      if is_digit c then decimal_from (acc * 10 + (Z.of_N (code c) - 48))%Z t
      else Raise (ValueError (Text "invalid literal for int() with base 10"))
  end.

Definition decimal (s : string) : Outcome Z :=
  match s with
  | EmptyString => Raise (ValueError (Text "invalid literal for int() with base 10"))
  | _ => decimal_from 0 s
  end.

(** The stop button is pressed during call [n] when [stop_at n]. *)
Definition env (stop_at : nat -> bool) : Env :=
  mkEnv stop_at
        (fun _ => Raise (ValueError (Text "could not convert string to float")))
        two_digits
        100%float
        (fun _ => Ok None)
        (fun _ => Ok (0, 0, 1920, 1080)%Z)
        (fun _ _ _ => Raise (RuntimeError (Text "no screen")))
        (fun _ => None)
        (fun _ _ => None)
        (fun _ _ => Ok false)
        (fun _ _ _ => Ok (mkCompleted 0 "" ""))
        (fun _ _ => None)
        (fun _ => ret tt) (fun _ => ret tt) (fun _ => ret tt) (fun _ => ret tt).

(** An engine that reads numbers of any length. *)
Definition reading_long_numbers : Env :=
  mkEnv Example.never
        (fun _ => Raise (ValueError (Text "could not convert string to float")))
        decimal
        100%float
        (fun _ => Ok None)
        (fun _ => Ok (0, 0, 1920, 1080)%Z)
        (fun _ _ _ => Raise (RuntimeError (Text "no screen")))
        (fun _ => None)
        (fun _ _ => None)
        (fun _ _ => Ok false)
        (fun _ _ _ => Ok (mkCompleted 0 "" ""))
        (fun _ _ => None)
        (fun _ => ret tt) (fun _ => ret tt) (fun _ => ret tt) (fun _ => ret tt).

(** An engine whose scheduled wait reports an interruption. *)
Definition cancelled : Env :=
  mkEnv Example.never
        (fun _ => Raise (ValueError (Text "could not convert string to float")))
        two_digits
        100%float
        (fun _ => Ok None)
        (fun _ => Ok (0, 0, 1920, 1080)%Z)
        (fun _ _ _ => Raise (RuntimeError (Text "no screen")))
        (fun _ => None)
        (fun _ _ => None)
        (fun _ _ => Ok true)
        (fun _ _ _ => Ok (mkCompleted 0 "" ""))
        (fun _ _ => None)
        (fun _ => ret tt) (fun _ => ret tt) (fun _ => ret tt) (fun _ => ret tt).

(** [echo hello] at ten o'clock *)
Definition echo_at_ten : Step :=
  Example.step "cmd_command"
               {[ "command" := VStr "echo hello"; "scheduled_time" := VStr "10:00:00" ]}.

(** 09:59:57 and a half on some day *)
Definition just_before_ten : Scheduled.DateTime :=
  Scheduled.mkDateTime 739000 9 59 57 500000.

(** 10:00:00 sharp *)
Definition ten_sharp : Scheduled.DateTime := Scheduled.mkDateTime 739000 10 0 0 0.

End Clocks.

(* ===================================================================== *)
(** ** Properties of the plan expander *)

Section Scan.
Variable steps : list Step.

Lemma scan_unfold end_idx p d :
  scan steps end_idx p d =
  if (p <? end_idx) && (0 <? d) then
    match steps !! p with
    | None => Raise IndexError
    | Some s => scan steps end_idx (S p) (scan_depth s d)
    end
  else Ok (d, p).
Proof.
  unfold scan. destruct (end_idx - p) as [|n] eqn:Hn; simpl.
  - destruct (Nat.ltb_spec p end_idx); [lia|reflexivity].
  - replace (end_idx - S p) with n by lia. reflexivity.
Qed.

(** Induction along the turns of the scan. *)
Lemma scan_ind end_idx (P : nat -> nat -> Outcome (nat * nat) -> Prop) :
  (forall p d, end_idx <= p \/ d = 0 -> P p d (Ok (d, p))) ->
  (forall p d, p < end_idx -> 0 < d -> steps !! p = None -> P p d (Raise IndexError)) ->
  (forall p d s, p < end_idx -> 0 < d -> steps !! p = Some s ->
                 P (S p) (scan_depth s d) (scan steps end_idx (S p) (scan_depth s d)) ->
                 P p d (scan steps end_idx (S p) (scan_depth s d))) ->
  forall p d, P p d (scan steps end_idx p d).
Proof.
  intros Hstop Hnone Hstep p.
  remember (end_idx - p) as m eqn:Hm. revert p Hm.
  induction m as [|m IH]; intros p Hm d; rewrite scan_unfold.
  - destruct (Nat.ltb_spec p end_idx); [lia|]. apply Hstop. lia.
  - destruct (Nat.ltb_spec p end_idx); [|lia].
    destruct (Nat.ltb_spec 0 d); simpl; [|apply Hstop; lia].
    destruct (steps !! p) as [s|] eqn:Hs; [|now apply Hnone].
    apply (Hstep p d s); auto. apply IH. lia.
Qed.

Lemma scan_total end_idx p d :
  end_idx <= length steps -> exists r, scan steps end_idx p d = Ok r.
Proof.
  intros Hlen. apply (scan_ind end_idx (fun _ _ o => exists r, o = Ok r)); eauto.
  intros q _ Hq _ Hnone. apply lookup_ge_None in Hnone. lia.
Qed.

Lemma scan_bounds end_idx p d d' q :
  scan steps end_idx p d = Ok (d', q) ->
  p <= q /\ (p <= end_idx -> q <= end_idx) /\ (0 < d -> d' = 0 -> p < q).
Proof.
  revert d' q.
  apply (scan_ind end_idx (fun p d o => forall d' q, o = Ok (d', q) ->
           p <= q /\ (p <= end_idx -> q <= end_idx) /\ (0 < d -> d' = 0 -> p < q))).
  - intros p0 d0 H d' q [= <- <-]. lia.
  - discriminate.
  - intros p0 d0 s Hp Hd Hs IH d' q Hq. specialize (IH _ _ Hq). lia.
Qed.

Lemma scan_depth_add s d x : 1 <= d -> scan_depth s (d + x) = scan_depth s d + x.
Proof. intros. unfold scan_depth. destruct (is_repeat_start s), (is_repeat_end s); lia. Qed.

(** The step that closes a region is a [repeat_end]. *)
Lemma scan_closes_at_end end_idx p d q :
  scan steps end_idx p d = Ok (0, q) -> 1 <= d ->
  exists s, steps !! (q - 1) = Some s
            /\ is_repeat_end s = true /\ is_repeat_start s = false.
Proof.
  revert q.
  apply (scan_ind end_idx (fun p d o => forall q, o = Ok (0, q) -> 1 <= d ->
           exists s, steps !! (q - 1) = Some s
                     /\ is_repeat_end s = true /\ is_repeat_start s = false)).
  - intros p0 d0 H q [= -> <-]. lia.
  - discriminate.
  - intros p0 d0 s Hp Hd Hs IH q Hq _.
    destruct (scan_depth s d0) as [|d1] eqn:Hsd.
    + rewrite scan_unfold in Hq.
      replace ((S p0 <? end_idx) && (0 <? 0)) with false in Hq
        by (now rewrite andb_false_r).
      injection Hq as <-. replace (S p0 - 1) with p0 by lia.
      exists s. split; [assumption|]. unfold scan_depth in Hsd.
      destruct (is_repeat_start s); [discriminate|].
      destruct (is_repeat_end s); [auto|lia].
    + apply IH; [assumption|lia].
Qed.

(** A scan that starts deeper closes later. *)
Lemma scan_shallower end_idx p d x q :
  scan steps end_idx p (d + x) = Ok (0, q) -> 1 <= d -> 1 <= x ->
  exists q', scan steps end_idx p d = Ok (0, q') /\ q' < q.
Proof.
  remember (end_idx - p) as m eqn:Hm. revert p d Hm.
  induction m as [|m IH]; intros p d Hm Hq Hd Hx; rewrite scan_unfold in Hq.
  - destruct (Nat.ltb_spec p end_idx); [lia|]. simpl in Hq. injection Hq as Hz _. lia.
  - destruct (Nat.ltb_spec p end_idx); [|lia].
    destruct (Nat.ltb_spec 0 (d + x)); [|lia]. simpl in Hq.
    destruct (steps !! p) as [s|] eqn:Hs; [|discriminate].
    rewrite scan_depth_add in Hq by assumption.
    rewrite (scan_unfold end_idx p d).
    destruct (Nat.ltb_spec p end_idx); [|lia].
    destruct (Nat.ltb_spec 0 d); [|lia]. simpl. rewrite Hs.
    destruct (scan_depth s d) as [|d1] eqn:Hsd.
    + exists (S p). split.
      * rewrite scan_unfold. now rewrite andb_false_r.
      * apply scan_bounds in Hq. simpl in Hq. lia.
    + rewrite <- Hsd in *. apply IH; [lia|assumption|lia|assumption].
Qed.

(** A scan that closes at [q] was still open at every position before. *)
Lemma scan_through end_idx p d q k :
  scan steps end_idx p d = Ok (0, q) -> p <= k -> k < q ->
  exists dk, 1 <= dk /\ scan steps end_idx k dk = Ok (0, q).
Proof.
  revert q.
  apply (scan_ind end_idx (fun p d o => forall q, o = Ok (0, q) -> p <= k -> k < q ->
           exists dk, 1 <= dk /\ scan steps end_idx k dk = Ok (0, q))).
  - intros p0 d0 H q [= -> <-]. lia.
  - discriminate.
  - intros p0 d0 s Hp Hd Hs IH q Hq Hpk Hkq.
    destruct (Nat.eq_dec p0 k) as [->|Hne].
    + exists d0. split; [lia|]. rewrite scan_unfold.
      destruct (Nat.ltb_spec k end_idx); [|lia].
      destruct (Nat.ltb_spec 0 d0); [|lia]. simpl. now rewrite Hs.
    + apply IH; [assumption|lia|assumption].
Qed.

(** A [repeat_start] strictly inside a closed region closes inside it. *)
Lemma scan_interior end_idx i q k s :
  scan steps end_idx (i + 1) 1 = Ok (0, q) -> i < k -> k + 1 < q ->
  steps !! k = Some s -> is_repeat_start s = true ->
  exists q', scan steps end_idx (k + 1) 1 = Ok (0, q') /\ q' < q.
Proof.
  intros Hq Hik Hkq Hs Hstart.
  destruct (scan_through _ _ _ _ k Hq) as (dk & Hdk & Hk); [lia|lia|].
  rewrite scan_unfold in Hk.
  destruct (Nat.ltb_spec k end_idx); simpl in Hk.
  2:{ injection Hk as Hz _. lia. }
  destruct (Nat.ltb_spec 0 dk); [|lia]. rewrite Hs in Hk.
  unfold scan_depth in Hk. rewrite Hstart in Hk.
  replace (k + 1) with (S k) by lia.
  apply (scan_shallower end_idx (S k) 1 dk q); [exact Hk|lia|lia].
Qed.

(** The result of a scan that closes does not depend on how far the
    window extends beyond the closing step. *)
Lemma scan_window end_idx end_idx' p d q :
  scan steps end_idx p d = Ok (0, q) -> q <= end_idx' ->
  scan steps end_idx' p d = Ok (0, q).
Proof.
  revert q.
  apply (scan_ind end_idx (fun p d o => forall q, o = Ok (0, q) -> q <= end_idx' ->
           scan steps end_idx' p d = Ok (0, q))).
  - intros p0 d0 H q [= -> <-] _. rewrite scan_unfold. now rewrite andb_false_r.
  - discriminate.
  - intros p0 d0 s Hp Hd Hs IH q Hq Hle.
    pose proof (scan_bounds _ _ _ _ _ Hq) as (Hb & _ & _).
    rewrite scan_unfold.
    destruct (Nat.ltb_spec p0 end_idx'); [|lia].
    destruct (Nat.ltb_spec 0 d0); [|lia]. simpl. rewrite Hs. now apply IH.
Qed.

Lemma closed_body end_idx i q :
  scan steps end_idx (i + 1) 1 = Ok (0, q) -> closed steps (i + 1) (q - 1).
Proof.
  intros Hq p s Hp Hs Hstart.
  destruct (scan_interior end_idx i q p s) as (q' & Hq' & Hlt); auto; try lia.
  exists q'. apply (scan_window end_idx); [assumption|lia].
Qed.

Lemma closed_suffix a a' b : closed steps a b -> a <= a' -> closed steps a' b.
Proof. intros H Hle p s Hp. apply H. lia. Qed.

Lemma for_extend_ok {A B} (f : A -> Outcome (list B)) xs :
  (forall x, exists ys, f x = Ok ys) -> exists zs, for_extend f xs = Ok zs.
Proof.
  intros Hf. induction xs as [|x xs [zs IH]]; simpl; [eauto|].
  destruct (Hf x) as [ys ->]. simpl. rewrite IH. simpl. eauto.
Qed.

Lemma lookup_In (l : list Step) i s : l !! i = Some s -> In s l.
Proof. intros H. apply list_elem_of_In. eapply list_elem_of_lookup_2; eauto. Qed.

Lemma expand_closed n :
  integer_counts steps ->
  forall a b nest_level, b <= length steps -> closed steps a b ->
    exists p, expand n steps a b nest_level = Ok p.
Proof.
  intros Hcounts. induction n as [|n IH]; intros a b nest_level Hlen Hclosed; simpl;
    [eauto|].
  destruct (Nat.ltb_spec a b) as [Hab|]; [|eauto].
  destruct (steps !! a) as [s|] eqn:Hs.
  2:{ apply lookup_ge_None in Hs. lia. }
  destruct (is_repeat_start s) eqn:Hstart.
  - destruct (Hclosed a s ltac:(lia) Hs Hstart) as [q Hq].
    rewrite Hq. simpl.
    destruct (Hcounts s (lookup_In _ _ _ Hs) Hstart) as [iterations ->]. simpl.
    pose proof (scan_bounds _ _ _ _ _ Hq) as (Hb1 & Hb2 & Hb3).
    destruct (for_extend_ok
                (fun repeat_iter =>
                   let! inner_plan := expand n steps (a + 1) (q - 1)
                                             (nest_level + repeat_iter + 1) in
                   Ok (inner_plan ++ [(q - 1, nest_level + repeat_iter + 1)]))
                iterations) as [body ->].
    { intros x. destruct (IH (a + 1) (q - 1) (nest_level + x + 1)) as [p ->];
        [lia|eapply closed_body; eauto|]. simpl. eauto. }
    simpl.
    destruct (IH (q - 1 + 1) b nest_level) as [rest ->];
      [lia|eapply closed_suffix; eauto; lia|]. simpl. eauto.
  - destruct (is_repeat_end s).
    + apply IH; [lia|eapply closed_suffix; eauto; lia].
    + destruct (IH (a + 1) b nest_level) as [rest ->];
        [lia|eapply closed_suffix; eauto; lia|]. simpl. eauto.
Qed.

Lemma expand_unmatched k :
  integer_counts steps -> unmatched steps k ->
  forall n i nest_level, i <= k -> length steps - i <= n ->
    exists i', i <= i' <= k /\ unmatched steps i'
               /\ expand n steps i (length steps) nest_level
                  = Raise (ValueError (NoMatchingRepeatEnd i')).
Proof.
  intros Hcounts Hk. pose proof Hk as (sk & dk & qk & Hsk & Hstartk & Hscank & Hdk).
  assert (Hklen : k < length steps) by (eapply lookup_lt_Some; eauto).
  induction n as [|n IH]; intros i nest_level Hik Hn; [lia|]. simpl.
  destruct (Nat.ltb_spec i (length steps)); [|lia].
  destruct (steps !! i) as [s|] eqn:Hs.
  2:{ apply lookup_ge_None in Hs. lia. }
  destruct (is_repeat_start s) eqn:Hstart.
  - destruct (scan_total (length steps) (i + 1) 1) as [[d q] Hq]; [lia|].
    rewrite Hq. simpl. destruct d as [|d]; simpl.
    + pose proof (scan_bounds _ _ _ _ _ Hq) as (Hb1 & Hb2 & Hb3).
      assert (Hqk : q <= k).
      { destruct (Nat.le_gt_cases q k) as [|Hgt]; [assumption|exfalso].
        destruct (Nat.eq_dec i k) as [->|Hne].
        - rewrite Hq in Hscank. injection Hscank as <- _. congruence.
        - destruct (scan_closes_at_end _ _ _ _ Hq) as (se & Hse & _ & Hnot); [lia|].
          assert (k <> q - 1) by (intros ->; congruence).
          destruct (scan_interior (length steps) i q k sk) as (q' & Hq' & _);
            auto; try lia.
          rewrite Hq' in Hscank. injection Hscank as <- _. congruence. }
      destruct (Hcounts s (lookup_In _ _ _ Hs) Hstart) as [iterations ->]. simpl.
      destruct (for_extend_ok
                  (fun repeat_iter =>
                     let! inner_plan := expand n steps (i + 1) (q - 1)
                                               (nest_level + repeat_iter + 1) in
                     Ok (inner_plan ++ [(q - 1, nest_level + repeat_iter + 1)]))
                  iterations) as [body ->].
      { intros x.
        destruct (expand_closed n Hcounts (i + 1) (q - 1) (nest_level + x + 1))
          as [p ->]; [lia|eapply closed_body; eauto|]. simpl. eauto. }
      simpl.
      destruct (IH (q - 1 + 1) nest_level) as (i' & Hi' & Hun & ->); [lia|lia|].
      exists i'. simpl. split; [lia|auto].
    + exists i. split; [lia|]. split; [|reflexivity].
      exists s, (S d), q. auto.
  - assert (i <> k) by (intros ->; congruence).
    destruct (is_repeat_end s).
    + destruct (IH (i + 1) nest_level) as (i' & Hi' & Hun & ->); [lia|lia|].
      exists i'. split; [lia|auto].
    + destruct (IH (i + 1) nest_level) as (i' & Hi' & Hun & ->); [lia|lia|].
      exists i'. simpl. split; [lia|auto].
Qed.

End Scan.

Lemma find_repeat_end_raises n steps end_idx end_pos d e :
  find_repeat_end n steps end_idx end_pos d = Raise e -> e = IndexError.
Proof.
  revert end_pos d. induction n as [|n IH]; intros end_pos d; simpl; [discriminate|].
  destruct ((end_pos <? end_idx) && (0 <? d)); [|discriminate].
  destruct (steps !! end_pos); [apply IH|congruence].
Qed.

Lemma py_range_raises v e : py_range v = Raise e -> e = TypeError "range".
Proof. destruct v; simpl; congruence. Qed.

Lemma for_extend_shift {A} offset (f g : A -> Outcome plan) xs :
  (forall x, f x = shift_outcome offset (g x)) ->
  for_extend f xs = shift_outcome offset (for_extend g xs).
Proof.
  intros Hfg. induction xs as [|x xs IH]; simpl; [reflexivity|].
  rewrite Hfg, IH. destruct (g x) as [p|e]; simpl; [|reflexivity].
  destruct (for_extend g xs) as [q|e]; simpl; [|reflexivity].
  now rewrite map_app.
Qed.

Lemma expand_from_shift n steps i end_idx offset nest_level :
  expand_from n steps i end_idx offset nest_level
  = shift_outcome offset (expand n steps i end_idx nest_level).
Proof.
  revert i end_idx nest_level.
  induction n as [|n IH]; intros i end_idx nest_level; simpl; [reflexivity|].
  destruct (i <? end_idx); [|reflexivity].
  destruct (steps !! i) as [step|]; [|reflexivity].
  destruct (is_repeat_start step).
  - destruct (scan steps end_idx (i + 1) 1) as [[nest_depth end_pos]|e] eqn:Hscan; simpl.
    2:{ apply find_repeat_end_raises in Hscan. now subst. }
    destruct (nest_depth =? 0); [|reflexivity].
    destruct (py_range _) as [iterations|e] eqn:Hrange; simpl.
    2:{ apply py_range_raises in Hrange. now subst. }
    rewrite (for_extend_shift offset _
               (fun repeat_iter =>
                  let! inner_plan := expand n steps (i + 1) (end_pos - 1)
                                            (nest_level + repeat_iter + 1) in
                  Ok (inner_plan ++ [(end_pos - 1, nest_level + repeat_iter + 1)]))).
    2:{ intros x. rewrite IH.
        destruct (expand n steps (i + 1) (end_pos - 1) (nest_level + x + 1));
          simpl; [|reflexivity].
        now rewrite map_app. }
    destruct (for_extend _ iterations) as [body|e]; simpl; [|reflexivity].
    rewrite IH.
    destruct (expand n steps (end_pos - 1 + 1) end_idx nest_level); simpl; [|reflexivity].
    now rewrite map_app.
  - destruct (is_repeat_end step); [apply IH|].
    rewrite IH. now destruct (expand n steps (i + 1) end_idx nest_level).
Qed.

(** C10. Over the full range of any step list the sub-list expander with
    offset [o] returns the plan of the plain expander with [o] added to
    every step index and the nest levels as they are (an error that names a
    step names it shifted as well); with [o = 0] the two expanders return
    the same plan; and the plan of "run from the selected step", built from
    the suffix of the sequence with the selected index as offset, is the
    plan of the suffix in the indices of the full sequence. *)
Theorem from_steps_expander_is_shifted_expander (s : list Step) (o : nat) :
  _expand_nested_loops_from_steps s 0 (length s) o 0
    = shift_outcome o (_expand_nested_loops s 0 (length s) 0)
  /\ _expand_nested_loops_from_steps s 0 (length s) 0 0
     = _expand_nested_loops s 0 (length s) 0
  /\ forall steps : list Step,
      _generate_execution_plan_from_steps (drop o steps) o
      = shift_outcome o (_generate_execution_plan (drop o steps)).
Proof.
  split; [apply expand_from_shift|]. split.
  - unfold _expand_nested_loops_from_steps. rewrite expand_from_shift.
    unfold _expand_nested_loops.
    destruct (expand _ s 0 (length s) 0) as [p|e]; simpl.
    + f_equal. rewrite <- (map_id p) at 2. apply map_ext. intros [a b].
      unfold shift_entry; simpl. f_equal. lia.
    + destruct e; try reflexivity. destruct m; try reflexivity. simpl.
      now rewrite Nat.add_0_r.
  - intros steps. apply expand_from_shift.
Qed.

Lemma plain_not_start s : plain s -> is_repeat_start s = false.
Proof. intros [H _]. now apply String.eqb_neq. Qed.

Lemma plain_not_end s : plain s -> is_repeat_end s = false.
Proof. intros [_ H]. now apply String.eqb_neq. Qed.

(** C1. A sequence [A, repeat_start(count=3), B, repeat_end, C] with plain
    [A], [B], [C] expands to the nine entries
    [A, start, B, end, B, end, B, end, C]: the start marker once at the
    current nest level, the body and the end marker once per iteration [i],
    both at nest level [nest_level + i + 1]. *)
Theorem loop_of_three_unrolls (A start B end_ C : Step) (nest_level : nat) :
  plain A -> plain B -> plain C ->
  type start = "repeat_start" -> params start !! "count" = Some (VInt 3) ->
  type end_ = "repeat_end" ->
  _expand_nested_loops [A; start; B; end_; C] 0 5 nest_level
  = Ok [ (0, nest_level); (1, nest_level);
         (2, nest_level + 0 + 1); (3, nest_level + 0 + 1);
         (2, nest_level + 1 + 1); (3, nest_level + 1 + 1);
         (2, nest_level + 2 + 1); (3, nest_level + 2 + 1);
         (4, nest_level) ].
Proof.
  intros HA HB HC Hstart Hcount Hend.
  assert (Hs1 : is_repeat_start start = true) by (unfold is_repeat_start; now rewrite Hstart).
  assert (He1 : is_repeat_end end_ = true) by (unfold is_repeat_end; now rewrite Hend).
  assert (He0 : is_repeat_start end_ = false) by (unfold is_repeat_start; now rewrite Hend).
  pose proof (plain_not_start _ HA) as HA1. pose proof (plain_not_end _ HA) as HA2.
  pose proof (plain_not_start _ HB) as HB1. pose proof (plain_not_end _ HB) as HB2.
  pose proof (plain_not_start _ HC) as HC1. pose proof (plain_not_end _ HC) as HC2.
  unfold _expand_nested_loops.
  repeat (progress
    (cbn [expand Nat.sub Nat.ltb Nat.leb lookup list_lookup Nat.add obind
          scan find_repeat_end andb Nat.eqb Nat.pred py_range Z.to_nat
          Pos.to_nat Pos.iter_op seq for_extend app];
     unfold scan_depth, dict_get;
     rewrite ?HA1, ?HA2, ?Hs1, ?HB1, ?HB2, ?He0, ?He1, ?HC1, ?HC2, ?Hcount)).
  reflexivity.
Qed.

(** The bound of [expand] never cuts the loop short: any bound that covers
    the window gives the same plan. *)
Lemma for_extend_ext {A B} (f g : A -> Outcome (list B)) xs :
  (forall x, f x = g x) -> for_extend f xs = for_extend g xs.
Proof.
  intros Hfg. induction xs as [|x xs IH]; simpl; [reflexivity|].
  now rewrite Hfg, IH.
Qed.

Lemma expand_fuel steps n :
  forall m i end_idx nest_level,
    end_idx - i <= n -> end_idx - i <= m ->
    expand n steps i end_idx nest_level = expand m steps i end_idx nest_level.
Proof.
  induction n as [|n IH]; intros m i end_idx nest_level Hn Hm.
  - destruct m as [|m]; [reflexivity|]. simpl.
    destruct (Nat.ltb_spec i end_idx); [lia|reflexivity].
  - destruct m as [|m]; simpl.
    { destruct (Nat.ltb_spec i end_idx); [lia|reflexivity]. }
    destruct (Nat.ltb_spec i end_idx); [|reflexivity].
    destruct (steps !! i) as [step|]; [|reflexivity].
    destruct (is_repeat_start step).
    + destruct (scan steps end_idx (i + 1) 1) as [[d q]|e] eqn:Hq; [|reflexivity].
      simpl. destruct d as [|d]; [|reflexivity]. simpl.
      pose proof (scan_bounds _ _ _ _ _ _ Hq) as (Hb1 & Hb2 & Hb3).
      destruct (py_range _) as [iterations|]; [|reflexivity]. simpl.
      rewrite (for_extend_ext _
                 (fun repeat_iter =>
                    let! inner_plan := expand m steps (i + 1) (q - 1)
                                              (nest_level + repeat_iter + 1) in
                    Ok (inner_plan ++ [(q - 1, nest_level + repeat_iter + 1)]))).
      2:{ intros x. rewrite (IH m) by lia. reflexivity. }
      rewrite (IH m) by lia. reflexivity.
    + rewrite (IH m) by lia. reflexivity.
Qed.

Lemma expand_unmatched_least steps i j n nest_level :
  integer_counts steps -> unmatched steps j -> length steps <= n ->
  expand n steps 0 (length steps) nest_level = Raise (ValueError (NoMatchingRepeatEnd i)) ->
  i <= j.
Proof.
  intros Hcounts Hj Hn Hi.
  destruct (expand_unmatched steps j Hcounts Hj n 0 nest_level) as (i' & Hle & _ & Hi');
    [lia|lia|].
  rewrite Hi in Hi'. injection Hi' as ->. lia.
Qed.

(** Without any assumption on the counts an unmatched [repeat_start] still
    leaves the sequence without a plan. *)
Lemma for_extend_cases {A B} (f : A -> Outcome (list B)) xs :
  (exists ys, for_extend f xs = Ok ys) \/ (exists e, for_extend f xs = Raise e).
Proof. destruct (for_extend f xs); eauto. Qed.

Lemma expand_unmatched_raises steps k :
  unmatched steps k ->
  forall n i nest_level, i <= k -> length steps - i <= n ->
    exists e, expand n steps i (length steps) nest_level = Raise e.
Proof.
  intros Hk. pose proof Hk as (sk & dk & qk & Hsk & Hstartk & Hscank & Hdk).
  assert (Hklen : k < length steps) by (eapply lookup_lt_Some; eauto).
  induction n as [|n IH]; intros i nest_level Hik Hn; [lia|]. simpl.
  destruct (Nat.ltb_spec i (length steps)); [|lia].
  destruct (steps !! i) as [s|] eqn:Hs; [|eauto].
  destruct (is_repeat_start s) eqn:Hstart.
  - destruct (scan steps (length steps) (i + 1) 1) as [[d q]|e] eqn:Hq; [|simpl; eauto].
    simpl. destruct d as [|d]; simpl; [|eauto].
    pose proof (scan_bounds _ _ _ _ _ _ Hq) as (Hb1 & Hb2 & Hb3).
    assert (Hqk : q <= k).
    { destruct (Nat.le_gt_cases q k) as [|Hgt]; [assumption|exfalso].
      destruct (Nat.eq_dec i k) as [->|Hne].
      - rewrite Hq in Hscank. injection Hscank as <- _. congruence.
      - destruct (scan_closes_at_end _ _ _ _ _ Hq) as (se & Hse & _ & Hnot); [lia|].
        assert (k <> q - 1) by (intros ->; congruence).
        destruct (scan_interior steps (length steps) i q k sk) as (q' & Hq' & _);
          auto; try lia.
        rewrite Hq' in Hscank. injection Hscank as <- _. congruence. }
    destruct (py_range _) as [iterations|e]; simpl; [|eauto].
    destruct (for_extend _ iterations) as [body|e]; simpl; [|eauto].
    destruct (IH (q - 1 + 1) nest_level) as [e ->]; [lia|lia|]. simpl. eauto.
  - assert (i <> k) by (intros ->; congruence).
    destruct (is_repeat_end s).
    + apply IH; lia.
    + destruct (IH (i + 1) nest_level) as [e ->]; [lia|lia|]. simpl. eauto.
Qed.

(** C2, as the code has it.  A sequence with a [repeat_start] whose scan
    reaches the end of the sequence without the nesting counter returning
    to zero has no plan: expansion raises, and the step runner, which
    builds the plan before its loop, reports the error, clears [running]
    and returns [False] without having started a step or called a
    service.  When the counts of the loops are integers (or absent) the
    error is the one that names an unmatched [repeat_start], the first of
    them; a count that is no integer can raise its [TypeError] first. *)
Theorem unmatched_repeat_start_aborts_run
    (env : Env) (steps : list Step) (k : nat) (monitor_index : Z) (w : World) :
  unmatched steps k ->
  (exists e,
      _generate_execution_plan steps = Raise e
      /\ _execute_steps_for_monitor env steps monitor_index w
         = (Ok false,
            mkWorld false (loop_count w) (clock w)
                    (trace w ++ [RunErrorDialog e; ExecutionButtons false])))
  /\ (integer_counts steps ->
      exists i,
        i <= k /\ unmatched steps i /\ (forall j, unmatched steps j -> i <= j)
        /\ _generate_execution_plan steps = Raise (ValueError (NoMatchingRepeatEnd i))).
Proof.
  intros Hk. split.
  - destruct (expand_unmatched_raises steps k Hk (length steps - 0) 0 0)
      as [e Hplan]; [lia|lia|].
    exists e. split; [exact Hplan|].
    unfold _execute_steps_for_monitor, try_except, bind, lift.
    unfold _generate_execution_plan, _expand_nested_loops. rewrite Hplan.
    unfold run_failed, bind, emit, set_running, ret. simpl.
    now rewrite <- app_assoc.
  - intros Hcounts.
    destruct (expand_unmatched steps k Hcounts Hk (length steps - 0) 0 0)
      as (i & Hle & Hun & Hplan); [lia|lia|].
    exists i. split; [lia|]. split; [assumption|]. split; [|exact Hplan].
    intros j Hj.
    apply (expand_unmatched_least steps i j (length steps - 0) 0 Hcounts Hj);
      [lia|exact Hplan].
Qed.

(* ===================================================================== *)
(** ** The running flag and the search loop *)

Section Search.
Context (env : Env).

Lemma flag_after_0 w : flag_after env w 0 = running w.
Proof. unfold flag_after. simpl. apply andb_true_r. Qed.

Lemma forallb_pointwise {A} (f g : A -> bool) l :
  (forall x, f x = g x) -> forallb f l = forallb g l.
Proof. intros H. induction l as [|x l IH]; simpl; [reflexivity|]. now rewrite H, IH. Qed.

Lemma forallb_seq_shift (f : nat -> bool) n m :
  forallb f (seq n m) = forallb (fun t => f (n + t)) (seq 0 m).
Proof.
  revert f n. induction m as [|m IH]; intros f n; [reflexivity|].
  cbn [seq forallb]. rewrite (IH f (S n)), (IH (fun t => f (n + t)) 1).
  rewrite Nat.add_0_r. f_equal. apply forallb_pointwise. intros t. f_equal. lia.
Qed.

Lemma flag_after_add w n m :
  flag_after env w (n + m)
  = flag_after env w n
    && forallb (fun t => negb (stop_requested env (clock w + n + t))) (seq 0 m).
Proof.
  unfold flag_after. rewrite seq_app, forallb_app, andb_assoc. f_equal.
  cbn [Nat.add]. rewrite forallb_seq_shift.
  apply forallb_pointwise. intros t. now rewrite Nat.add_assoc.
Qed.

Lemma flag_after_le w n m :
  n <= m -> flag_after env w m = true -> flag_after env w n = true.
Proof.
  intros Hle. replace m with (n + (m - n)) by lia. rewrite flag_after_add.
  now intros [H _]%andb_true_iff.
Qed.

Context (monitor_index : Z) (template : Template) (delay : float).

Lemma search_events_S c a k :
  search_events env monitor_index template delay c a (S k)
  = search_events env monitor_index template delay c a 1
    ++ search_events env monitor_index template delay (c + 2) (S a) k.
Proof.
  unfold search_events. cbn [seq flat_map]. rewrite app_nil_r.
  f_equal. rewrite <- seq_shift.
  rewrite flat_map_concat_map, map_map, <- flat_map_concat_map.
  apply flat_map_ext. intros j.
  replace (a + S j + 1) with (S a + j + 1) by lia.
  now replace (c + 2 * S j) with (c + 2 + 2 * j) by lia.
Qed.

Lemma after_search_S a k w :
  after_search env monitor_index template delay (S a) k
               (after_search env monitor_index template delay a 1 w)
  = after_search env monitor_index template delay a (S k) w.
Proof.
  unfold after_search. simpl running. simpl clock. simpl loop_count. simpl trace.
  f_equal.
  - replace (2 * S k) with (2 * 1 + 2 * k) by lia.
    rewrite (flag_after_add w (2 * 1) (2 * k)).
    unfold flag_after at 1. simpl running. simpl clock. reflexivity.
  - lia.
  - rewrite <- app_assoc. f_equal. now rewrite (search_events_S (clock w) a k).
Qed.

Lemma after_search_0 a w :
  after_search env monitor_index template delay a 0 w = w.
Proof.
  unfold after_search, search_events. simpl.
  rewrite flag_after_0, Nat.add_0_r, app_nil_r. now destruct w.
Qed.

Lemma after_one_miss a w :
  mkWorld ((running w && negb (stop_requested env (clock w)))
           && negb (stop_requested env (S (clock w))))
          (loop_count w) (S (S (clock w)))
          (((trace w ++ [CaptureScreenshot monitor_index]) ++ [TimeSleep delay])
           ++ [LogSearchAttempt (a + 1)
                 (score_at env (clock w) monitor_index template)])
  = after_search env monitor_index template delay a 1 w.
Proof.
  unfold after_search, search_events, flag_after. simpl.
  rewrite !Nat.add_0_r, andb_true_r, andb_assoc, <- !app_assoc.
  f_equal; [|lia]. now replace (clock w + 1) with (S (clock w)) by lia.
Qed.

Context (min_x min_y : Z) (threshold : float) (click_type : pyval).

(** One attempt without a match. *)
Lemma image_click_loop_miss a rest w :
  running w = true ->
  below_threshold env (clock w) monitor_index template threshold ->
  time_sleep env delay = None ->
  image_click_loop env monitor_index template min_x min_y threshold click_type
                   delay (a :: rest) w
  = image_click_loop env monitor_index template min_x min_y threshold click_type
                     delay rest
                     (after_search env monitor_index template delay a 1 w).
Proof.
  intros Hrun (max_val & max_loc & Hcap & Hlow) Hsleep.
  rewrite <- after_one_miss. unfold score_at. rewrite Hcap.
  cbn [image_click_loop]. unfold bind, get_running, call, call_unit, emit, tick.
  rewrite Hrun. cbn [negb]. rewrite Hcap, Hlow, Hsleep.
  cbn [running loop_count clock trace]. now rewrite Hrun.
Qed.

(** [k] attempts without a match, the flag holding at the start of each. *)
Lemma image_click_loop_misses k : forall a rest w,
  time_sleep env delay = None ->
  (forall j, j < k -> flag_after env w (2 * j) = true) ->
  (forall j, j < k ->
     below_threshold env (clock w + 2 * j) monitor_index template threshold) ->
  image_click_loop env monitor_index template min_x min_y threshold click_type
                   delay (seq a k ++ rest) w
  = image_click_loop env monitor_index template min_x min_y threshold click_type
                     delay rest
                     (after_search env monitor_index template delay a k w).
Proof.
  induction k as [|k IH]; intros a rest w Hsleep Hflag Hlow.
  - now rewrite after_search_0.
  - cbn [seq app]. rewrite image_click_loop_miss; auto.
    + rewrite IH; auto.
      * now rewrite after_search_S.
      * intros j Hj. specialize (Hflag (S j) ltac:(lia)).
        replace (2 * S j) with (2 * 1 + 2 * j) in Hflag by lia.
        rewrite flag_after_add in Hflag.
        unfold after_search, flag_after at 1. simpl running. simpl clock.
        exact Hflag.
      * intros j Hj. specialize (Hlow (S j) ltac:(lia)).
        unfold after_search. cbn [clock].
        replace (clock w + 2 * 1 + 2 * j) with (clock w + 2 * S j) by lia.
        exact Hlow.
    + rewrite <- flag_after_0. apply (Hflag 0). lia.
    + specialize (Hlow 0 ltac:(lia)). now rewrite Nat.mul_0_r, Nat.add_0_r in Hlow.
Qed.

(** The loop stops at an attempt that finds the flag cleared. *)
Lemma image_click_loop_break a rest w :
  running w = false ->
  image_click_loop env monitor_index template min_x min_y threshold click_type
                   delay (a :: rest) w
  = (Ok false, w).
Proof.
  intros Hrun. cbn [image_click_loop]. unfold bind, get_running. now rewrite Hrun.
Qed.

Context (offset_x offset_y : Z).

(** The same three facts for the loop of [_execute_image_right_click]. *)
Lemma image_right_click_loop_miss a rest w :
  running w = true ->
  below_threshold env (clock w) monitor_index template threshold ->
  time_sleep env delay = None ->
  image_right_click_loop env monitor_index template min_x min_y threshold
                         click_type offset_x offset_y delay (a :: rest) w
  = image_right_click_loop env monitor_index template min_x min_y threshold
                           click_type offset_x offset_y delay rest
                     (after_search env monitor_index template delay a 1 w).
Proof.
  intros Hrun (max_val & max_loc & Hcap & Hlow) Hsleep.
  rewrite <- after_one_miss. unfold score_at. rewrite Hcap.
  cbn [image_right_click_loop]. unfold bind, get_running, call, call_unit, emit, tick.
  rewrite Hrun. cbn [negb]. rewrite Hcap, Hlow, Hsleep.
  cbn [running loop_count clock trace]. now rewrite Hrun.
Qed.

Lemma image_right_click_loop_misses k : forall a rest w,
  time_sleep env delay = None ->
  (forall j, j < k -> flag_after env w (2 * j) = true) ->
  (forall j, j < k ->
     below_threshold env (clock w + 2 * j) monitor_index template threshold) ->
  image_right_click_loop env monitor_index template min_x min_y threshold
                         click_type offset_x offset_y delay (seq a k ++ rest) w
  = image_right_click_loop env monitor_index template min_x min_y threshold
                           click_type offset_x offset_y delay rest
                     (after_search env monitor_index template delay a k w).
Proof.
  induction k as [|k IH]; intros a rest w Hsleep Hflag Hlow.
  - now rewrite after_search_0.
  - cbn [seq app]. rewrite image_right_click_loop_miss; auto.
    + rewrite IH; auto.
      * now rewrite after_search_S.
      * intros j Hj. specialize (Hflag (S j) ltac:(lia)).
        replace (2 * S j) with (2 * 1 + 2 * j) in Hflag by lia.
        rewrite flag_after_add in Hflag.
        unfold after_search, flag_after at 1. simpl running. simpl clock.
        exact Hflag.
      * intros j Hj. specialize (Hlow (S j) ltac:(lia)).
        unfold after_search. cbn [clock].
        replace (clock w + 2 * 1 + 2 * j) with (clock w + 2 * S j) by lia.
        exact Hlow.
    + rewrite <- flag_after_0. apply (Hflag 0). lia.
    + specialize (Hlow 0 ltac:(lia)). now rewrite Nat.mul_0_r, Nat.add_0_r in Hlow.
Qed.

Lemma image_right_click_loop_break a rest w :
  running w = false ->
  image_right_click_loop env monitor_index template min_x min_y threshold
                         click_type offset_x offset_y delay (a :: rest) w
  = (Ok false, w).
Proof.
  intros Hrun. cbn [image_right_click_loop]. unfold bind, get_running. now rewrite Hrun.
Qed.

End Search.

(* ===================================================================== *)
(** ** The image handlers *)

Section Handlers.
Context (env : Env) (monitor_index : Z).

Lemma SFcompare_eq_sym a b : SFcompare a b = Some Eq -> SFcompare b a = Some Eq.
Proof.
  destruct a as [s1| s1 | | s1 m1 e1], b as [s2| s2 | | s2 m2 e2]; simpl;
    try congruence; try (destruct s1; congruence); try (destruct s2; congruence).
  - destruct s1, s2; congruence.
  - destruct s1, s2; try congruence;
      (destruct (Z.compare_spec e1 e2); try congruence; subst;
       rewrite Z.compare_refl; fold (Pos.compare m1 m2); fold (Pos.compare m2 m1);
       destruct (Pos.compare_spec m1 m2); simpl; try congruence;
       subst; now rewrite Pos.compare_refl).
Qed.

(** A score equal to the threshold reaches it. *)
Lemma float_eqb_leb (x y : float) : (x =? y)%float = true -> (y <=? x)%float = true.
Proof.
  rewrite FloatAxioms.eqb_spec, FloatAxioms.leb_spec. unfold SFeqb, SFleb.
  destruct (SFcompare (Prim2SF x) (Prim2SF y)) as [[| |]|] eqn:H; try discriminate.
  intros _. now rewrite (SFcompare_eq_sym _ _ H).
Qed.

Lemma captures_app t1 t2 : captures (t1 ++ t2) = captures t1 + captures t2.
Proof. unfold captures. now rewrite List.filter_app, length_app. Qed.

Lemma captures_search_events template delay c a k :
  captures (search_events env monitor_index template delay c a k) = k.
Proof.
  revert c a. induction k as [|k IH]; intros c a; [reflexivity|].
  rewrite search_events_S, captures_app, IH. reflexivity.
Qed.

(** [_execute_image_click] once its parameters are read: the loop, and
    what the handler makes of the way the loop ends. *)
Lemma _execute_image_click_loop step path threshold retry delay template
      min_x min_y w :
  image_click_setup env step monitor_index path threshold retry delay template
                    min_x min_y ->
  _execute_image_click env step monitor_index w
  = match image_click_loop env monitor_index template min_x min_y threshold
            (dict_get (params step) "click_type" (VStr "single")) delay
            (range_Z (retry + 1)) w with
    | (Ok true, w') => (Ok tt, w')
    | (Ok false, w') =>
        (Raise (RuntimeError (ImageClickFailed (image_not_found path))), w')
    | (Raise e, w') => (Raise (RuntimeError (ImageClickFailed e)), w')
    end.
Proof.
  intros (Hpath & Hth & Hretry & Hdelay & Htpl & tw & th & Hregion).
  unfold _execute_image_click. rewrite Hpath.
  unfold try_except, bind, lift. rewrite Hth, Hretry, Hdelay, Htpl, Hregion.
  destruct (image_click_loop _ _ _ _ _ _ _ _ _ w) as [[[|]|e] w']; reflexivity.
Qed.

Lemma _execute_image_right_click_loop step path threshold offset_x offset_y retry
      delay template min_x min_y w :
  image_right_click_setup env step monitor_index path threshold offset_x offset_y
                          retry delay template min_x min_y ->
  _execute_image_right_click env step monitor_index w
  = match image_right_click_loop env monitor_index template min_x min_y threshold
            (dict_get (params step) "click_type" (VStr "right"))
            offset_x offset_y delay (range_Z (retry + 1)) w with
    | (Ok true, w') => (Ok tt, w')
    | (Ok false, w') =>
        (Raise (RuntimeError (ImageRightClickFailed (image_not_found path))), w')
    | (Raise e, w') => (Raise (RuntimeError (ImageRightClickFailed e)), w')
    end.
Proof.
  intros (Hpath & Hth & Hox & Hoy & Hretry & Hdelay & Htpl & tw & th & Hregion).
  unfold _execute_image_right_click. rewrite Hpath.
  unfold try_except, bind, lift. rewrite Hth, Hox, Hoy, Hretry, Hdelay, Htpl, Hregion.
  destruct (image_right_click_loop _ _ _ _ _ _ _ _ _ _ _ w) as [[[|]|e] w'];
    reflexivity.
Qed.

Lemma range_Z_split (retry : Z) (k : nat) :
  (Z.of_nat k <= retry)%Z ->
  range_Z (retry + 1) = seq 0 k ++ k :: seq (S k) (Z.to_nat retry - k).
Proof.
  intros Hk. unfold range_Z.
  replace (Z.to_nat (retry + 1)) with (k + S (Z.to_nat retry - k)) by lia.
  now rewrite seq_app.
Qed.

Lemma range_Z_all (retry : Z) :
  (0 <= retry)%Z -> range_Z (retry + 1) = seq 0 (Z.to_nat retry + 1) ++ [].
Proof.
  intros. unfold range_Z. rewrite app_nil_r. f_equal. lia.
Qed.

(** A search whose [retry + 1] captures all stay below the threshold. *)
Lemma image_click_exhausted step path threshold retry delay template min_x min_y w :
  image_click_setup env step monitor_index path threshold retry delay template
                    min_x min_y ->
  (0 <= retry)%Z ->
  time_sleep env delay = None ->
  flag_after env w (2 * Z.to_nat retry) = true ->
  (forall j, j < Z.to_nat retry + 1 ->
             below_threshold env (clock w + 2 * j) monitor_index template threshold) ->
  _execute_image_click env step monitor_index w
  = (Raise (RuntimeError (ImageClickFailed (image_not_found path))),
     after_search env monitor_index template delay 0 (Z.to_nat retry + 1) w).
Proof.
  intros Hsetup Hretry Hsleep Hflag Hlow.
  rewrite (_execute_image_click_loop _ _ _ _ _ _ _ _ _ Hsetup).
  rewrite range_Z_all by assumption.
  rewrite image_click_loop_misses; auto.
  intros j Hj. apply (flag_after_le env w (2 * j) (2 * Z.to_nat retry)); [lia|auto].
Qed.

Lemma image_right_click_exhausted step path threshold offset_x offset_y retry delay
      template min_x min_y w :
  image_right_click_setup env step monitor_index path threshold offset_x offset_y
                          retry delay template min_x min_y ->
  (0 <= retry)%Z ->
  time_sleep env delay = None ->
  flag_after env w (2 * Z.to_nat retry) = true ->
  (forall j, j < Z.to_nat retry + 1 ->
             below_threshold env (clock w + 2 * j) monitor_index template threshold) ->
  _execute_image_right_click env step monitor_index w
  = (Raise (RuntimeError (ImageRightClickFailed (image_not_found path))),
     after_search env monitor_index template delay 0 (Z.to_nat retry + 1) w).
Proof.
  intros Hsetup Hretry Hsleep Hflag Hlow.
  rewrite (_execute_image_right_click_loop _ _ _ _ _ _ _ _ _ _ _ Hsetup).
  rewrite range_Z_all by assumption.
  rewrite image_right_click_loop_misses; auto.
  intros j Hj. apply (flag_after_le env w (2 * j) (2 * Z.to_nat retry)); [lia|auto].
Qed.

(** C4, as the code has it. With its parameters read, the flag set and a
    non-negative [retry]: a first capture whose score equals the threshold
    is followed at once by the click at the centre of the match (one
    capture, no sleep); and when [retry + 1] captures in a row stay below
    the threshold the handler makes exactly those [retry + 1] captures and
    raises the not-found error, which names the path only; the scores are
    in the log lines of the attempts. *)
Theorem image_click_threshold_and_retries
    (step : Step) (path : pyval) (threshold : float) (retry : Z) (delay : float)
    (template : Template) (min_x min_y : Z) (w : World) :
  image_click_setup env step monitor_index path threshold retry delay template
                    min_x min_y ->
  running w = true ->
  (0 <= retry)%Z ->
  (forall max_val max_loc click_point click,
      capture_and_match env (clock w) monitor_index template = Ok (max_val, max_loc) ->
      (max_val =? threshold)%float = true ->
      center_point env min_x min_y max_loc template = Ok click_point ->
      image_click_event (dict_get (params step) "click_type" (VStr "single"))
                        click_point = Some click ->
      pyautogui env (S (clock w)) click = None ->
      _execute_image_click env step monitor_index w
      = (Ok tt,
         mkWorld (flag_after env w 2) (loop_count w) (clock w + 2)
                 (trace w ++ [CaptureScreenshot monitor_index; click])))
  /\ (time_sleep env delay = None ->
      flag_after env w (2 * Z.to_nat retry) = true ->
      (forall j, j < Z.to_nat retry + 1 ->
                 below_threshold env (clock w + 2 * j) monitor_index template
                                 threshold) ->
      let w' := after_search env monitor_index template delay 0
                             (Z.to_nat retry + 1) w in
      _execute_image_click env step monitor_index w
      = (Raise (RuntimeError (ImageClickFailed (RuntimeError (ImageNotFound path)))),
         w')
      /\ captures (trace w') = captures (trace w) + (Z.to_nat retry + 1)
      /\ forall j, j < Z.to_nat retry + 1 ->
           In (LogSearchAttempt (j + 1)
                 (score_at env (clock w + 2 * j) monitor_index template))
              (trace w')).
Proof.
  intros Hsetup Hrun Hretry. split.
  - intros max_val max_loc click_point click Hcap Heq Hpoint Hclick Hinput.
    rewrite (_execute_image_click_loop _ _ _ _ _ _ _ _ _ Hsetup).
    unfold range_Z. replace (Z.to_nat (retry + 1)) with (S (Z.to_nat retry)) by lia.
    cbn [seq image_click_loop]. unfold bind, get_running, call, lift.
    rewrite Hrun. cbn [negb]. rewrite Hcap, (float_eqb_leb _ _ Heq), Hpoint.
    unfold image_click_event in Hclick. unfold image_click_at.
    destruct (eq_str _ "single");
      [|destruct (eq_str _ "double"); [|destruct (eq_str _ "right"); [|discriminate]]];
      injection Hclick as <-;
      unfold call_unit, call, tick, ret; cbn [running loop_count clock trace];
      rewrite Hinput; unfold flag_after; cbn [seq forallb];
      rewrite Nat.add_0_r, andb_true_r, andb_assoc, <- app_assoc;
      (replace (clock w + 1) with (S (clock w)) by lia);
      (replace (clock w + 2) with (S (S (clock w))) by lia); reflexivity.
  - intros Hsleep Hflag Hlow w'.
    split; [|split].
    + now apply (image_click_exhausted step path threshold retry delay template
                                      min_x min_y w).
    + unfold w', after_search. cbn [trace].
      now rewrite captures_app, captures_search_events.
    + intros j Hj. unfold w', after_search. cbn [trace].
      apply in_or_app. right. unfold search_events. apply in_flat_map.
      exists j. split; [apply in_seq; lia|]. cbn [Nat.add]. right. right. now left.
Qed.

(** What the step loop does with an entry whose handler raises. *)
Lemma run_plan_step_fails steps total step_index repeat_iter rest executed step e w w' :
  running w = true ->
  steps !! step_index = Some step ->
  enabled step = true ->
  dispatch env step monitor_index (step_started step_index (S executed) total w)
    = (Raise e, w') ->
  run_plan env steps monitor_index total ((step_index, repeat_iter) :: rest) executed w
  = (Ok false, step_failed step_index e w').
Proof.
  intros Hrun Hstep Henabled Hdispatch.
  cbn [run_plan]. unfold bind at 1. unfold get_running. rewrite Hrun. cbn [negb].
  rewrite Hstep, Henabled. cbn [negb].
  unfold bind, emit, attempt, set_running, ret. fold (step_started step_index (S executed) total w).
  rewrite Hdispatch. unfold step_failed. cbn [running loop_count clock trace].
  now rewrite <- app_assoc.
Qed.

(** C9, as the code has it.  When an attempt of either image handler
    finds the flag cleared (attempt [k], the [k] attempts before it having
    found it set and captured scores below the threshold), the loop breaks
    and the handler raises the error of an exhausted search,
    [image_not_found], wrapped as every failure of that handler is (the
    very outcome of a search that made all its attempts); the step loop
    then takes its error branch (the error dialog, [False]) and not the
    interruption branch. *)
Theorem cancelled_image_search_is_a_step_failure
    (step : Step) (path : pyval) (threshold : float) (retry : Z) (delay : float)
    (template : Template) (min_x min_y : Z) (k : nat) (w : World) :
  time_sleep env delay = None ->
  (Z.of_nat k <= retry)%Z ->
  (forall j, j < k -> flag_after env w (2 * j) = true) ->
  flag_after env w (2 * k) = false ->
  (forall j, j < k ->
             below_threshold env (clock w + 2 * j) monitor_index template threshold) ->
  let w' := after_search env monitor_index template delay 0 k w in
  (image_click_setup env step monitor_index path threshold retry delay template
                     min_x min_y ->
   _execute_image_click env step monitor_index w
   = (Raise (RuntimeError (ImageClickFailed (image_not_found path))), w')
   /\ (forall w2, (0 <= retry)%Z ->
         flag_after env w2 (2 * Z.to_nat retry) = true ->
         (forall j, j < Z.to_nat retry + 1 ->
            below_threshold env (clock w2 + 2 * j) monitor_index template threshold) ->
         fst (_execute_image_click env step monitor_index w2)
         = fst (_execute_image_click env step monitor_index w))
   /\ forall steps total step_index repeat_iter rest executed w0,
       w = step_started step_index (S executed) total w0 ->
       running w0 = true -> steps !! step_index = Some step ->
       enabled step = true -> type step = "image_click" ->
       run_plan env steps monitor_index total ((step_index, repeat_iter) :: rest)
                executed w0
       = (Ok false,
          step_failed step_index
            (RuntimeError (ImageClickFailed (image_not_found path))) w')
       /\ (In StatusInterrupted (trace (step_failed step_index
            (RuntimeError (ImageClickFailed (image_not_found path))) w'))
           -> In StatusInterrupted (trace w0)))
  /\ (forall offset_x offset_y,
       image_right_click_setup env step monitor_index path threshold offset_x
                               offset_y retry delay template min_x min_y ->
       _execute_image_right_click env step monitor_index w
       = (Raise (RuntimeError (ImageRightClickFailed (image_not_found path))), w')
       /\ (forall w2, (0 <= retry)%Z ->
             flag_after env w2 (2 * Z.to_nat retry) = true ->
             (forall j, j < Z.to_nat retry + 1 ->
                below_threshold env (clock w2 + 2 * j) monitor_index template
                                threshold) ->
             fst (_execute_image_right_click env step monitor_index w2)
             = fst (_execute_image_right_click env step monitor_index w))
       /\ forall steps total step_index repeat_iter rest executed w0,
           w = step_started step_index (S executed) total w0 ->
           running w0 = true -> steps !! step_index = Some step ->
           enabled step = true -> type step = "image_relative_right_click" ->
           run_plan env steps monitor_index total ((step_index, repeat_iter) :: rest)
                    executed w0
           = (Ok false,
              step_failed step_index
                (RuntimeError (ImageRightClickFailed (image_not_found path))) w')
           /\ (In StatusInterrupted (trace (step_failed step_index
                (RuntimeError (ImageRightClickFailed (image_not_found path))) w'))
               -> In StatusInterrupted (trace w0))).
Proof.
  intros Hsleep Hk Hflag Hstop Hlow w'.
  assert (Hw' : running w' = false) by exact Hstop.
  assert (Hno : forall i e, In StatusInterrupted (trace (step_failed i e w')) ->
                            In StatusInterrupted (trace w)).
  { intros i e. unfold step_failed, w', after_search. cbn [trace].
    rewrite <- app_assoc. intros [H|H]%in_app_or; [assumption|exfalso].
    apply in_app_or in H. destruct H as [H|H].
    - unfold search_events in H. apply in_flat_map in H.
      destruct H as (j & _ & [H|[H|[H|[]]]]); discriminate.
    - destruct H as [H|[H|[]]]; discriminate. }
  split.
  - intros Hsetup.
    assert (Hhandler :
      _execute_image_click env step monitor_index w
      = (Raise (RuntimeError (ImageClickFailed (image_not_found path))), w')).
    { rewrite (_execute_image_click_loop _ _ _ _ _ _ _ _ _ Hsetup).
      rewrite (range_Z_split retry k Hk).
      rewrite image_click_loop_misses by auto.
      fold w'. now rewrite image_click_loop_break. }
    split; [exact Hhandler|]. split.
    { intros w2 Hretry Hflag2 Hlow2. rewrite Hhandler.
      now rewrite (image_click_exhausted _ _ _ _ _ _ _ _ w2 Hsetup). }
    intros steps total step_index repeat_iter rest executed w0 Hw Hrun Hstep Hen Hty.
    split.
    + eapply run_plan_step_fails; eauto.
      unfold dispatch. rewrite Hty. cbn. now rewrite <- Hw.
    + intros H. specialize (Hno _ _ H). subst w. unfold step_started in Hno.
      cbn [trace] in Hno. apply in_app_or in Hno.
      destruct Hno as [Hno|[Hno|[]]]; [assumption|discriminate].
  - intros offset_x offset_y Hsetup.
    assert (Hhandler :
      _execute_image_right_click env step monitor_index w
      = (Raise (RuntimeError (ImageRightClickFailed (image_not_found path))), w')).
    { rewrite (_execute_image_right_click_loop _ _ _ _ _ _ _ _ _ _ _ Hsetup).
      rewrite (range_Z_split retry k Hk).
      rewrite image_right_click_loop_misses by auto.
      fold w'. now rewrite image_right_click_loop_break. }
    split; [exact Hhandler|]. split.
    { intros w2 Hretry Hflag2 Hlow2. rewrite Hhandler.
      now rewrite (image_right_click_exhausted _ _ _ _ _ _ _ _ _ _ w2 Hsetup). }
    intros steps total step_index repeat_iter rest executed w0 Hw Hrun Hstep Hen Hty.
    split.
    + eapply run_plan_step_fails; eauto.
      unfold dispatch. rewrite Hty. cbn. now rewrite <- Hw.
    + intros H. specialize (Hno _ _ H). subst w. unfold step_started in Hno.
      cbn [trace] in Hno. apply in_app_or in Hno.
      destruct Hno as [Hno|[Hno|[]]]; [assumption|discriminate].
Qed.

End Handlers.

(* ===================================================================== *)
(** ** Dispatch and the key handler *)

Lemma not_dispatched_kind (kind : string) :
  ~ In kind dispatched_kinds ->
  Forall (fun k => String.eqb kind k = false) dispatched_kinds.
Proof.
  intros Hnot. apply List.Forall_forall. intros k Hk. apply String.eqb_neq.
  intros ->. now apply Hnot.
Qed.

(** C8, as the code has it. A step whose type is none of the nine kinds the
    step loop names is handed to [_execute_key_action], whatever its type
    says.  Without a [key] parameter, or with one that is no text, the
    handler fails.  With a text [key] it makes the one service call of that
    key and fails only when the synthesizer does; the call is a key press
    or a chord, except for ctrl+shift+f12 (in any case of the letters),
    which runs the screenshot helper and presses nothing. *)
Theorem other_kinds_run_the_key_action (env : Env) (step : Step) (monitor_index : Z) :
  ~ In (type step) dispatched_kinds ->
  dispatch env step monitor_index = _execute_key_action env step
  /\ (params step !! "key" = None ->
      forall w, dispatch env step monitor_index w = (Raise (UnboundLocalError "key"), w))
  /\ (forall v w,
        params step !! "key" = Some v -> (forall key, v <> VStr key) ->
        dispatch env step monitor_index w
        = (Raise (RuntimeError (KeyActionFailed (AttributeError "lower"))), w))
  /\ (forall key w,
        params step !! "key" = Some (VStr key) ->
        dispatch env step monitor_index w
        = (match key_answer env (clock w) key with
           | None => Ok tt
           | Some e => Raise (RuntimeError (KeyActionFailed e))
           end,
           tick env (key_event key) w)
        /\ (key_event key = TakeScreenshotAndSave
            <-> py_lower key = "ctrl+shift+f12")).
Proof.
  intros Hnot. apply not_dispatched_kind in Hnot.
  assert (Hdispatch : dispatch env step monitor_index = _execute_key_action env step).
  { unfold dispatch, dispatched_kinds in *.
    repeat match goal with
           | H : Forall _ (_ :: _) |- _ =>
               let Hhd := fresh in apply Forall_cons_iff in H; destruct H as [Hhd H];
               rewrite Hhd
           end.
    reflexivity. }
  split; [exact Hdispatch|]. rewrite Hdispatch. split; [|split].
  - intros Hkey w. unfold _execute_key_action. now rewrite Hkey.
  - intros v w Hkey Hv. unfold _execute_key_action. rewrite Hkey.
    destruct v; try reflexivity. now destruct (Hv s).
  - intros key w Hkey. split.
    + unfold _execute_key_action, key_answer, key_event.
      rewrite Hkey. unfold try_except, take_screenshot_and_save, call_unit, call.
      destruct (String.eqb (py_lower key) "ctrl+shift+f12"); [reflexivity|].
      destruct (contains_char "+" key);
        (destruct (pyautogui env (clock w) _); reflexivity).
    + unfold key_event.
      destruct (String.eqb_spec (py_lower key) "ctrl+shift+f12") as [Heq|Hne].
      * tauto.
      * split; [|contradiction]. now destruct (contains_char "+" key).
Qed.

(* ===================================================================== *)
(** ** The command safety check *)

Lemma existsb_Exists_true {A} (f : A -> bool) l :
  Exists (fun x => f x = true) l -> existsb f l = true.
Proof.
  intros H. apply existsb_exists. apply Exists_exists in H.
  destruct H as (x & Hin & Hx). exists x. split; [|assumption].
  now apply list_elem_of_In.
Qed.

(** C3, as the code has it.  For a command text: a match of a denylisted
    pattern in the lower-cased text, or a control character other than tab,
    line feed and carriage return, makes the check fail; a failed check makes
    [_execute_cmd_command] raise the unsafe-command error in the world it
    was entered in, so whatever [wait_completion] says nothing was spawned;
    any process the handler does start was started after the check passed,
    and with no scheduled time the first call after a passed check is the
    blocking [subprocess.run] or the detached [subprocess.Popen];
    the three destructive examples fail the check and [echo hello]
    passes it. *)
Theorem safety_check_precedes_every_spawn
    (env : Env) (step : Step) (command : string) (w : World) :
  params step !! "command" = Some (VStr command) ->
  ((Exists (fun pattern => Re.search pattern (py_lower command) = true)
           dangerous_patterns
    \/ any_char is_forbidden_control command = true) ->
   _validate_command_safety command = false)
  /\ (_validate_command_safety command = false ->
      _execute_cmd_command env step w
      = (Raise (RuntimeError (CmdCommandFailed
                  (RuntimeError (UnsafeCommand (py_prefix 100 command))))), w))
  /\ (forall e, In e (trace (snd (_execute_cmd_command env step w))) ->
                spawns e = true ->
                In e (trace w) \/ _validate_command_safety command = true)
  /\ (_validate_command_safety command = true ->
      py_truthy (dict_get (params step) "scheduled_time" VNone) = false ->
      (py_truthy (dict_get (params step) "wait_completion" (VBool true)) = true ->
       exists rest,
         trace (snd (_execute_cmd_command env step w))
         = trace w ++ SubprocessRun command (dict_get (params step) "timeout" (VInt 30))
                      :: rest)
      /\ (py_truthy (dict_get (params step) "wait_completion" (VBool true)) = false ->
          trace (snd (_execute_cmd_command env step w))
          = trace w ++ [SubprocessPopen command]))
  /\ _validate_command_safety "del /s /q C:\" = false
  /\ _validate_command_safety "shutdown /r /f" = false
  /\ _validate_command_safety "reg delete HKLM\Software\Example /f" = false
  /\ _validate_command_safety "echo hello" = true.
Proof.
  intros Hcommand.
  assert (Hreject : _validate_command_safety command = false ->
      _execute_cmd_command env step w
      = (Raise (RuntimeError (CmdCommandFailed
                  (RuntimeError (UnsafeCommand (py_prefix 100 command))))), w)).
  { intros Hunsafe. unfold _execute_cmd_command. rewrite Hcommand.
    unfold try_except. rewrite Hunsafe. reflexivity. }
  split; [|split; [exact Hreject|split; [|split]]].
  - unfold _validate_command_safety. intros [Hmatch|Hcontrol].
    + now rewrite (existsb_Exists_true _ _ Hmatch).
    + rewrite Hcontrol. now destruct (existsb _ _).
  - intros e Hin Hspawn.
    destruct (_validate_command_safety command) eqn:Hsafe; [now right|left].
    now rewrite (Hreject eq_refl) in Hin.
  - intros Hsafe Hnow. unfold _execute_cmd_command. rewrite Hcommand.
    unfold try_except, bind, call_unit, call, ret, raise, emit.
    rewrite Hsafe, Hnow. cbn [negb]. split; intros Hwait; rewrite Hwait.
    + destruct (subprocess_run env (clock w) command _) as [result|e].
      * destruct (Z.eqb (returncode result) 0);
          [destruct (negb (String.eqb (py_strip (stdout result)) ""))|];
          cbn [tick snd trace]; rewrite <- ?app_assoc; eauto.
      * destruct e; cbn [tick snd trace]; eauto.
    + destruct (subprocess_popen env (clock w) command) as [e|]; cbn [tick trace snd];
        [destruct e|]; reflexivity.
  - repeat split; vm_compute; reflexivity.
Qed.

(* ===================================================================== *)
(** ** Step construction *)

Lemma validate_always (s : Step) : validate s = true.
Proof. reflexivity. Qed.

(** C5, as the code has it.  Constructing a [Step] never fails and checks
    nothing: [validate] is [True] for every step, so [add_step] refuses none, and
    [from_dict] fails exactly on a record that lacks [type], [params] or
    [comment] or carries a key that is no field of [Step]. *)
Theorem step_construction_checks_no_parameter
    (now kind : string) (p : dict) (text created : string) (on : bool) :
  validate (Step_init now kind p text created on) = true
  /\ add_step_guard (Step_init now kind p text created on) = Ok tt
  /\ (forall step, validate step = true)
  /\ (forall data,
        (exists step, from_dict now data = Ok step)
        <-> (sd_other data = [] /\ sd_type data <> None
             /\ sd_params data <> None /\ sd_comment data <> None))
  /\ (forall created_opt enabled_opt,
        from_dict now (mkStepData (Some kind) (Some p) (Some text)
                                  created_opt enabled_opt [])
        = Ok (Step_init now kind p text (default "" created_opt)
                        (default true enabled_opt))).
Proof.
  split; [reflexivity|]. split; [reflexivity|]. split; [apply validate_always|].
  split.
  - intros [t pr c cr en other]. unfold from_dict, Step_of_kwargs. cbn.
    destruct en, other, t, pr, c; cbn; split;
      try (intros [step H]; discriminate);
      try (intros (H1 & H2 & H3 & H4); congruence);
      try (intros _; repeat split; congruence);
      try (intros _; eauto).
  - intros created_opt [en|]; reflexivity.
Qed.

(* ===================================================================== *)
(** ** The start request *)

(** C6, as the code has it.  [run_all_steps] does not read the [running]
    flag: from any state, also one in which a run is in progress, it sets [running],
    disables the run button and starts one more worker thread. *)
Theorem every_start_request_starts_a_worker (w : World) :
  run_all_steps w
  = mkWorld true 1 (clock w)
            (trace w ++ [ExecutionButtons true; TrackingStarted;
                         ThreadStarted "_run_all_steps"])
  /\ threads_started (trace (run_all_steps w)) = S (threads_started (trace w)).
Proof.
  split; [reflexivity|].
  unfold run_all_steps, threads_started. cbn [Z.ltb Z.compare trace].
  rewrite List.filter_app, length_app. cbn. lia.
Qed.

(* ===================================================================== *)
(** ** Legacy records *)

Lemma lookup_with_click_type (p : dict) (v : pyval) (key : string) :
  key <> "click_type" -> <["click_type" := v]> p !! key = p !! key.
Proof. intros H. apply lookup_insert_ne. congruence. Qed.

(** C7, as the code has it.  A record that has its comment and no key
    beyond the fields of [Step], and whose parameters lack [click_type],
    loads without error into a step that passes [validate].  For an
    [image_click] record the loaders add [click_type = "single"] before
    they build the step.  For an [image_relative_right_click] record, and
    for either kind through [Step.from_dict], the step keeps its
    parameters as they are, without [click_type]; the handler reads the
    default when the step runs, and so behaves as it would with the
    default stored. *)
Theorem legacy_click_type_default
    (now : string) (data : StepData) (kind : string) (p : dict) (text : string) :
  sd_type data = Some kind -> sd_params data = Some p ->
  sd_comment data = Some text -> sd_other data = [] ->
  p !! "click_type" = None ->
  (kind = "image_click" ->
   exists step, load_step now data = Ok step /\ validate step = true
                /\ params step = <["click_type" := VStr "single"]> p)
  /\ (kind = "image_relative_right_click" ->
      exists step, load_step now data = Ok step /\ validate step = true
                   /\ params step = p
                   /\ forall env monitor_index,
                       _execute_image_right_click env step monitor_index
                       = _execute_image_right_click env (with_click_type "right" step)
                                                    monitor_index)
  /\ (exists step, from_dict now data = Ok step /\ validate step = true
                   /\ params step = p
                   /\ forall env monitor_index,
                       _execute_image_click env step monitor_index
                       = _execute_image_click env (with_click_type "single" step)
                                              monitor_index).
Proof.
  intros Hty Hp Htext Hother Hnone. split; [|split].
  - intros ->. unfold load_step. rewrite Hty, Hp.
    change (default ∅ (Some p)) with p. rewrite Hnone.
    rewrite !bool_decide_eq_true_2 by reflexivity. cbn [andb].
    unfold Step_of_kwargs. cbn. rewrite Hother, Htext. eauto.
  - intros ->. unfold load_step. rewrite Hty.
    rewrite (bool_decide_eq_false_2 (Some "image_relative_right_click" = Some "image_click"))
      by discriminate.
    cbn [andb]. unfold Step_of_kwargs. rewrite Hother, Hty, Hp, Htext.
    eexists. split; [reflexivity|]. split; [reflexivity|]. split; [reflexivity|].
    intros env monitor_index.
    unfold _execute_image_right_click, with_click_type, dict_get, getitem, Step_init.
    cbn [params]. rewrite !lookup_with_click_type by discriminate.
    now rewrite lookup_insert_eq, Hnone.
  - unfold from_dict, Step_of_kwargs.
    destruct (sd_enabled data); cbn; rewrite Hother, Hty, Hp, Htext;
      (eexists; split; [reflexivity|]; split; [reflexivity|]; split; [reflexivity|];
       intros env monitor_index;
       unfold _execute_image_click, with_click_type, dict_get, getitem, Step_init;
       cbn [params]; rewrite !lookup_with_click_type by discriminate;
       now rewrite lookup_insert_eq, Hnone).
Qed.

(* ===================================================================== *)
(** ** The properties on concrete runs *)

Section Runs.
Import Example.

(** A loop of three around one step, between two steps. *)
Lemma loop_of_three_unrolls_run :
  _expand_nested_loops
    [step "key" ∅; step "repeat_start" {["count" := VInt 3]}; step "sleep" ∅;
     step "repeat_end" ∅; step "key" ∅] 0 5 0
  = Ok [(0, 0); (1, 0); (2, 1); (3, 1); (2, 2); (3, 2); (2, 3); (3, 3); (4, 0)].
Proof.
  apply (loop_of_three_unrolls
           (step "key" ∅) (step "repeat_start" {["count" := VInt 3]})
           (step "sleep" ∅) (step "repeat_end" ∅) (step "key" ∅) 0);
    try (split; discriminate); try reflexivity.
Defined.

(** A [repeat_start] that is never closed: nothing runs. *)
Lemma unmatched_repeat_start_run :
  unmatched [step "key" {["key" := VStr "a"]};
             step "repeat_start" {["count" := VInt 2]};
             step "key" {["key" := VStr "b"]}] 1
  /\ _generate_execution_plan
       [step "key" {["key" := VStr "a"]};
        step "repeat_start" {["count" := VInt 2]};
        step "key" {["key" := VStr "b"]}]
     = Raise (ValueError (NoMatchingRepeatEnd 1))
  /\ _execute_steps_for_monitor quiet_low
       [step "key" {["key" := VStr "a"]};
        step "repeat_start" {["count" := VInt 2]};
        step "key" {["key" := VStr "b"]}] 0 started
     = (Ok false,
        mkWorld false 1 0
                [RunErrorDialog (ValueError (NoMatchingRepeatEnd 1));
                 ExecutionButtons false]).
Proof.
  assert (Hun : unmatched [step "key" {["key" := VStr "a"]};
                           step "repeat_start" {["count" := VInt 2]};
                           step "key" {["key" := VStr "b"]}] 1).
  { exists (step "repeat_start" {["count" := VInt 2]}), 1, 3.
    repeat split; try reflexivity. discriminate. }
  split; [exact Hun|].
  destruct (unmatched_repeat_start_aborts_run quiet_low _ 1 0 started Hun)
    as [(e & Hplan & Hrun) _].
  assert (He : e = ValueError (NoMatchingRepeatEnd 1)).
  { vm_compute in Hplan. now injection Hplan as <-. }
  subst e. split; [exact Hplan|exact Hrun].
Defined.

(** A destructive command, fire-and-forget: refused before any call. *)
Lemma unsafe_command_run :
  params (step "cmd_command" {["command" := VStr "del /s /q C:\";
                               "wait_completion" := VBool false]}) !! "command"
  = Some (VStr "del /s /q C:\")
  /\ _execute_cmd_command quiet_low
       (step "cmd_command" {["command" := VStr "del /s /q C:\";
                             "wait_completion" := VBool false]}) started
     = (Raise (RuntimeError (CmdCommandFailed
                 (RuntimeError (UnsafeCommand "del /s /q C:\")))), started).
Proof.
  assert (H : params (step "cmd_command" {["command" := VStr "del /s /q C:\";
                                            "wait_completion" := VBool false]})
              !! "command" = Some (VStr "del /s /q C:\"))
    by (vm_compute; reflexivity).
  split; [exact H|].
  apply (proj1 (proj2 (safety_check_precedes_every_spawn quiet_low _ _ started H))).
  vm_compute. reflexivity.
Defined.

(** A tab is a control character, and the command runs. *)
Lemma command_with_tab_is_run :
  any_char is_control echo_tab_hello = true
  /\ _validate_command_safety echo_tab_hello = true
  /\ _execute_cmd_command quiet_low
       (step "cmd_command" {["command" := VStr echo_tab_hello]}) started
     = (Ok tt, mkWorld true 1 1 [SubprocessRun echo_tab_hello (VInt 30)]).
Proof. repeat split; vm_compute; reflexivity. Qed.

Lemma search_setup (e : Env) (retry : Z) :
  read_template e = (fun _ => Ok (Some template)) ->
  get_monitor_region e = (fun _ => Ok (0, 0, 1920, 1080)%Z) ->
  image_click_setup e (step "image_click" (search_params retry)) 0
                    (VStr "button.png") 0.75 retry 0.5 template 0 0.
Proof.
  intros Hread Hregion. unfold image_click_setup. rewrite Hread, Hregion.
  unfold search_params, dict_get, getitem. cbn [params step].
  repeat split; try (vm_compute; reflexivity). eauto.
Qed.

Lemma offset_search_setup (e : Env) (retry : Z) :
  read_template e = (fun _ => Ok (Some template)) ->
  get_monitor_region e = (fun _ => Ok (0, 0, 1920, 1080)%Z) ->
  image_right_click_setup e
    (step "image_relative_right_click" (offset_search_params retry)) 0
    (VStr "button.png") 0.75 4 6 retry 0.5 template 0 0.
Proof.
  intros Hread Hregion. unfold image_right_click_setup. rewrite Hread, Hregion.
  unfold offset_search_params, dict_get, getitem. cbn [params step].
  repeat split; try (vm_compute; reflexivity). eauto.
Qed.

(** A score at the threshold: one capture, then the click at
    (0 + (100 + 20 // 2) * 1.5, 0 + (50 + 10 // 2) * 1.5) truncated.
    Two captures below it with [retry = 1]: the error, two captures. *)
Lemma image_click_runs :
  _execute_image_click quiet_hit (step "image_click" (search_params 3)) 0 started
  = (Ok tt, mkWorld true 1 2 [CaptureScreenshot 0; Click (165, 82)%Z])
  /\ fst (_execute_image_click quiet_low (step "image_click" (search_params 1))
                               0 started)
     = Raise (RuntimeError (ImageClickFailed
                (RuntimeError (ImageNotFound (VStr "button.png")))))
  /\ captures (trace (snd (_execute_image_click quiet_low
                             (step "image_click" (search_params 1)) 0 started)))
     = 2.
Proof.
  split.
  - apply (proj1 (image_click_threshold_and_retries quiet_hit 0
                    (step "image_click" (search_params 3)) (VStr "button.png")
                    0.75 3 0.5 template 0 0 started
                    (search_setup quiet_hit 3 eq_refl eq_refl) eq_refl
                    ltac:(lia))
                 0.75%float (100, 50)%Z (165, 82)%Z (Click (165, 82)%Z));
      vm_compute; reflexivity.
  - destruct (proj2 (image_click_threshold_and_retries quiet_low 0
                       (step "image_click" (search_params 1)) (VStr "button.png")
                       0.75 1 0.5 template 0 0 started
                       (search_setup quiet_low 1 eq_refl eq_refl) eq_refl
                       ltac:(lia)))
      as (Hrun & Hcaptures & _).
    + reflexivity.
    + vm_compute. reflexivity.
    + intros j Hj. exists 0.5%float, (100, 50)%Z. split; reflexivity.
    + rewrite Hrun. split; [reflexivity|exact Hcaptures].
Defined.

(** Two searches that differ in the last score they saw raise one and the
    same error. *)
Lemma not_found_error_carries_no_score :
  (0.5 =? 0.25)%float = false
  /\ last (trace (snd (_execute_image_click quiet_low
                          (step "image_click" (search_params 3)) 0 started)))
     = Some (LogSearchAttempt 4 0.5)
  /\ last (trace (snd (_execute_image_click quiet_lower
                          (step "image_click" (search_params 3)) 0 started)))
     = Some (LogSearchAttempt 4 0.25)
  /\ fst (_execute_image_click quiet_low (step "image_click" (search_params 3))
                               0 started)
     = Raise (RuntimeError (ImageClickFailed
                (RuntimeError (ImageNotFound (VStr "button.png")))))
  /\ fst (_execute_image_click quiet_lower (step "image_click" (search_params 3))
                               0 started)
     = fst (_execute_image_click quiet_low (step "image_click" (search_params 3))
                                 0 started).
Proof. repeat split; vm_compute; reflexivity. Qed.

(** Kinds and parameters the specification rules out make steps all the
    same. *)
Lemma invalid_steps_are_constructed :
  spec_valid "teleport" ∅ = false
  /\ spec_valid "repeat_start" {["count" := VInt 0]} = false
  /\ spec_valid "image_click" {["threshold" := VFloat 1.5; "retry" := VInt (-1)]}
     = false
  /\ Forall (fun '(kind, p) =>
               exists s, from_dict "now" (record kind p) = Ok s
                         /\ type s = kind /\ params s = p
                         /\ validate s = true /\ add_step_guard s = Ok tt)
            [("teleport", ∅);
             ("repeat_start", {["count" := VInt 0]});
             ("image_click", {["threshold" := VFloat 1.5; "retry" := VInt (-1)]})].
Proof.
  repeat split; try (vm_compute; reflexivity).
  repeat constructor; eexists; repeat split.
Qed.

(** A start request in the middle of a run. *)
Lemma second_start_spawns_second_worker :
  running (run_all_steps idle) = true
  /\ threads_started (trace (run_all_steps idle)) = 1
  /\ threads_started (trace (run_all_steps (run_all_steps idle))) = 2.
Proof. repeat split. Qed.

(** An offset-click record without [click_type], loaded. *)
Lemma legacy_offset_click_run :
  offset_search_params 3 !! "click_type" = None
  /\ exists s,
      load_step "now" (record "image_relative_right_click" (offset_search_params 3))
      = Ok s
      /\ validate s = true /\ params s = offset_search_params 3.
Proof.
  assert (H : offset_search_params 3 !! "click_type" = None)
    by (vm_compute; reflexivity).
  split; [exact H|].
  destruct (proj1 (proj2 (legacy_click_type_default "now"
              (record "image_relative_right_click" (offset_search_params 3))
              "image_relative_right_click" (offset_search_params 3) ""
              eq_refl eq_refl eq_refl eq_refl H)) eq_refl)
    as (s & Hload & Hvalid & Hparams & _).
  exists s. auto.
Defined.

Lemma legacy_records_keep_their_parameters :
  (exists s,
      load_step "now" (record "image_relative_right_click" (offset_search_params 3))
      = Ok s
      /\ validate s = true /\ params s !! "click_type" = None)
  /\ (exists s,
         from_dict "now" (record "image_click" (search_params 3)) = Ok s
         /\ validate s = true /\ params s !! "click_type" = None).
Proof. split; eexists; repeat split; vm_compute; reflexivity. Qed.

(** The specification's name of the offset click is no kind of the step
    loop: such a step goes to the key handler. *)
Lemma other_kind_run :
  ~ In (type (step "image_offset_click" (offset_search_params 3))) dispatched_kinds
  /\ dispatch quiet_low (step "image_offset_click" (offset_search_params 3)) 0 started
     = (Raise (UnboundLocalError "key"), started)
  /\ dispatch quiet_low (step "hotkey" {["key" := VStr "Ctrl + C"]}) 0 started
     = (Ok tt, mkWorld true 1 1 [Hotkey ["ctrl"; "c"]]).
Proof.
  assert (H : ~ In (type (step "image_offset_click" (offset_search_params 3)))
                dispatched_kinds)
    by (cbn; intuition discriminate).
  split; [exact H|]. split.
  - apply (proj1 (proj2 (other_kinds_run_the_key_action quiet_low _ 0 H))).
    vm_compute. reflexivity.
  - vm_compute. reflexivity.
Defined.

(** A step of an unknown kind whose key is the screenshot chord: the
    handler returns without a key press. *)
Lemma screenshot_chord_is_not_pressed :
  ~ In "hotkey" dispatched_kinds
  /\ dispatch quiet_low (step "hotkey" {["key" := VStr "Ctrl+Shift+F12"]}) 0 started
     = (Ok tt, mkWorld true 1 1 [TakeScreenshotAndSave]).
Proof.
  split; [cbn; intuition discriminate|]. vm_compute. reflexivity.
Qed.

(** The stop button pressed during the first sleep of a search. *)
Lemma cancelled_search_runs :
  fst (_execute_image_click stopped_in_first_sleep
         (step "image_click" (search_params 3)) 0 started)
  = Raise (RuntimeError (ImageClickFailed (image_not_found (VStr "button.png"))))
  /\ captures (trace (snd (_execute_image_click stopped_in_first_sleep
                             (step "image_click" (search_params 3)) 0 started)))
     = 1
  /\ fst (_execute_image_right_click stopped_in_first_sleep
            (step "image_relative_right_click" (offset_search_params 3)) 0 started)
     = Raise (RuntimeError (ImageRightClickFailed
                              (image_not_found (VStr "button.png")))).
Proof.
  assert (Hflag : forall j, j < 1 ->
            flag_after stopped_in_first_sleep started (2 * j) = true).
  { intros j Hj. assert (j = 0) as -> by lia. reflexivity. }
  assert (Hlow : forall j, j < 1 ->
            below_threshold stopped_in_first_sleep (clock started + 2 * j) 0
                            template 0.75).
  { intros j Hj. exists 0.5%float, (100, 50)%Z. split; reflexivity. }
  pose proof (cancelled_image_search_is_a_step_failure stopped_in_first_sleep 0
                (step "image_click" (search_params 3)) (VStr "button.png")
                0.75 3 0.5 template 0 0 1 started
                eq_refl ltac:(lia) Hflag eq_refl Hlow) as [Hclick _].
  pose proof (cancelled_image_search_is_a_step_failure stopped_in_first_sleep 0
                (step "image_relative_right_click" (offset_search_params 3))
                (VStr "button.png")
                0.75 3 0.5 template 0 0 1 started
                eq_refl ltac:(lia) Hflag eq_refl Hlow) as [_ Hright].
  destruct (Hclick (search_setup stopped_in_first_sleep 3 eq_refl eq_refl)) as [-> _].
  destruct (Hright 4%Z 6%Z
              (offset_search_setup stopped_in_first_sleep 3 eq_refl eq_refl))
    as [-> _].
  repeat split.
Defined.

End Runs.

(* ===================================================================== *)
(** * More about the loop expander *)

Lemma for_extend_flat_map {A B} (f : A -> Outcome (list B)) (g : A -> list B) xs :
  (forall x, f x = Ok (g x)) -> for_extend f xs = Ok (flat_map g xs).
Proof.
  intros Hfg. induction xs as [|x xs IH]; simpl; [reflexivity|].
  now rewrite Hfg, IH.
Qed.

Lemma for_extend_Forall {A B} (P : B -> Prop) (f : A -> Outcome (list B)) xs zs :
  (forall x ys, f x = Ok ys -> Forall P ys) ->
  for_extend f xs = Ok zs -> Forall P zs.
Proof.
  intros Hf. revert zs. induction xs as [|x xs IH]; simpl; intros zs Hzs.
  - injection Hzs as <-. constructor.
  - destruct (f x) as [ys|] eqn:Hx; [|discriminate]. simpl in Hzs.
    destruct (for_extend f xs) as [rest|]; [|discriminate]. simpl in Hzs.
    injection Hzs as <-. apply Forall_app. split; eauto.
Qed.

Lemma kept_indices_cons steps a b s :
  a < b -> steps !! a = Some s ->
  kept_indices steps a b
  = if is_repeat_end s then kept_indices steps (S a) b
    else a :: kept_indices steps (S a) b.
Proof.
  intros Hab Hs. unfold kept_indices.
  replace (b - a) with (S (b - S a)) by lia. simpl. rewrite Hs.
  now destruct (is_repeat_end s).
Qed.

(** A window without [repeat_start]: its steps in order, the [repeat_end]
    steps left out. *)
Lemma expand_without_start steps n :
  forall a b nest_level,
    b <= length steps -> b - a <= n ->
    (forall p s, a <= p < b -> steps !! p = Some s -> is_repeat_start s = false) ->
    expand n steps a b nest_level
    = Ok (map (fun i => (i, nest_level)) (kept_indices steps a b)).
Proof.
  induction n as [|n IH]; intros a b nest_level Hlen Hn Hno.
  - simpl. unfold kept_indices. now replace (b - a) with 0 by lia.
  - simpl. destruct (Nat.ltb_spec a b) as [Hab|Hab].
    2:{ unfold kept_indices. now replace (b - a) with 0 by lia. }
    destruct (steps !! a) as [s|] eqn:Hs.
    2:{ apply lookup_ge_None in Hs. lia. }
    rewrite (Hno a s ltac:(lia) Hs).
    rewrite (kept_indices_cons steps a b s Hab Hs).
    replace (a + 1) with (S a) by lia.
    rewrite IH; [|lia|lia|intros p s' Hp; apply Hno; lia].
    now destruct (is_repeat_end s).
Qed.

Lemma kept_indices_plain steps a b :
  b <= length steps ->
  (forall p s, a <= p < b -> steps !! p = Some s -> plain s) ->
  kept_indices steps a b = seq a (b - a).
Proof.
  intros Hlen Hplain. unfold kept_indices.
  remember (b - a) as m eqn:Hm. revert a Hm Hplain.
  induction m as [|m IH]; intros a Hm Hplain; simpl; [reflexivity|].
  destruct (steps !! a) as [s|] eqn:Hs.
  2:{ apply lookup_ge_None in Hs. lia. }
  rewrite (plain_not_end s (Hplain a s ltac:(lia) Hs)). simpl.
  f_equal. apply IH; [lia|]. intros p s' Hp. apply Hplain. lia.
Qed.

Lemma kept_indices_drop steps k a m :
  map (fun i => i + k) (kept_indices (drop k steps) a (a + m))
  = kept_indices steps (a + k) (a + k + m).
Proof.
  unfold kept_indices.
  replace (a + m - a) with m by lia. replace (a + k + m - (a + k)) with m by lia.
  revert a. induction m as [|m IH]; intros a; simpl; [reflexivity|].
  rewrite lookup_drop. replace (k + a) with (a + k) by lia.
  specialize (IH (S a)). simpl in IH.
  destruct (steps !! (a + k)) as [s|]; [destruct (is_repeat_end s)|]; simpl;
    now rewrite IH.
Qed.

(** The scan walks over plain steps without touching its counter. *)
Lemma scan_plain steps end_idx m :
  forall p d,
    p + m <= end_idx -> 0 < d ->
    (forall j s, p <= j < p + m -> steps !! j = Some s -> plain s) ->
    p + m <= length steps ->
    scan steps end_idx p d = scan steps end_idx (p + m) d.
Proof.
  induction m as [|m IH]; intros p d Hend Hd Hplain Hlen.
  - now replace (p + 0) with p by lia.
  - rewrite scan_unfold.
    destruct (Nat.ltb_spec p end_idx); [|lia].
    destruct (Nat.ltb_spec 0 d); [|lia]. simpl.
    destruct (steps !! p) as [s|] eqn:Hs.
    2:{ apply lookup_ge_None in Hs. lia. }
    pose proof (Hplain p s ltac:(lia) Hs) as Hp.
    unfold scan_depth. rewrite (plain_not_start s Hp), (plain_not_end s Hp).
    rewrite IH; [f_equal; lia|lia|lia| |lia].
    intros j s' Hj. apply Hplain. lia.
Qed.

(** The entries of a plan point into the window they were expanded from. *)
Lemma expand_in_window steps n :
  forall i end_idx nest_level p,
    expand n steps i end_idx nest_level = Ok p ->
    Forall (fun entry => i <= fst entry < end_idx) p.
Proof.
  induction n as [|n IH]; intros i end_idx nest_level p; simpl.
  { intros [= <-]. constructor. }
  destruct (Nat.ltb_spec i end_idx) as [Hi|Hi].
  2:{ intros [= <-]. constructor. }
  destruct (steps !! i) as [step|]; [|discriminate].
  destruct (is_repeat_start step).
  - destruct (scan steps end_idx (i + 1) 1) as [[nest_depth end_pos]|e] eqn:Hscan;
      simpl; [|discriminate].
    destruct (Nat.eqb_spec nest_depth 0) as [->|]; [|discriminate].
    pose proof (scan_bounds steps _ _ _ _ _ Hscan) as (Hb1 & Hb2 & Hb3).
    specialize (Hb2 ltac:(lia)). specialize (Hb3 ltac:(lia) eq_refl).
    destruct (py_range _) as [iterations|e]; simpl; [|discriminate].
    destruct (for_extend _ iterations) as [body|e] eqn:Hbody; simpl; [|discriminate].
    destruct (expand n steps (end_pos - 1 + 1) end_idx nest_level) as [rest|e] eqn:Hrest;
      simpl; [|discriminate].
    intros [= <-]. constructor; [simpl; lia|].
    apply Forall_app. split.
    + eapply for_extend_Forall; [|exact Hbody].
      intros x ys. simpl.
      destruct (expand n steps (i + 1) (end_pos - 1) (nest_level + x + 1)) as [inner|e]
        eqn:Hinner; simpl; [|discriminate].
      intros [= <-]. apply Forall_app. split.
      * eapply Forall_impl; [exact (IH _ _ _ _ Hinner)|]. simpl. intros; lia.
      * repeat constructor; simpl; lia.
    + eapply Forall_impl; [exact (IH _ _ _ _ Hrest)|]. simpl. intros; lia.
  - destruct (is_repeat_end step).
    + intros Hp. eapply Forall_impl; [exact (IH _ _ _ _ Hp)|]. simpl. intros; lia.
    + destruct (expand n steps (i + 1) end_idx nest_level) as [rest|e] eqn:Hrest;
        simpl; [|discriminate].
      intros [= <-]. constructor; [simpl; lia|].
      eapply Forall_impl; [exact (IH _ _ _ _ Hrest)|]. simpl. intros; lia.
Qed.

Lemma single_loop_lookup_body (start end_ : Step) body j :
  j < length body -> (start :: body ++ [end_]) !! (S j) = body !! j.
Proof. intros Hj. simpl. now rewrite lookup_app_l. Qed.

Lemma single_loop_lookup_end (start end_ : Step) body :
  (start :: body ++ [end_]) !! (S (length body)) = Some end_.
Proof.
  simpl. rewrite lookup_app_r by lia. now replace (length body - length body) with 0 by lia.
Qed.

Lemma single_loop_plain (start end_ : Step) body :
  List.Forall plain body ->
  forall j s, 1 <= j < 1 + length body ->
              (start :: body ++ [end_]) !! j = Some s -> plain s.
Proof.
  intros Hbody j s Hj Hs. destruct j as [|j]; [lia|].
  rewrite single_loop_lookup_body in Hs by lia.
  rewrite List.Forall_forall in Hbody. apply Hbody.
  apply list_elem_of_In. eapply list_elem_of_lookup_2; eauto.
Qed.

(** One loop around plain steps: the start marker, then the body and the
    end marker once per round. *)
Lemma single_loop_expand (start end_ : Step) body count nest_level :
  type start = "repeat_start" ->
  dict_get (params start) "count" (VInt 1) = VInt count ->
  List.Forall plain body ->
  type end_ = "repeat_end" ->
  _expand_nested_loops (start :: body ++ [end_]) 0 (length body + 2) nest_level
  = Ok (single_loop_plan (length body) count nest_level).
Proof.
  intros Hstart Hcount Hbody Hend.
  set (steps := start :: body ++ [end_]). set (m := length body).
  assert (Hlen : length steps = m + 2).
  { unfold steps, m. simpl. rewrite length_app. simpl. lia. }
  assert (Hplain : forall j s, 1 <= j < 1 + m -> steps !! j = Some s -> plain s)
    by (apply single_loop_plain; assumption).
  assert (Hlast : steps !! S m = Some end_) by apply single_loop_lookup_end.
  assert (Hscan : scan steps (m + 2) (0 + 1) 1 = Ok (0, m + 2)).
  { simpl. rewrite (scan_plain steps (m + 2) m 1 1); [|lia|lia|exact Hplain|lia].
    rewrite scan_unfold.
    destruct (Nat.ltb_spec (1 + m) (m + 2)); [|lia]. cbn [andb Nat.ltb Nat.leb].
    change (1 + m) with (S m). rewrite Hlast.
    unfold scan_depth, is_repeat_start, is_repeat_end. rewrite Hend.
    cbn [String.eqb Ascii.eqb Bool.eqb Nat.pred].
    rewrite scan_unfold. rewrite andb_false_r.
    repeat f_equal. lia. }
  unfold _expand_nested_loops.
  replace (m + 2 - 0) with (S (m + 1)) by lia.
  cbn [expand]. destruct (Nat.ltb_spec 0 (m + 2)); [|lia].
  change (steps !! 0) with (Some start).
  unfold is_repeat_start at 1. rewrite Hstart. cbn [String.eqb Ascii.eqb Bool.eqb].
  rewrite Hscan. cbn [obind]. cbn [Nat.eqb].
  rewrite Hcount. cbn [py_range obind].
  rewrite (for_extend_flat_map _
             (fun repeat_iter =>
                map (fun j => (j + 1, nest_level + repeat_iter + 1)) (seq 0 m)
                ++ [(m + 1, nest_level + repeat_iter + 1)])).
  2:{ intros x. replace (m + 2 - 1) with (1 + m) by lia.
      rewrite expand_without_start; [|lia|lia|].
      2:{ intros p s Hp Hs. apply plain_not_start. apply (Hplain p s); [lia|exact Hs]. }
      rewrite kept_indices_plain; [|lia|].
      2:{ intros p s Hp. apply Hplain. lia. }
      cbn [obind]. replace (1 + m - (0 + 1)) with m by lia.
      replace (0 + 1) with 1 by lia.
      rewrite <- (seq_shift m 0), map_map.
      f_equal. f_equal.
      - apply map_ext. intros a. f_equal. lia.
      - now replace (1 + m) with (m + 1) by lia. }
  cbn [obind].
  replace (expand (m + 1) steps (m + 2 - 1 + 1) (m + 2) nest_level) with (@Ok plan []).
  2:{ destruct (m + 1); simpl; [reflexivity|].
      destruct (Nat.ltb_spec (m + 2 - 1 + 1) (m + 2)); [lia|reflexivity]. }
  cbn [obind]. unfold single_loop_plan. now rewrite app_nil_r.
Qed.

Lemma single_loop_plan_length m count nest_level :
  length (single_loop_plan m count nest_level) = 1 + Z.to_nat count * (m + 1).
Proof.
  unfold single_loop_plan. cbn [length]. f_equal.
  transitivity (length (seq 0 (Z.to_nat count)) * (m + 1)); [|now rewrite length_seq].
  induction (seq 0 (Z.to_nat count)) as [|x xs IH]; [reflexivity|].
  cbn [flat_map]. rewrite !length_app, length_map, length_seq, IH. simpl. lia.
Qed.

Lemma count_enabled_in_bounds steps p :
  List.Forall (fun entry => fst entry < length steps) p ->
  exists total_valid_steps, count_enabled steps p = Ok total_valid_steps.
Proof.
  induction 1 as [|[i l] p Hi _ [n IH]]; simpl; [eauto|].
  destruct (lookup_lt_is_Some_2 steps i Hi) as [s ->]. rewrite IH. simpl. eauto.
Qed.

(** With every entry in bounds the step loop ends with a verdict, whatever
    the handlers do. *)
Lemma run_plan_in_bounds env steps monitor_index total_valid_steps p :
  List.Forall (fun entry => fst entry < length steps) p ->
  forall executed_steps w,
    exists finished w',
      run_plan env steps monitor_index total_valid_steps p executed_steps w
      = (Ok finished, w').
Proof.
  induction 1 as [|[i l] p Hi _ IH]; intros executed_steps w; simpl.
  { unfold bind, emit, ret. eauto. }
  unfold bind at 1. unfold get_running at 1. cbn beta iota.
  destruct (running w); cbn [negb].
  2:{ unfold bind, emit, ret. eauto. }
  destruct (lookup_lt_is_Some_2 steps i Hi) as [s ->].
  destruct (enabled s); cbn [negb]; [|apply IH].
  unfold bind at 1. unfold emit at 1. cbn beta iota.
  unfold bind at 1. unfold attempt at 1.
  destruct (dispatch env s monitor_index _) as [[[]|e] w1].
  - unfold bind at 1. unfold emit at 1. cbn beta iota. apply IH.
  - unfold bind, emit, set_running, ret. cbn. eauto.
Qed.

Lemma generated_plan_in_bounds steps p :
  _generate_execution_plan steps = Ok p ->
  List.Forall (fun entry => fst entry < length steps) p.
Proof.
  intros Hp. apply expand_in_window in Hp.
  eapply Forall_impl; [exact Hp|]. simpl. intros; lia.
Qed.

(** X1. When every [repeat_start] carries an integer count (or none), the
    plan generator returns a plan exactly when no [repeat_start] is left
    without its [repeat_end]. *)
Theorem plan_exists_iff_every_loop_closes steps :
  integer_counts steps ->
  (exists p, _generate_execution_plan steps = Ok p) <-> (forall k, ~ unmatched steps k).
Proof.
  intros Hcounts. split.
  - intros [p Hp] k Hk.
    destruct (expand_unmatched steps k Hcounts Hk (length steps - 0) 0 0)
      as (i' & _ & _ & Hraise); [lia|lia|].
    unfold _generate_execution_plan, _expand_nested_loops in Hp. congruence.
  - intros Hnone. apply expand_closed; [assumption|lia|].
    intros p s Hp Hs Hstart.
    destruct (scan_total steps (length steps) (p + 1) 1) as [[d q] Hscan]; [lia|].
    destruct d as [|d]; [eauto|].
    exfalso. apply (Hnone p). exists s, (S d), q. auto.
Qed.

(** X2. Every entry of a generated plan names a step of the sequence.  So
    once the plan exists the count of enabled entries succeeds and the run
    is the step loop itself, which ends with a verdict: the outer handler
    of the runner is not entered. *)
Theorem plan_entries_name_steps env steps monitor_index p :
  _generate_execution_plan steps = Ok p ->
  List.Forall (fun entry => fst entry < length steps) p
  /\ exists total_valid_steps,
       count_enabled steps p = Ok total_valid_steps
       /\ forall w,
            _execute_steps_for_monitor env steps monitor_index w
            = run_plan env steps monitor_index total_valid_steps p 0 w
            /\ exists finished w',
                 _execute_steps_for_monitor env steps monitor_index w
                 = (Ok finished, w').
Proof.
  intros Hp. pose proof (generated_plan_in_bounds steps p Hp) as Hin.
  split; [exact Hin|].
  destruct (count_enabled_in_bounds steps p Hin) as [total Htotal].
  exists total. split; [exact Htotal|]. intros w.
  destruct (run_plan_in_bounds env steps monitor_index total p Hin 0 w)
    as (finished & w' & Hrun).
  assert (Heq : _execute_steps_for_monitor env steps monitor_index w
                = run_plan env steps monitor_index total p 0 w).
  { unfold _execute_steps_for_monitor, try_except, bind, lift.
    rewrite Hp, Htotal, Hrun. reflexivity. }
  split; [exact Heq|]. rewrite Heq. eauto.
Qed.

(** X3. A sequence without [repeat_start] is planned as it stands: every
    step that is no [repeat_end] once, in order, at nest level 0; a stray
    [repeat_end] is dropped without an error. *)
Theorem plan_without_repeat_start steps :
  (forall s, In s steps -> is_repeat_start s = false) ->
  _generate_execution_plan steps
  = Ok (map (fun i => (i, 0)) (kept_indices steps 0 (length steps))).
Proof.
  intros Hno. apply expand_without_start; [lia|lia|].
  intros p s _ Hs. apply Hno. eapply lookup_In; eauto.
Qed.

(** X4. One loop around plain steps, for any integer count: the start
    marker once, then the body and the end marker once per round, round
    [i] at nest level [nest_level + i + 1].  The plan has
    [1 + count * (m + 1)] entries for a body of [m] steps, and a count of
    zero or less leaves the start marker alone. *)
Theorem single_loop_unrolls (start end_ : Step) body count nest_level :
  type start = "repeat_start" ->
  dict_get (params start) "count" (VInt 1) = VInt count ->
  List.Forall plain body ->
  type end_ = "repeat_end" ->
  _expand_nested_loops (start :: body ++ [end_]) 0 (length body + 2) nest_level
  = Ok (single_loop_plan (length body) count nest_level)
  /\ length (single_loop_plan (length body) count nest_level)
     = 1 + Z.to_nat count * (length body + 1)
  /\ ((count <= 0)%Z ->
      single_loop_plan (length body) count nest_level = [(0, nest_level)]).
Proof.
  intros Hstart Hcount Hbody Hend. split; [|split].
  - now apply single_loop_expand.
  - apply single_loop_plan_length.
  - intros Hle. unfold single_loop_plan.
    now replace (Z.to_nat count) with 0 by lia.
Qed.

(** X5. Running from a selected step: when no [repeat_start] follows the
    selection, the plan is the rest of the sequence under its original
    indices, each step once at nest level 0 and the [repeat_end] steps
    dropped.  A selection inside a loop body therefore runs the rest of
    the body once and goes on after the loop. *)
Theorem plan_from_index_without_repeat_start steps start_index :
  (forall s, In s (drop start_index steps) -> is_repeat_start s = false) ->
  _generate_execution_plan_from_steps (drop start_index steps) start_index
  = Ok (map (fun i => (i, 0)) (kept_indices steps start_index (length steps))).
Proof.
  intros Hno.
  unfold _generate_execution_plan_from_steps, _expand_nested_loops_from_steps.
  rewrite expand_from_shift.
  rewrite expand_without_start; [|lia|lia|].
  2:{ intros p s _ Hs. apply Hno. eapply lookup_In; eauto. }
  simpl. f_equal. rewrite map_map. unfold shift_entry. simpl.
  rewrite <- (map_map (fun i => i + start_index) (fun i => (i, 0))). f_equal.
  destruct (Nat.le_gt_cases start_index (length steps)) as [Hle|Hgt].
  - pose proof (kept_indices_drop steps start_index 0 (length steps - start_index)) as H.
    rewrite length_drop. simpl in H. rewrite H. f_equal. lia.
  - rewrite length_drop. unfold kept_indices.
    now replace (length steps - start_index) with 0 by lia.
Qed.

(** X6. Plan entries of disabled steps are passed over while the run is
    on: nothing is announced, executed or counted for them, neither in
    the step loop nor in the total the progress display uses. *)
Theorem disabled_entries_are_skipped env steps monitor_index total_valid_steps
    skipped rest executed_steps w :
  running w = true ->
  List.Forall (fun entry => exists s, steps !! fst entry = Some s /\ enabled s = false)
              skipped ->
  run_plan env steps monitor_index total_valid_steps (skipped ++ rest) executed_steps w
  = run_plan env steps monitor_index total_valid_steps rest executed_steps w
  /\ count_enabled steps (skipped ++ rest) = count_enabled steps rest.
Proof.
  intros Hrun Hskipped.
  induction Hskipped as [|[i l] skipped (s & Hs & Hoff) _ [IH1 IH2]]; [split; reflexivity|].
  simpl in Hs. split.
  - simpl. unfold bind at 1. unfold get_running at 1. rewrite Hrun, Hs, Hoff. exact IH1.
  - simpl. rewrite Hs, Hoff, IH2. now destruct (count_enabled steps rest).
Qed.

(** X7. A [repeat_start] without a [count] is planned as a loop of one
    round, yet the run stops at it: the step loop reads [params['count']]
    for its log line, and the [KeyError] is reported as the failure of
    that step before any step of the body runs. *)
Theorem repeat_start_without_count_stops_the_run env (start end_ : Step) body
    monitor_index w :
  type start = "repeat_start" -> params start !! "count" = None ->
  enabled start = true ->
  List.Forall plain body -> type end_ = "repeat_end" -> running w = true ->
  _generate_execution_plan (start :: body ++ [end_])
  = Ok (single_loop_plan (length body) 1 0)
  /\ exists total_valid_steps,
       _execute_steps_for_monitor env (start :: body ++ [end_]) monitor_index w
       = (Ok false,
          step_failed 0 (KeyError "count") (step_started 0 1 total_valid_steps w)).
Proof.
  intros Hstart Hcount Hon Hbody Hend Hrun.
  assert (Hplan : _generate_execution_plan (start :: body ++ [end_])
                  = Ok (single_loop_plan (length body) 1 0)).
  { unfold _generate_execution_plan.
    replace (length (start :: body ++ [end_])) with (length body + 2)
      by (simpl; rewrite length_app; simpl; lia).
    apply single_loop_expand; try assumption.
    unfold dict_get. now rewrite Hcount. }
  split; [exact Hplan|].
  destruct (count_enabled_in_bounds _ _ (generated_plan_in_bounds _ _ Hplan))
    as [total Htotal].
  exists total.
  unfold _execute_steps_for_monitor, try_except, bind at 1, lift at 1.
  rewrite Hplan. unfold bind at 1, lift at 1. rewrite Htotal.
  unfold single_loop_plan. cbn [run_plan].
  unfold bind at 1. unfold get_running at 1. rewrite Hrun. cbn [negb].
  change ((start :: body ++ [end_]) !! 0) with (Some start). cbn beta iota.
  rewrite Hon. cbn [negb].
  unfold bind at 1. unfold emit at 1. cbn beta iota.
  unfold bind at 1. unfold attempt at 1.
  unfold dispatch. rewrite Hstart. cbn [String.eqb Ascii.eqb Bool.eqb].
  unfold bind at 1, lift at 1, getitem. rewrite Hcount.
  unfold bind, emit, set_running, ret, step_failed, step_started. cbn.
  now rewrite <- !app_assoc.
Qed.

(* ===================================================================== *)
(** * More about the image handlers *)

Section Hits.
Context (env : Env) (monitor_index : Z).

Lemma flag_after_2 w :
  (running w && negb (stop_requested env (clock w)))
  && negb (stop_requested env (S (clock w)))
  = flag_after env w 2.
Proof.
  unfold flag_after. cbn [seq forallb].
  rewrite Nat.add_0_r, andb_true_r, andb_assoc.
  now replace (clock w + 1) with (S (clock w)) by lia.
Qed.

Lemma flag_after_1 w :
  running w && negb (stop_requested env (clock w)) = flag_after env w 1.
Proof. unfold flag_after. cbn [seq forallb]. now rewrite Nat.add_0_r, andb_true_r. Qed.

(** An attempt that meets the threshold: the click, and the loop is left. *)
Lemma image_click_loop_hit template min_x min_y threshold click_type delay
      a rest w max_val max_loc click_point click :
  running w = true ->
  capture_and_match env (clock w) monitor_index template = Ok (max_val, max_loc) ->
  (threshold <=? max_val)%float = true ->
  center_point env min_x min_y max_loc template = Ok click_point ->
  image_click_event click_type click_point = Some click ->
  pyautogui env (S (clock w)) click = None ->
  image_click_loop env monitor_index template min_x min_y threshold click_type
                   delay (a :: rest) w
  = (Ok true,
     mkWorld (flag_after env w 2) (loop_count w) (clock w + 2)
             (trace w ++ [CaptureScreenshot monitor_index; click])).
Proof.
  intros Hrun Hcap Hle Hpoint Hclick Hinput.
  cbn [image_click_loop]. unfold bind, get_running, call, lift.
  rewrite Hrun. cbn [negb]. rewrite Hcap, Hle, Hpoint.
  unfold image_click_event in Hclick. unfold image_click_at.
  destruct (eq_str _ "single");
    [|destruct (eq_str _ "double"); [|destruct (eq_str _ "right"); [|discriminate]]];
    injection Hclick as <-;
    unfold call_unit, call, tick, ret; cbn [running loop_count clock trace];
    rewrite Hinput, flag_after_2, <- app_assoc;
    (replace (clock w + 2) with (S (S (clock w))) by lia); reflexivity.
Qed.

(** An attempt that meets the threshold under a click type the handler
    does not know: the capture, and the error in place of the click. *)
Lemma image_click_loop_invalid_type template min_x min_y threshold click_type delay
      a rest w max_val max_loc click_point :
  running w = true ->
  capture_and_match env (clock w) monitor_index template = Ok (max_val, max_loc) ->
  (threshold <=? max_val)%float = true ->
  center_point env min_x min_y max_loc template = Ok click_point ->
  image_click_event click_type click_point = None ->
  image_click_loop env monitor_index template min_x min_y threshold click_type
                   delay (a :: rest) w
  = (Raise (ValueError (InvalidClickType click_type)),
     mkWorld (flag_after env w 1) (loop_count w) (clock w + 1)
             (trace w ++ [CaptureScreenshot monitor_index])).
Proof.
  intros Hrun Hcap Hle Hpoint Hclick.
  cbn [image_click_loop]. unfold bind, get_running, call, lift.
  rewrite Hrun. cbn [negb]. rewrite Hcap, Hle, Hpoint.
  unfold image_click_event in Hclick. unfold image_click_at.
  destruct (eq_str _ "single"); [discriminate|].
  destruct (eq_str _ "double"); [discriminate|].
  destruct (eq_str _ "right"); [discriminate|].
  unfold raise, tick. rewrite flag_after_1.
  now replace (clock w + 1) with (S (clock w)) by lia.
Qed.

Lemma image_right_click_loop_hit template min_x min_y threshold click_type
      offset_x offset_y delay a rest w max_val max_loc base_point dx dy click :
  running w = true ->
  capture_and_match env (clock w) monitor_index template = Ok (max_val, max_loc) ->
  (threshold <=? max_val)%float = true ->
  center_point env min_x min_y max_loc template = Ok base_point ->
  scaled_offset env offset_x = Ok dx ->
  scaled_offset env offset_y = Ok dy ->
  image_right_click_event click_type (fst base_point + dx, snd base_point + dy)%Z
  = Some click ->
  pyautogui env (S (clock w)) click = None ->
  image_right_click_loop env monitor_index template min_x min_y threshold click_type
                         offset_x offset_y delay (a :: rest) w
  = (Ok true,
     mkWorld (flag_after env w 2) (loop_count w) (clock w + 2)
             (trace w ++ [CaptureScreenshot monitor_index; click])).
Proof.
  intros Hrun Hcap Hle Hpoint Hdx Hdy Hclick Hinput.
  cbn [image_right_click_loop]. unfold bind, get_running, call, lift.
  rewrite Hrun. cbn [negb]. rewrite Hcap, Hle, Hpoint, Hdx, Hdy.
  unfold image_right_click_event in Hclick. unfold image_right_click_at.
  destruct (eq_str _ "single");
    [|destruct (eq_str _ "double"); [|destruct (eq_str _ "right"); [|discriminate]]];
    injection Hclick as <-;
    unfold call_unit, call, tick, ret; cbn [running loop_count clock trace];
    rewrite Hinput, flag_after_2, <- app_assoc;
    (replace (clock w + 2) with (S (S (clock w))) by lia); reflexivity.
Qed.

(** The world a hit leaves after [k] attempts without a match. *)
Lemma hit_after_search template delay k w click :
  mkWorld (flag_after env (after_search env monitor_index template delay 0 k w) 2)
          (loop_count (after_search env monitor_index template delay 0 k w))
          (clock (after_search env monitor_index template delay 0 k w) + 2)
          (trace (after_search env monitor_index template delay 0 k w)
           ++ [CaptureScreenshot monitor_index; click])
  = mkWorld (flag_after env w (2 * k + 2)) (loop_count w) (clock w + (2 * k + 2))
            (trace w ++ search_events env monitor_index template delay (clock w) 0 k
                     ++ [CaptureScreenshot monitor_index; click]).
Proof.
  unfold after_search. cbn [running loop_count clock trace].
  rewrite (flag_after_add env w (2 * k) 2), <- app_assoc.
  unfold flag_after at 1. cbn [running clock].
  f_equal. lia.
Qed.

(** X8. The search stops at the first attempt that meets the threshold:
    after [k] attempts below it ([k] at most [retry]) the handler takes one
    more capture, clicks at the centre of that match and returns; it has
    made [k + 1] captures and slept [k] times, and no attempt follows the
    click. *)
Theorem image_click_after_misses
    (step : Step) (path : pyval) (threshold : float) (retry : Z) (delay : float)
    (template : Template) (min_x min_y : Z) (w : World) (k : nat)
    (max_val : float) (max_loc click_point : point) (click : Event) :
  image_click_setup env step monitor_index path threshold retry delay template
                    min_x min_y ->
  (Z.of_nat k <= retry)%Z ->
  time_sleep env delay = None ->
  flag_after env w (2 * k) = true ->
  (forall j, j < k ->
             below_threshold env (clock w + 2 * j) monitor_index template threshold) ->
  capture_and_match env (clock w + 2 * k) monitor_index template
  = Ok (max_val, max_loc) ->
  (threshold <=? max_val)%float = true ->
  center_point env min_x min_y max_loc template = Ok click_point ->
  image_click_event (dict_get (params step) "click_type" (VStr "single")) click_point
  = Some click ->
  pyautogui env (S (clock w + 2 * k)) click = None ->
  _execute_image_click env step monitor_index w
  = (Ok tt,
     mkWorld (flag_after env w (2 * k + 2)) (loop_count w) (clock w + (2 * k + 2))
             (trace w ++ search_events env monitor_index template delay (clock w) 0 k
                      ++ [CaptureScreenshot monitor_index; click]))
  /\ captures (search_events env monitor_index template delay (clock w) 0 k
               ++ [CaptureScreenshot monitor_index; click])
     = k + 1.
Proof.
  intros Hsetup Hk Hsleep Hflag Hlow Hcap Hle Hpoint Hclick Hinput. split.
  - rewrite (_execute_image_click_loop env monitor_index _ _ _ _ _ _ _ _ _ Hsetup).
    rewrite (range_Z_split retry k Hk).
    rewrite image_click_loop_misses; auto.
    2:{ intros j Hj. apply (flag_after_le env w (2 * j) (2 * k)); [lia|auto]. }
    rewrite (image_click_loop_hit template min_x min_y threshold _ delay k _ _
               max_val max_loc click_point click); auto.
    now rewrite hit_after_search.
  - rewrite captures_app, captures_search_events.
    unfold captures. cbn [List.filter].
    destruct click; try reflexivity.
    unfold image_click_event in Hclick.
    destruct (eq_str _ "single"); [discriminate|].
    destruct (eq_str _ "double"); [discriminate|].
    destruct (eq_str _ "right"); discriminate.
Qed.

(** X9. The click type is looked at only when an image has been found.  A
    click type other than single, double and right makes the handler fail
    with the invalid-type error after the capture that found the image,
    nothing being clicked; when no capture meets the threshold the same
    step fails with the not-found error like any other. *)
Theorem invalid_click_type_shows_on_a_match
    (step : Step) (path : pyval) (threshold : float) (retry : Z) (delay : float)
    (template : Template) (min_x min_y : Z) (w : World) :
  image_click_setup env step monitor_index path threshold retry delay template
                    min_x min_y ->
  (forall p, image_click_event (dict_get (params step) "click_type" (VStr "single")) p
             = None) ->
  running w = true ->
  (0 <= retry)%Z ->
  (forall max_val max_loc click_point,
      capture_and_match env (clock w) monitor_index template = Ok (max_val, max_loc) ->
      (threshold <=? max_val)%float = true ->
      center_point env min_x min_y max_loc template = Ok click_point ->
      _execute_image_click env step monitor_index w
      = (Raise (RuntimeError (ImageClickFailed (ValueError (InvalidClickType
                  (dict_get (params step) "click_type" (VStr "single")))))),
         mkWorld (flag_after env w 1) (loop_count w) (clock w + 1)
                 (trace w ++ [CaptureScreenshot monitor_index])))
  /\ (time_sleep env delay = None ->
      flag_after env w (2 * Z.to_nat retry) = true ->
      (forall j, j < Z.to_nat retry + 1 ->
                 below_threshold env (clock w + 2 * j) monitor_index template
                                 threshold) ->
      _execute_image_click env step monitor_index w
      = (Raise (RuntimeError (ImageClickFailed (image_not_found path))),
         after_search env monitor_index template delay 0 (Z.to_nat retry + 1) w)).
Proof.
  intros Hsetup Hinvalid Hrun Hretry. split.
  - intros max_val max_loc click_point Hcap Hle Hpoint.
    rewrite (_execute_image_click_loop env monitor_index _ _ _ _ _ _ _ _ _ Hsetup).
    unfold range_Z. replace (Z.to_nat (retry + 1)) with (S (Z.to_nat retry)) by lia.
    cbn [seq].
    now rewrite (image_click_loop_invalid_type template min_x min_y threshold _ delay
                   0 _ w max_val max_loc click_point).
  - intros Hsleep Hflag Hlow.
    now apply (image_click_exhausted env monitor_index step path threshold retry delay
                 template min_x min_y w).
Qed.

(** X10. Without a turn of the search loop there is no capture: with a
    negative [retry], or with the running flag already cleared when the
    handler starts, the image click fails with the not-found error and
    leaves the world as it found it. *)
Theorem image_click_without_capture
    (step : Step) (path : pyval) (threshold : float) (retry : Z) (delay : float)
    (template : Template) (min_x min_y : Z) (w : World) :
  image_click_setup env step monitor_index path threshold retry delay template
                    min_x min_y ->
  (retry < 0)%Z \/ running w = false ->
  _execute_image_click env step monitor_index w
  = (Raise (RuntimeError (ImageClickFailed (image_not_found path))), w).
Proof.
  intros Hsetup Hwhy.
  rewrite (_execute_image_click_loop env monitor_index _ _ _ _ _ _ _ _ _ Hsetup).
  destruct (range_Z (retry + 1)) as [|a rest] eqn:Hrange; [reflexivity|].
  destruct Hwhy as [Hneg|Hoff].
  - unfold range_Z in Hrange. replace (Z.to_nat (retry + 1)) with 0 in Hrange by lia.
    discriminate.
  - now rewrite image_click_loop_break.
Qed.

(** X11. The offset click: at the first attempt that meets the threshold,
    after [k] attempts below it, the handler clicks at the centre of the
    match moved by [int(offset_x * scale)] and [int(offset_y * scale)],
    with the right button unless [click_type] says otherwise, and
    returns. *)
Theorem offset_click_after_misses
    (step : Step) (path : pyval) (threshold : float) (offset_x offset_y retry : Z)
    (delay : float) (template : Template) (min_x min_y : Z) (w : World) (k : nat)
    (max_val : float) (max_loc base_point : point) (dx dy : Z) (click : Event) :
  image_right_click_setup env step monitor_index path threshold offset_x offset_y
                          retry delay template min_x min_y ->
  (Z.of_nat k <= retry)%Z ->
  time_sleep env delay = None ->
  flag_after env w (2 * k) = true ->
  (forall j, j < k ->
             below_threshold env (clock w + 2 * j) monitor_index template threshold) ->
  capture_and_match env (clock w + 2 * k) monitor_index template
  = Ok (max_val, max_loc) ->
  (threshold <=? max_val)%float = true ->
  center_point env min_x min_y max_loc template = Ok base_point ->
  scaled_offset env offset_x = Ok dx ->
  scaled_offset env offset_y = Ok dy ->
  image_right_click_event (dict_get (params step) "click_type" (VStr "right"))
                          (fst base_point + dx, snd base_point + dy)%Z
  = Some click ->
  pyautogui env (S (clock w + 2 * k)) click = None ->
  _execute_image_right_click env step monitor_index w
  = (Ok tt,
     mkWorld (flag_after env w (2 * k + 2)) (loop_count w) (clock w + (2 * k + 2))
             (trace w ++ search_events env monitor_index template delay (clock w) 0 k
                      ++ [CaptureScreenshot monitor_index; click]))
  /\ (params step !! "click_type" = None ->
      click = RightClick (fst base_point + dx, snd base_point + dy)%Z).
Proof.
  intros Hsetup Hk Hsleep Hflag Hlow Hcap Hle Hpoint Hdx Hdy Hclick Hinput. split.
  - rewrite (_execute_image_right_click_loop env monitor_index _ _ _ _ _ _ _ _ _ _ _
               Hsetup).
    rewrite (range_Z_split retry k Hk).
    rewrite image_right_click_loop_misses; auto.
    2:{ intros j Hj. apply (flag_after_le env w (2 * j) (2 * k)); [lia|auto]. }
    rewrite (image_right_click_loop_hit template min_x min_y threshold _
               offset_x offset_y delay k _ _ max_val max_loc base_point dx dy click);
      auto.
    now rewrite hit_after_search.
  - intros Hnone. unfold dict_get in Hclick. rewrite Hnone in Hclick.
    now injection Hclick as <-.
Qed.

End Hits.

(* ===================================================================== *)
(** * More about the safety check of commands *)

Lemma py_lower_append a b :
  py_lower (String.append a b) = String.append (py_lower a) (py_lower b).
Proof. induction a as [|c a IH]; simpl; [reflexivity|]. now rewrite IH. Qed.

Lemma any_char_append p a b :
  any_char p (String.append a b) = any_char p a || any_char p b.
Proof.
  induction a as [|c a IH]; simpl; [reflexivity|]. now rewrite IH, orb_assoc.
Qed.

Lemma suffixes_append_r a b x :
  In x (suffixes b) -> In x (suffixes (String.append a b)).
Proof.
  intros Hx. induction a as [|c a IH]; simpl; [assumption|]. right. exact IH.
Qed.

Lemma suffixes_append_l a b x :
  In x (suffixes a) -> In (String.append x b) (suffixes (String.append a b)).
Proof.
  induction a as [|c a IH]; simpl.
  - intros [<-|[]]. simpl. destruct b; simpl; auto.
  - intros [<-|Hx]; [now left|]. right. auto.
Qed.

Lemma search_append_l r a b :
  search r b = true -> search r (String.append a b) = true.
Proof.
  unfold search. rewrite !existsb_exists. intros (x & Hx & Hm).
  exists x. split; [now apply suffixes_append_r|assumption].
Qed.

Lemma lower_char_forbidden c :
  is_forbidden_control (lower_char c) = is_forbidden_control c.
Proof. destruct c as [[] [] [] [] [] [] [] []]; reflexivity. Qed.

Lemma py_lower_forbidden s :
  any_char is_forbidden_control (py_lower s) = any_char is_forbidden_control s.
Proof.
  induction s as [|c s IH]; simpl; [reflexivity|].
  now rewrite lower_char_forbidden, IH.
Qed.

Lemma length_append a b :
  String.length (String.append a b) = String.length a + String.length b.
Proof. induction a as [|c a IH]; simpl; [reflexivity|]. now rewrite IH. Qed.

Lemma strip_prefix_append l s u t :
  strip_prefix l s = Some u ->
  strip_prefix l (String.append s t) = Some (String.append u t).
Proof.
  revert s. induction l as [|a l IH]; intros s; simpl.
  - now intros [= <-].
  - destruct s as [|b s]; [discriminate|]. simpl.
    destruct (Ascii.eqb a b); [apply IH|discriminate].
Qed.

Lemma iterate_append (f : string -> list string) t :
  (forall x y, In y (f x) -> In (String.append y t) (f (String.append x t))) ->
  forall n m s u, n <= m -> In u (iterate f n s) ->
                  In (String.append u t) (iterate f m (String.append s t)).
Proof.
  intros Hf. induction n as [|n IH]; intros m s u Hnm.
  - simpl. intros [<-|[]]. destruct m; simpl; now left.
  - destruct m as [|m]; [lia|]. simpl. intros [<-|Hu]; [now left|]. right.
    apply in_flat_map in Hu as (y & Hy & Hu).
    apply List.filter_In in Hy as [Hy Hshort].
    apply in_flat_map. exists (String.append y t). split.
    + apply List.filter_In. split; [now apply Hf|].
      rewrite !length_append.
      apply Nat.ltb_lt in Hshort. apply Nat.ltb_lt. lia.
    + apply IH; [lia|assumption].
Qed.

(** Text after the matched part does not disturb a pattern without [$]. *)
Lemma rmatch_append r t :
  eol_free r = true ->
  forall s u, In u (rmatch r s) -> In (String.append u t) (rmatch r (String.append s t)).
Proof.
  induction r as [l|cs|a IHa b IHb|a IHa b IHb|a IHa|]; simpl; intros Hfree s u.
  - destruct (strip_prefix l s) as [v|] eqn:Hv; [|intros []].
    intros [<-|[]]. rewrite (strip_prefix_append _ _ _ t Hv). now left.
  - destruct s as [|c s]; [intros []|]. simpl.
    destruct (in_charset cs c); [|intros []]. intros [<-|[]]. now left.
  - apply andb_true_iff in Hfree as [Ha Hb].
    intros (v & Hv & Hu)%in_flat_map. apply in_flat_map.
    exists (String.append v t). split; [now apply IHa|now apply IHb].
  - apply andb_true_iff in Hfree as [Ha Hb].
    intros [Hu|Hu]%in_app_or; apply in_or_app; [left; now apply IHa|right; now apply IHb].
  - intros Hu. apply (iterate_append (rmatch a) t (IHa Hfree) (String.length s)).
    + rewrite length_append. lia.
    + exact Hu.
  - discriminate.
Qed.

Lemma search_append_r r a b :
  eol_free r = true -> search r a = true -> search r (String.append a b) = true.
Proof.
  intros Hfree. unfold search. rewrite !existsb_exists. intros (x & Hx & Hm).
  exists (String.append x b). split; [now apply suffixes_append_l|].
  unfold matches_at in *.
  destruct (rmatch r x) as [|u us] eqn:Hu; [discriminate|].
  pose proof (rmatch_append r b Hfree x u) as Hin. rewrite Hu in Hin.
  specialize (Hin (or_introl eq_refl)).
  now destruct (rmatch r (String.append x b)).
Qed.

(** X12. The safety check does not tell upper case from lower case: two
    commands with the same lower-case form get the same verdict. *)
Theorem safety_check_ignores_case command command' :
  py_lower command = py_lower command' ->
  _validate_command_safety command = _validate_command_safety command'.
Proof.
  intros Hlow. unfold _validate_command_safety. rewrite Hlow.
  now rewrite <- (py_lower_forbidden command), <- (py_lower_forbidden command'), Hlow.
Qed.

(** X13. Text put in front of a refused command does not make it pass. *)
Theorem refused_command_stays_refused_after_a_prefix command before :
  _validate_command_safety command = false ->
  _validate_command_safety (String.append before command) = false.
Proof.
  unfold _validate_command_safety. intros Hbad.
  destruct (existsb (fun pattern => search pattern (py_lower command))
                    dangerous_patterns) eqn:Hpat.
  - apply existsb_exists in Hpat as (r & Hr & Hm).
    match goal with |- (if ?b then _ else _) = _ => replace b with true; [reflexivity|] end.
    symmetry. apply existsb_exists. exists r. split; [assumption|].
    rewrite py_lower_append. now apply search_append_l.
  - destruct (any_char is_forbidden_control command) eqn:Hctl; [|discriminate].
    rewrite any_char_append, Hctl, orb_true_r.
    match goal with |- (if ?b then _ else _) = _ => destruct b end; reflexivity.
Qed.

(** The one pattern with [$]. *)
Lemma patterns_with_eol :
  List.filter (fun pattern => negb (eol_free pattern)) dangerous_patterns
  = [("diskpart" ⋅ \s* ⋅ Eol)%re].
Proof. reflexivity. Qed.

(** X14. A command that one of the patterns without [$] matches stays
    refused whatever is written before and after it.  (All patterns but
    the one for a bare diskpart are of that kind.) *)
Theorem matched_command_stays_refused_inside_any_text command before after :
  List.Exists (fun pattern => search pattern (py_lower command) = true)
              (List.filter eol_free dangerous_patterns) ->
  _validate_command_safety (String.append before (String.append command after))
  = false.
Proof.
  intros Hex.
  apply List.Exists_exists in Hex as (r & Hr & Hm).
  apply List.filter_In in Hr as [Hr Hfree].
  unfold _validate_command_safety.
  match goal with |- (if ?b then _ else _) = _ => replace b with true; [reflexivity|] end.
  symmetry. apply existsb_exists. exists r. split; [assumption|].
  rewrite !py_lower_append. apply search_append_l. now apply search_append_r.
Qed.

(* ===================================================================== *)
(** * The worker threads *)

(** Both step runners end with a verdict: their outer handler turns every
    exception into [False]. *)
Lemma _execute_steps_for_monitor_returns env steps monitor_index w :
  exists finished w',
    _execute_steps_for_monitor env steps monitor_index w = (Ok finished, w').
Proof.
  unfold _execute_steps_for_monitor, try_except.
  destruct (bind _ _ w) as [[finished|e] w1]; [eauto|].
  unfold run_failed, bind, emit, set_running, ret. cbn. eauto.
Qed.

Lemma _execute_steps_for_monitor_from_index_returns env steps monitor_index start w :
  exists finished w',
    _execute_steps_for_monitor_from_index env steps monitor_index start w
    = (Ok finished, w').
Proof.
  unfold _execute_steps_for_monitor_from_index, try_except.
  destruct (bind _ _ w) as [[finished|e] w1]; [eauto|].
  unfold run_failed, bind, emit, set_running, ret. cbn. eauto.
Qed.

(** One round of [_execute_loop] whose [run_func] returns. *)
Lemma execute_loop_single_round {X} (run_func : Worker X) mode a result a' :
  running (world a) = true -> loop_count (world a) = 1%Z ->
  run_func (notify (LoopStatus mode 1) a) = (Returned result, a') ->
  _execute_loop run_func mode a = loop_completed a'.
Proof.
  intros Hrun Hcount Hfunc. unfold _execute_loop. rewrite Hcount.
  change (0 <? 1)%Z with true. change (Z.to_nat 1) with 1.
  cbn [seq loop_rounds Nat.add]. cbv iota.
  now rewrite Hrun, Hfunc.
Qed.

(** X15. A loop count of zero or less, which the code means as "without
    end", ends the run at once: [int(float('inf'))] is an [OverflowError],
    [run_func] is not called, the error dialog is shown and the run is
    stopped. *)
Theorem nonpositive_loop_count_fails {X} (run_func : Worker X) mode a :
  (loop_count (world a) <= 0)%Z ->
  _execute_loop run_func mode a
  = mkApp (mkWorld false (loop_count (world a)) (clock (world a))
                   (trace (world a) ++ [ExecutionButtons false]))
          (execution_start_index a) (selected_monitor a)
          (notices a ++ [StatusError; LoopErrorDialog mode (AsRaised OverflowError)]).
Proof.
  intros Hle. unfold _execute_loop.
  destruct (Z.ltb_spec 0 (loop_count (world a))); [lia|].
  unfold loop_failed, notify, with_world, stop_execution. cbn.
  now rewrite <- app_assoc.
Qed.

(** X16. [_run_all_steps] does not look at the verdict of the run.  With
    the flag set and a loop count of 1 the steps are run once and, whether
    they all succeeded, one of them failed or the run was cancelled, the
    status then reads completed, the completion notification is shown
    and the start index is 0. *)
Theorem completion_follows_any_verdict env steps a :
  running (world a) = true -> loop_count (world a) = 1%Z ->
  exists finished w',
    _execute_steps_for_monitor env steps (selected_monitor a) (world a)
    = (Ok finished, w')
    /\ _run_all_steps env steps a
       = mkApp (mkWorld false (loop_count w') (clock w')
                        (trace w' ++ [ExecutionButtons false]))
               0 (selected_monitor a)
               (notices a ++ [LoopStatus "ループ" 1; StatusCompleted;
                              CompletionNotification]).
Proof.
  intros Hrun Hcount.
  destruct (_execute_steps_for_monitor_returns env steps (selected_monitor a) (world a))
    as (finished & w' & Hexec).
  exists finished, w'. split; [exact Hexec|].
  unfold _run_all_steps.
  rewrite (execute_loop_single_round _ _ a finished
             (with_world w' (notify (LoopStatus "ループ" 1) a)) Hrun Hcount).
  - unfold loop_completed, with_world, notify. cbn. now rewrite <- app_assoc.
  - unfold _run_steps_for_monitor. cbn [notify world selected_monitor].
    now rewrite Hexec.
Qed.

(** X17. Running from a selected row: the worker plans and runs the steps
    from the selected index on, once, and afterwards the start index is 0
    again and the completion notification is shown, whatever the verdict
    of the run. *)
Theorem run_from_selected_row env steps start_index a :
  exists finished w',
    _execute_steps_for_monitor_from_index env steps (selected_monitor a) start_index
      (world (run_from_selected (Some start_index) a))
    = (Ok finished, w')
    /\ _run_from_index env steps (run_from_selected (Some start_index) a)
       = mkApp (mkWorld false (loop_count w') (clock w')
                        (trace w' ++ [ExecutionButtons false]))
               0 (selected_monitor a)
               (notices a ++ [StatusRunningFrom (start_index + 1);
                              LoopStatus "選択ステップ" 1; StatusCompleted;
                              CompletionNotification]).
Proof.
  set (a0 := run_from_selected (Some start_index) a).
  destruct (_execute_steps_for_monitor_from_index_returns
              env steps (selected_monitor a) start_index (world a0))
    as (finished & w' & Hexec).
  exists finished, w'. split; [exact Hexec|].
  unfold _run_from_index.
  rewrite (execute_loop_single_round _ _ a0 finished
             (with_world w' (notify (LoopStatus "選択ステップ" 1) a0)) eq_refl eq_refl).
  - unfold loop_completed, with_world, notify. cbn. now rewrite <- !app_assoc.
  - unfold _run_steps_from_index. cbn [notify world selected_monitor a0
      run_from_selected execution_start_index].
    cbn [a0 run_from_selected world] in Hexec. now rewrite Hexec.
Qed.

(* ===================================================================== *)
(** * The editor and its undo history *)

Section History.
Import Editing.

Lemma last_deque_append {A} (x : A) q : last (deque_append x q) = Some x.
Proof.
  unfold deque_append. rewrite last_lookup, length_drop, lookup_drop.
  rewrite length_app. simpl.
  replace (length q + 1 - 50 + Nat.pred (length q + 1 - (length q + 1 - 50)))
    with (length q) by lia.
  rewrite lookup_app_r by lia. now replace (length q - length q) with 0 by lia.
Qed.

Lemma length_deque_append {A} (x : A) q :
  length (deque_append x q) = Nat.min 50 (length q + 1).
Proof. unfold deque_append. rewrite length_drop, length_app. cbn [length]. lia. Qed.

Lemma restored_steps_core times l :
  map core (imap (fun i step_dict => restored_step (times i) step_dict) l)
  = map core l.
Proof.
  revert times. induction l as [|s l IH]; intros times; [reflexivity|].
  cbn [imap map]. f_equal. apply (IH (times ∘ S)).
Qed.

Lemma restored_steps_enabled times l :
  List.Forall (fun s => o_enabled s = true)
              (imap (fun i step_dict => restored_step (times i) step_dict) l).
Proof.
  revert times. induction l as [|s l IH]; intros times; constructor;
    [reflexivity|apply (IH (times ∘ S))].
Qed.

(** X18. An undo with a snapshot on the stack replaces the steps by those
    of the snapshot, of which it keeps the kind, the parameters and the
    comment, and puts the monitor back; but every step comes back
    enabled, the saved flag having gone into [created_at], and the undo
    then fails on a method the tool does not have: the error dialog is
    shown and [current_state_id] stays as it was. *)
Theorem undo_replaces_the_steps_and_fails fresh_id now times ed older previous :
  undo_stack ed = older ++ [previous] ->
  map core (steps (undo fresh_id now times ed)) = map core (snap_steps previous)
  /\ List.Forall (fun s => o_enabled s = true) (steps (undo fresh_id now times ed))
  /\ monitor_var (undo fresh_id now times ed) = snap_monitor_index previous
  /\ undo_stack (undo fresh_id now times ed) = older
  /\ redo_stack (undo fresh_id now times ed)
     = deque_append (mkSnapshot fresh_id now CurrentState (steps ed) (monitor_var ed))
                    (redo_stack ed)
  /\ current_state_id (undo fresh_id now times ed) = current_state_id ed
  /\ shown (undo fresh_id now times ed)
     = shown ed ++ [UndoFailed (AttributeError "update_tree")]
  /\ (forall i s, snap_steps previous !! i = Some s ->
       o_created_at <$> steps (undo fresh_id now times ed) !! i
       = Some (if o_enabled s then VBool true else VStr (times i))).
Proof.
  intros Hstack. unfold undo. rewrite Hstack, last_snoc, removelast_last.
  cbn. repeat split.
  - apply restored_steps_core.
  - apply restored_steps_enabled.
  - intros i s Hs. rewrite list_lookup_imap, Hs. cbn.
    now destruct (o_enabled s).
Qed.

(** X19. The snapshot taken before the first edit is not kept: as long as
    no state id has been set, [save_state] leaves the undo stack alone.
    So after a first added step an undo finds nothing to undo, and the
    step stays. *)
Theorem first_edit_cannot_be_undone fresh_id now selection step ed fresh_id' now' times :
  current_state_id ed = None -> undo_stack ed = [] ->
  exists ed',
    add_step fresh_id now selection step ed = (Ok tt, ed')
    /\ undo_stack ed' = []
    /\ undo fresh_id' now' times ed' = show NothingToUndo ed'
    /\ steps (undo fresh_id' now' times ed') = steps ed'
    /\ length (steps ed') = S (length (steps ed)).
Proof.
  intros Hid Hstack.
  set (saved := save_state fresh_id now (StepAdded (type step)) ed).
  set (insert_index := match selection with
                       | Some selected_index => selected_index + 1
                       | None => length (steps saved)
                       end).
  exists (with_steps (list_insert_at insert_index (object_of step) (steps saved)) saved).
  assert (Hempty : undo_stack saved = []).
  { unfold saved, save_state, has_state_id. now rewrite Hid, Hstack. }
  split; [reflexivity|]. split; [exact Hempty|].
  unfold undo. cbn [with_steps undo_stack]. rewrite Hempty. cbn [last].
  split; [reflexivity|]. split; [reflexivity|].
  cbn [steps show with_steps]. unfold list_insert_at.
  rewrite length_app. cbn [length]. rewrite length_take, length_drop.
  unfold saved, save_state. cbn [steps]. lia.
Qed.

(** X20. A redo right after an undo brings back the kinds, parameters and
    comments of the steps as they were before the undo, all of them
    enabled; it fails in the same way as the undo. *)
Theorem undo_then_redo fresh_id now times fresh_id' now' times' ed older previous :
  undo_stack ed = older ++ [previous] ->
  map core (steps (redo fresh_id' now' times' (undo fresh_id now times ed)))
  = map core (steps ed)
  /\ List.Forall (fun s => o_enabled s = true)
                 (steps (redo fresh_id' now' times' (undo fresh_id now times ed)))
  /\ monitor_var (redo fresh_id' now' times' (undo fresh_id now times ed))
     = monitor_var ed
  /\ shown (redo fresh_id' now' times' (undo fresh_id now times ed))
     = shown ed ++ [UndoFailed (AttributeError "update_tree");
                    RedoFailed (AttributeError "update_tree")].
Proof.
  intros Hstack. unfold redo, undo. rewrite Hstack, last_snoc.
  cbn [restore_state show redo_stack steps monitor_var shown undo_stack
       current_state_id].
  rewrite last_deque_append.
  cbn. repeat split.
  - apply restored_steps_core.
  - apply restored_steps_enabled.
  - now rewrite <- app_assoc.
Qed.

(** X21. [save_state] empties the redo stack, and once a state id is set
    it puts the snapshot on top of the undo stack, which holds 50
    snapshots at most: with 50 on it the oldest one is dropped. *)
Theorem save_state_history fresh_id now action ed :
  has_state_id ed = true ->
  redo_stack (save_state fresh_id now action ed) = []
  /\ last (undo_stack (save_state fresh_id now action ed))
     = Some (mkSnapshot fresh_id now action (steps ed) (monitor_var ed))
  /\ length (undo_stack (save_state fresh_id now action ed))
     = Nat.min 50 (length (undo_stack ed) + 1)
  /\ (length (undo_stack ed) = 50 ->
      undo_stack (save_state fresh_id now action ed)
      = drop 1 (undo_stack ed)
        ++ [mkSnapshot fresh_id now action (steps ed) (monitor_var ed)]).
Proof.
  intros Hid. unfold save_state. rewrite Hid. cbn [redo_stack undo_stack].
  split; [reflexivity|]. split; [apply last_deque_append|].
  split; [apply length_deque_append|].
  intros Hfull. unfold deque_append. rewrite length_app, Hfull. cbn [length Nat.add Nat.sub].
  rewrite drop_app_le by lia. reflexivity.
Qed.

(** X22. [move_step] with both indices in range takes the step out and
    puts it back at [to_index]: the steps are the same up to their order
    and the moved one sits at [to_index].  With an index out of range
    nothing happens and no snapshot is taken. *)
Theorem move_step_reorders fresh_id now from_index to_index ed :
  ((0 <= from_index < Z.of_nat (length (steps ed)))%Z
   /\ (0 <= to_index < Z.of_nat (length (steps ed)))%Z ->
   steps (move_step fresh_id now from_index to_index ed) ≡ₚ steps ed
   /\ steps (move_step fresh_id now from_index to_index ed) !! Z.to_nat to_index
      = steps ed !! Z.to_nat from_index)
  /\ (~ ((0 <= from_index < Z.of_nat (length (steps ed)))%Z
         /\ (0 <= to_index < Z.of_nat (length (steps ed)))%Z) ->
      move_step fresh_id now from_index to_index ed = ed).
Proof.
  unfold move_step. split.
  - intros [Hfrom Hto].
    destruct (Z.leb_spec 0 from_index); [|lia].
    destruct (Z.ltb_spec from_index (Z.of_nat (length (steps ed)))); [|lia].
    destruct (Z.leb_spec 0 to_index); [|lia].
    destruct (Z.ltb_spec to_index (Z.of_nat (length (steps ed)))); [|lia].
    cbn [andb].
    destruct (lookup_lt_is_Some_2 (steps ed) (Z.to_nat from_index) ltac:(lia))
      as [step Hstep].
    rewrite Hstep. cbn [with_steps steps save_state]. unfold list_insert_at. split.
    + rewrite <- Permutation_middle, take_drop.
      symmetry. now apply delete_Permutation.
    + rewrite lookup_app_r; rewrite length_take, length_delete by eauto; [|lia].
      now replace (Z.to_nat to_index
                   - Z.to_nat to_index `min` (length (steps ed) - 1)) with 0 by lia.
  - intros Hout.
    destruct (Z.leb_spec 0 from_index); [|reflexivity].
    destruct (Z.ltb_spec from_index (Z.of_nat (length (steps ed)))); [|reflexivity].
    destruct (Z.leb_spec 0 to_index); [|reflexivity].
    destruct (Z.ltb_spec to_index (Z.of_nat (length (steps ed)))); [|reflexivity].
    lia.
Qed.

End History.

(* ===================================================================== *)
(** * Copy and paste, and loading a file *)

(** X23. A step copied and pasted: [from_dict] gives back what [to_dict]
    was given, and the pasted step has the kind, the parameters, the
    creation time and the enabled flag of the copied one, its comment
    being the copied comment followed by the marker. *)
Theorem copy_then_paste now suffix (s : Step) :
  created_at s <> "" ->
  from_dict now (to_dict s) = Ok s
  /\ pasted_step now suffix (to_dict s)
     = Ok (mkStep (type s) (params s) (String.append (comment s) suffix)
                  (created_at s) (enabled s)).
Proof.
  intros Hstamp. destruct s as [t p c ca en].
  unfold pasted_step, from_dict, to_dict, Step_of_kwargs, Step_init. cbn in *.
  apply String.eqb_neq in Hstamp. rewrite Hstamp. split; reflexivity.
Qed.

Section Loads.
Import Loading.

Lemma for_append_length {A B} (f : A -> Outcome B) xs ys :
  for_append f xs = Ok ys -> length ys = length xs.
Proof.
  revert ys. induction xs as [|x xs IH]; simpl; intros ys.
  - now intros [= <-].
  - destruct (f x); [|discriminate]. simpl.
    destruct (for_append f xs); [|discriminate]. simpl.
    intros [= <-]. simpl. f_equal. now apply IH.
Qed.

Lemma for_append_raises {A B} (f : A -> Outcome B) xs x e :
  In x xs -> f x = Raise e -> exists e', for_append f xs = Raise e'.
Proof.
  intros Hin Hx. induction xs as [|y xs IH]; [destruct Hin|].
  simpl. destruct Hin as [->|Hin].
  - rewrite Hx. simpl. eauto.
  - destruct (f y); simpl; [|eauto].
    destruct (IH Hin) as [e' ->]. simpl. eauto.
Qed.

(** A record that passes the structure check is built into a step exactly
    when it has a comment and no key that is no field of [Step]. *)
Lemma load_step_of_checked_record now record :
  step_structure record = true ->
  (sd_comment record <> None /\ sd_other record = [] ->
   exists s, load_step now record = Ok s)
  /\ (sd_comment record = None \/ sd_other record <> [] ->
      exists operation, load_step now record = Raise (TypeError operation)).
Proof.
  destruct record as [t p c ca en other]. unfold step_structure. cbn.
  destruct t as [t|]; [|discriminate]. destruct p as [p|]; [|discriminate].
  intros _. unfold load_step, Step_of_kwargs. cbn. split.
  - intros [Hc ->]. destruct c as [c|]; [|congruence].
    destruct (bool_decide _ && bool_decide _); cbn; eauto.
  - intros [->|Hother].
    + destruct (bool_decide _ && bool_decide _); destruct other; cbn; eauto.
    + destruct other; [congruence|].
      destruct (bool_decide _ && bool_decide _); cbn; eauto.
Qed.

Lemma corrected_in_range lo hi dflt entry v :
  (lo <= dflt <= hi)%Z ->
  default (VInt dflt) (corrected lo hi dflt entry) = v ->
  isinstance_int v = true /\ (lo <= int_value v <= hi)%Z.
Proof.
  intros Hd <-. destruct entry as [v|]; cbn; [|split; [reflexivity|lia]].
  destruct (isinstance_int v) eqn:Hint; cbn; [|split; [reflexivity|lia]].
  destruct (Z.ltb_spec (int_value v) lo); cbn; [split; [reflexivity|lia]|].
  destruct (Z.ltb_spec hi (int_value v)); cbn; [split; [reflexivity|lia]|].
  split; [assumption|lia].
Qed.

(** X24. The structure check asks a step record for its type and its
    parameters only.  A file in which every record passes it, one of them
    lacking its comment or carrying a key that is no field of [Step], is
    accepted by the check and then fails to load; the failure leaves the
    steps, the monitor, the loop count and the list as they were. *)
Theorem checked_file_may_fail_to_load env now monitors config records record s :
  steps config = Some records ->
  forallb step_structure records = true ->
  In record records ->
  sd_comment record = None \/ sd_other record <> [] ->
  fst (_validate_config_structure config) = true
  /\ exists e, load_config_file env now monitors config s = report (LoadFailed e) s.
Proof.
  intros Hsteps Hall Hin Hbad.
  unfold load_config_file, _validate_config_structure. rewrite Hsteps, Hall.
  split; [reflexivity|]. cbn [steps].
  change (default [] (Some records)) with records.
  assert (Hrecord : step_structure record = true).
  { rewrite forallb_forall in Hall. now apply Hall. }
  destruct (proj2 (load_step_of_checked_record now record Hrecord) Hbad) as [op Hop].
  destruct (for_append_raises (load_step now) records record _ Hin Hop) as [e' ->].
  eauto.
Qed.

(** The list is drawn in full exactly when the parameters of every step
    can be displayed. *)
Lemma drawn_rows_all l :
  fst (drawn_rows l) = l
  <-> List.Forall (fun step => get_params_display step = Ok tt) l.
Proof.
  induction l as [|step l IH]; cbn [drawn_rows].
  - split; [constructor|reflexivity].
  - destruct (get_params_display step) as [[]|e] eqn:Hstep.
    + destruct (drawn_rows l) as [rows failure]. cbn [fst] in *. split.
      * intros [= Hrows]. constructor; [exact Hstep|]. now apply IH.
      * intros Hall. inversion Hall as [|? ? _ Hl]; subst. f_equal. now apply IH.
    + cbn [fst]. split; [discriminate|].
      intros Hall. inversion Hall as [|? ? Hok _]; subst. congruence.
Qed.

Lemma drawn_rows_prefix l : fst (drawn_rows l) `prefix_of` l.
Proof.
  induction l as [|step l IH]; cbn [drawn_rows]; [reflexivity|].
  destruct (get_params_display step); [|apply prefix_nil].
  destruct (drawn_rows l) as [rows failure]. cbn [fst] in *.
  now apply prefix_cons.
Qed.

Lemma listed_refresh_tree s :
  listed (refresh_tree s) = fst (drawn_rows (session_steps s))
  /\ session_steps (refresh_tree s) = session_steps s
  /\ selected_monitor (refresh_tree s) = selected_monitor s
  /\ session_loop_count (refresh_tree s) = session_loop_count s.
Proof. unfold refresh_tree. now destruct (drawn_rows (session_steps s)). Qed.

(** X25. A load that reports completion leaves a loop count between 1 and
    10000 and a monitor between 0 and 10 that the machine has, and one
    step per record of the file.  The list then shows the steps up to the
    first one whose parameters cannot be displayed: all of them exactly
    when every step has the parameters its row displays. *)
Theorem completed_load_is_in_range env now monitors config s n :
  last (reports (load_config_file env now monitors config s))
  = Some (LoadCompleted n) ->
  exists records m,
    steps config = Some records
    /\ length (session_steps (load_config_file env now monitors config s))
       = length records
    /\ n = length records
    /\ listed (load_config_file env now monitors config s)
       = fst (drawn_rows (session_steps (load_config_file env now monitors config s)))
    /\ listed (load_config_file env now monitors config s)
       `prefix_of` session_steps (load_config_file env now monitors config s)
    /\ (listed (load_config_file env now monitors config s)
        = session_steps (load_config_file env now monitors config s)
        <-> List.Forall (fun step => get_params_display step = Ok tt)
                        (session_steps (load_config_file env now monitors config s)))
    /\ (1 <= session_loop_count (load_config_file env now monitors config s)
        <= 10000)%Z
    /\ selected_monitor (load_config_file env now monitors config s) = VInt m
    /\ (0 <= m <= 10)%Z /\ Z.to_nat m < monitors.
Proof.
  unfold load_config_file, _validate_config_structure.
  destruct (steps config) as [records|] eqn:Hsteps.
  2:{ cbn. rewrite last_snoc. discriminate. }
  destruct (forallb step_structure records).
  2:{ cbn. rewrite last_snoc. discriminate. }
  cbn [steps last_monitor loop_count].
  change (default [] (Some records)) with records.
  destruct (for_append (load_step now) records) as [loaded|e] eqn:Hloaded.
  2:{ cbn. rewrite last_snoc. discriminate. }
  cbn [session_steps selected_monitor session_loop_count listed reports].
  destruct (corrected_in_range 1 10000 1 (Loading.loop_count config) _ ltac:(lia) eq_refl)
    as [Hint Hrange].
  destruct (corrected_in_range 0 10 0 (Loading.last_monitor config) _ ltac:(lia) eq_refl)
    as [Hint' Hrange'].
  assert (Hcount : exists z,
             py_int env (default (VInt 1) (corrected 1 10000 1 (Loading.loop_count config)))
             = Ok z /\ (1 <= z <= 10000)%Z).
  { destruct (default (VInt 1) (corrected 1 10000 1 (Loading.loop_count config)))
      as [|b|z|f|t]; try discriminate Hint; cbn [py_int int_value] in *.
    - destruct b; [exists 1%Z; split; [reflexivity|lia]|lia].
    - eauto. }
  destruct Hcount as (z & -> & Hz).
  unfold select_monitor.
  cbn [session_steps selected_monitor session_loop_count listed reports].
  destruct (default (VInt 0) (corrected 0 10 0 (Loading.last_monitor config)))
    as [|b'|m|f'|t'] eqn:Hmon; try discriminate Hint'.
  { cbn. rewrite last_snoc. discriminate. }
  cbn [int_of_str_of int_value] in *.
  destruct (Z.leb_spec 0 m); [|lia].
  destruct (Nat.ltb_spec (Z.to_nat m) monitors).
  2:{ cbn. rewrite last_snoc. discriminate. }
  cbn [report reports]. rewrite last_snoc. intros [= <-].
  set (s1 := mkSession loaded (VInt m) z (listed s) (reports s)).
  destruct (listed_refresh_tree s1) as (Hlisted & Hsame & Hmonitor & Hloop).
  unfold report. cbn [session_steps selected_monitor session_loop_count listed].
  rewrite Hlisted, Hsame, Hmonitor, Hloop. cbn [s1 session_steps selected_monitor
                                                  session_loop_count].
  exists records, m. apply for_append_length in Hloaded.
  split; [reflexivity|]. split; [assumption|]. split; [now symmetry|].
  split; [reflexivity|]. split; [apply drawn_rows_prefix|].
  split; [apply drawn_rows_all|]. repeat split; auto; lia.
Qed.

(** X26. A file that names a monitor the machine does not have: the steps
    and the loop count of the file are taken over, but the load then
    fails with an [IndexError], the out-of-range monitor stays selected
    and the list is not redrawn. *)
Theorem load_with_a_missing_monitor env now monitors config records loaded m s :
  steps config = Some records ->
  forallb step_structure records = true ->
  for_append (load_step now) records = Ok loaded ->
  last_monitor config = Some (VInt m) ->
  (0 <= m <= 10)%Z -> monitors <= Z.to_nat m ->
  exists n,
    (1 <= n <= 10000)%Z
    /\ load_config_file env now monitors config s
       = mkSession loaded (VInt m) n (listed s)
                   (reports s ++ [LoadFailed IndexError]).
Proof.
  intros Hsteps Hall Hloaded Hmon Hm Hfew.
  unfold load_config_file, _validate_config_structure. rewrite Hsteps, Hall.
  cbn [steps last_monitor loop_count]. rewrite Hmon.
  change (default [] (Some records)) with records. rewrite Hloaded.
  cbn [corrected isinstance_int int_value negb orb].
  destruct (Z.ltb_spec m 0); [lia|]. destruct (Z.ltb_spec 10 m); [lia|].
  cbn [orb]. change (default (VInt 0) (Some (VInt m))) with (VInt m).
  destruct (corrected_in_range 1 10000 1 (Loading.loop_count config) _ ltac:(lia) eq_refl)
    as [Hint Hrange].
  destruct (default (VInt 1) (corrected 1 10000 1 (Loading.loop_count config)))
    as [|b|z|f|t] eqn:Hloop; try discriminate Hint.
  - destruct b; cbn in Hrange; [|lia]. exists 1%Z. split; [lia|].
    cbn [py_int]. unfold select_monitor.
    cbn [session_steps selected_monitor session_loop_count listed reports
         int_of_str_of].
    destruct (Z.leb_spec 0 m); [|lia].
    destruct (Nat.ltb_spec (Z.to_nat m) monitors); [lia|]. reflexivity.
  - cbn in Hrange. exists z. split; [lia|].
    cbn [py_int]. unfold select_monitor.
    cbn [session_steps selected_monitor session_loop_count listed reports
         int_of_str_of].
    destruct (Z.leb_spec 0 m); [|lia].
    destruct (Nat.ltb_spec (Z.to_nat m) monitors); [lia|]. reflexivity.
Qed.

End Loads.

(* ===================================================================== *)
(** * Commands with a scheduled time, and the wait *)

(** X27. A command with a scheduled time: when the wait reports that it
    was interrupted the handler returns without starting anything, so the
    step loop takes the step for done; when the wait ends in time the
    process is started next. *)
Theorem scheduled_command_after_the_wait
    (env : Env) (step : Step) (command : string) (scheduled_time : pyval) (w : World) :
  params step !! "command" = Some (VStr command) ->
  _validate_command_safety command = true ->
  params step !! "scheduled_time" = Some scheduled_time ->
  py_truthy scheduled_time = true ->
  (_wait_for_scheduled_time env (clock w) scheduled_time = Ok true ->
   _execute_cmd_command env step w
   = (Ok tt, tick env (WaitForScheduledTime scheduled_time) w)
   /\ List.filter spawns (trace (snd (_execute_cmd_command env step w)))
      = List.filter spawns (trace w))
  /\ (_wait_for_scheduled_time env (clock w) scheduled_time = Ok false ->
      params step !! "wait_completion" = Some (VBool false) ->
      trace (snd (_execute_cmd_command env step w))
      = trace w ++ [WaitForScheduledTime scheduled_time; SubprocessPopen command]).
Proof.
  intros Hcommand Hsafe Htime Htruthy. split.
  - intros Hwait.
    assert (Hrun : _execute_cmd_command env step w
                   = (Ok tt, tick env (WaitForScheduledTime scheduled_time) w)).
    { unfold _execute_cmd_command. rewrite Hcommand. unfold dict_get. rewrite Htime.
      unfold try_except. rewrite Hsafe. cbn [negb]. rewrite Htruthy.
      unfold bind, call. now rewrite Hwait. }
    split; [exact Hrun|]. rewrite Hrun. cbn [snd tick trace].
    rewrite List.filter_app. cbn. apply app_nil_r.
  - intros Hwait Hdetached.
    unfold _execute_cmd_command. rewrite Hcommand. unfold dict_get.
    rewrite Htime, Hdetached.
    unfold try_except. rewrite Hsafe. cbn [negb]. rewrite Htruthy.
    unfold bind, call. rewrite Hwait. cbn [py_truthy].
    unfold call_unit, call. cbn [tick clock].
    destruct (subprocess_popen env (S (clock w)) command) as [e|];
      [destruct e|]; cbn; now rewrite <- app_assoc.
Qed.

Section Waits.
Context (env : Env).
Import Scheduled.

Lemma sleeps_S n : sleeps (S n) = sleeps n ++ [TimeSleep 1%float].
Proof.
  unfold sleeps. induction n as [|n IH]; [reflexivity|].
  cbn [repeat app] in *. now rewrite <- IH.
Qed.

Lemma slept_0 w : slept env 0 w = w.
Proof.
  unfold slept, sleeps. cbn [repeat]. rewrite flag_after_0, Nat.add_0_r, app_nil_r.
  now destruct w.
Qed.

Lemma slept_S n w :
  tick env (TimeSleep 1%float) (slept env n w) = slept env (S n) w.
Proof.
  unfold tick, slept. cbn [running loop_count clock trace].
  rewrite sleeps_S, app_assoc. f_equal; [|lia].
  replace (S n) with (n + 1) by lia. rewrite flag_after_add.
  cbn [seq forallb]. now rewrite Nat.add_0_r, andb_true_r.
Qed.

(** [k] sleeps, the flag holding before each of them. *)
Lemma wait_loop_sleeps k : forall n w,
  time_sleep env 1%float = None ->
  (forall j, j < k -> flag_after env (slept env 0 w) j = true) ->
  wait_loop env (k + n) w = wait_loop env n (slept env k w).
Proof.
  induction k as [|k IH]; intros n w Hsleep Hflag.
  - now rewrite slept_0.
  - replace (S k + n) with (k + S n) by lia.
    rewrite IH; [|assumption|intros j Hj; apply Hflag; lia].
    cbn [wait_loop]. unfold bind at 1. unfold get_running at 1.
    cbn [running slept].
    specialize (Hflag k ltac:(lia)). rewrite slept_0 in Hflag. rewrite Hflag.
    unfold bind, call_unit, call. rewrite Hsleep.
    now rewrite slept_S.
Qed.

Lemma wait_loop_stopped n w :
  running w = false -> wait_loop env n w = (Ok tt, w).
Proof.
  intros Hoff. destruct n; [reflexivity|].
  cbn [wait_loop]. unfold bind, get_running. now rewrite Hoff.
Qed.

Lemma wait_body_due now scheduled_time remaining w :
  due env now scheduled_time remaining ->
  wait_body env now scheduled_time w
  = (let* _ := wait_loop env (Z.to_nat remaining) in
     let* is_running := get_running in
     ret (negb is_running)) w.
Proof.
  intros (text & ht & mt & st & h & m & s & target
          & -> & Hsplit & Hh & Hm & Hs & Htarget & Hremaining).
  unfold wait_body. rewrite Hsplit.
  unfold bind at 1, lift at 1. rewrite Hh.
  unfold bind at 1, lift at 1. rewrite Hm.
  unfold bind at 1, lift at 1. rewrite Hs.
  unfold bind at 1, lift at 1. rewrite Htarget.
  unfold bind at 1, lift at 1. rewrite Hremaining. reflexivity.
Qed.

(** X28. The wait polls the running flag once a second.  With the flag
    holding through all [remaining] seconds it sleeps [remaining] times
    and reports that it was not interrupted; a stop request during one of
    the sleeps, the last one included, ends the wait after that sleep
    with the report of an interruption; and with the flag already
    cleared it reports the interruption without sleeping. *)
Theorem wait_polls_the_flag now scheduled_time remaining w :
  due env now scheduled_time remaining ->
  time_sleep env 1%float = None ->
  (flag_after env w (Z.to_nat remaining) = true ->
   Scheduled._wait_for_scheduled_time env now scheduled_time w
   = (Returns false, slept env (Z.to_nat remaining) w))
  /\ (forall k, k < Z.to_nat remaining ->
        flag_after env w k = true -> stop_requested env (clock w + k) = true ->
        Scheduled._wait_for_scheduled_time env now scheduled_time w
        = (Returns true, slept env (S k) w))
  /\ (running w = false ->
      Scheduled._wait_for_scheduled_time env now scheduled_time w
      = (Returns true, w)).
Proof.
  intros Hdue Hsleep.
  unfold Scheduled._wait_for_scheduled_time.
  rewrite (wait_body_due _ _ _ _ Hdue).
  split; [|split].
  - intros Hflag. unfold bind at 1.
    replace (Z.to_nat remaining) with (Z.to_nat remaining + 0) at 1 by lia.
    rewrite wait_loop_sleeps; [|assumption|].
    2:{ intros j Hj. rewrite slept_0.
        apply (flag_after_le env w j (Z.to_nat remaining)); [lia|assumption]. }
    cbn [wait_loop ret]. unfold bind, get_running, ret. cbn [running slept].
    now rewrite Hflag.
  - intros k Hk Hflag Hstop. unfold bind at 1.
    replace (Z.to_nat remaining) with (k + S (Z.to_nat remaining - S k)) by lia.
    rewrite wait_loop_sleeps; [|assumption|].
    2:{ intros j Hj. rewrite slept_0.
        apply (flag_after_le env w j k); [lia|assumption]. }
    cbn [wait_loop]. unfold bind at 1. unfold get_running at 1.
    cbn [running slept]. rewrite Hflag.
    unfold bind at 1. unfold call_unit, call. rewrite Hsleep, slept_S.
    assert (Hoff : running (slept env (S k) w) = false).
    { cbn [running slept]. replace (S k) with (k + 1) by lia.
      rewrite flag_after_add. cbn [seq forallb].
      now rewrite Nat.add_0_r, Hstop, andb_false_r. }
    rewrite wait_loop_stopped by assumption.
    unfold bind, get_running, ret. now rewrite Hoff.
  - intros Hoff. unfold bind at 1. rewrite wait_loop_stopped by assumption.
    unfold bind, get_running, ret. now rewrite Hoff.
Qed.

Lemma wait_body_parsed now text hour_text minute_text second_text h m s w :
  py_split ":" text = [hour_text; minute_text; second_text] ->
  int_of_str env hour_text = Ok h ->
  int_of_str env minute_text = Ok m ->
  int_of_str env second_text = Ok s ->
  wait_body env now (VStr text) w
  = (let* target := lift (target_time now h m s) in
     let* remaining := lift (whole_seconds target now) in
     let* _ := wait_loop env (Z.to_nat remaining) in
     let* is_running := get_running in
     ret (negb is_running)) w.
Proof.
  intros Hsplit Hh Hm Hs. unfold wait_body. rewrite Hsplit.
  unfold bind at 1, lift at 1. rewrite Hh.
  unfold bind at 1, lift at 1. rewrite Hm.
  unfold bind at 1, lift at 1. rewrite Hs. reflexivity.
Qed.

(** X29. What is no time of day is refused before any waiting, in the
    world the wait was entered in: a value that is no text is a failure
    of the wait; a text that does not split into three parts at the
    colons is a format error; so are numbers that fit a C int and lie
    outside 0..23, 0..59 and 0..59; and a number that does not fit a C
    int makes [replace] raise an [OverflowError], which is reported as a
    failure of the wait and not as a format error. *)
Theorem malformed_time_is_refused now scheduled_time w :
  ((forall text, scheduled_time <> VStr text) ->
   Scheduled._wait_for_scheduled_time env now scheduled_time w
   = (WaitFailure (AttributeError "split"), w))
  /\ (forall text,
        scheduled_time = VStr text -> length (py_split ":" text) <> 3 ->
        exists m,
          Scheduled._wait_for_scheduled_time env now scheduled_time w
          = (FormatError (ValueError m), w))
  /\ (forall text hour_text minute_text second_text h m s,
        scheduled_time = VStr text ->
        py_split ":" text = [hour_text; minute_text; second_text] ->
        int_of_str env hour_text = Ok h ->
        int_of_str env minute_text = Ok m ->
        int_of_str env second_text = Ok s ->
        (c_int h && c_int m && c_int s = true ->
         ~ (0 <= h <= 23 /\ 0 <= m <= 59 /\ 0 <= s <= 59)%Z ->
         exists message,
           Scheduled._wait_for_scheduled_time env now scheduled_time w
           = (FormatError (ValueError message), w))
        /\ (c_int h && c_int m && c_int s = false ->
            Scheduled._wait_for_scheduled_time env now scheduled_time w
            = (WaitFailure OverflowError, w))).
Proof.
  unfold Scheduled._wait_for_scheduled_time, wait_body. split; [|split].
  - intros Hno. destruct scheduled_time; try reflexivity. now destruct (Hno s).
  - intros text -> Hlen.
    destruct (py_split ":" text) as [|a [|b [|c [|d l]]]]; cbn in *;
      try (eexists; reflexivity). lia.
  - intros text ht mt st h m s -> Hsplit Hh Hm Hs.
    fold (wait_body env now (VStr text)).
    rewrite (wait_body_parsed now text ht mt st h m s w Hsplit Hh Hm Hs).
    unfold bind at 1, lift at 1. unfold target_time, replace_time. split.
    + intros Hfit Hbad. rewrite Hfit. cbn [negb].
      destruct (Z.leb_spec 0 h), (Z.leb_spec h 23); cbn; try (eexists; reflexivity).
      destruct (Z.leb_spec 0 m), (Z.leb_spec m 59); cbn; try (eexists; reflexivity).
      destruct (Z.leb_spec 0 s), (Z.leb_spec s 59); cbn; try (eexists; reflexivity).
      lia.
    + intros Hwide. rewrite Hwide. reflexivity.
Qed.

(** X30. The moment the wait aims at is the next occurrence of the given
    time of day: it lies after [now] and at most a day ahead, and it is a
    whole day ahead exactly when the given time is the present one to
    the microsecond. *)
Theorem target_is_the_next_occurrence now h m s target :
  time_of_day now ->
  target_time now h m s = Ok target ->
  (hour target, minute target, second target, microsecond target) = (h, m, s, 0%Z)
  /\ (0 < microseconds target - microseconds now <= 86400000000)%Z
  /\ ((microseconds target - microseconds now = 86400000000)%Z
      <-> (hour now, minute now, second now, microsecond now) = (h, m, s, 0%Z)).
Proof.
  intros (Hh & Hm & Hs & Hus). unfold target_time, replace_time.
  destruct (c_int h && c_int m && c_int s); cbn [negb]; [|discriminate].
  destruct (Z.leb_spec 0 h), (Z.leb_spec h 23); cbn; try discriminate.
  destruct (Z.leb_spec 0 m), (Z.leb_spec m 59); cbn; try discriminate.
  destruct (Z.leb_spec 0 s), (Z.leb_spec s 59); cbn; try discriminate.
  match goal with
  | |- context [Z.leb ?a ?b] => destruct (Z.leb_spec a b) as [Hle|Hgt]
  end; unfold microseconds in Hle || unfold microseconds in Hgt;
    cbn [day hour minute second microsecond] in *.
  - unfold next_day. cbn [day hour minute second microsecond].
    destruct (Z.leb_spec 3652059 (day now)); [discriminate|].
    intros [= <-]. unfold microseconds. cbn [day hour minute second microsecond].
    split; [reflexivity|]. split; [lia|]. split.
    + intros Heq.
      assert (Hus0 : microsecond now = 0%Z) by lia.
      assert (Hs0 : second now = s) by lia.
      assert (Hm0 : minute now = m) by lia.
      assert (Hh0 : hour now = h) by lia.
      now rewrite Hus0, Hs0, Hm0, Hh0.
    + intros [= Hh1 Hm1 Hs1 Hz]. rewrite Hh1, Hm1, Hs1, Hz. lia.
  - intros [= <-]. unfold microseconds. cbn [day hour minute second microsecond].
    split; [reflexivity|]. split; [lia|]. split.
    + intros Heq. exfalso. lia.
    + intros [= Hh1 Hm1 Hs1 Hz]. rewrite Hh1, Hm1, Hs1 in Hgt. lia.
Qed.

End Waits.

(* ===================================================================== *)
(** * More concrete runs *)

(** [repeat_start(2), key, repeat_end]: a plan exists, no loop is open. *)
Lemma closed_loop_has_plan :
  integer_counts (Sample.loop 2)
  /\ ((exists p, _generate_execution_plan (Sample.loop 2) = Ok p)
      <-> (forall k, ~ unmatched (Sample.loop 2) k)).
Proof.
  assert (Hcounts : integer_counts (Sample.loop 2)).
  { intros s [<-|[<-|[<-|[]]]] Hs; try discriminate Hs. eexists; reflexivity. }
  split; [exact Hcounts|].
  exact (plan_exists_iff_every_loop_closes (Sample.loop 2) Hcounts).
Defined.

(** The five entries of that plan name the three steps. *)
Lemma closed_loop_plan_in_bounds :
  _generate_execution_plan (Sample.loop 2) = Ok [(0, 0); (1, 1); (2, 1); (1, 2); (2, 2)]
  /\ List.Forall (fun entry => fst entry < 3) [(0, 0); (1, 1); (2, 1); (1, 2); (2, 2)]
  /\ exists total_valid_steps,
       count_enabled (Sample.loop 2) [(0, 0); (1, 1); (2, 1); (1, 2); (2, 2)]
       = Ok total_valid_steps
       /\ forall w,
            _execute_steps_for_monitor Example.quiet_low (Sample.loop 2) 0 w
            = run_plan Example.quiet_low (Sample.loop 2) 0 total_valid_steps
                       [(0, 0); (1, 1); (2, 1); (1, 2); (2, 2)] 0 w
            /\ exists finished w',
                 _execute_steps_for_monitor Example.quiet_low (Sample.loop 2) 0 w
                 = (Ok finished, w').
Proof.
  split; [reflexivity|].
  exact (plan_entries_name_steps Example.quiet_low (Sample.loop 2) 0
           [(0, 0); (1, 1); (2, 1); (1, 2); (2, 2)] eq_refl).
Defined.

(** [key, repeat_end, key]: the stray [repeat_end] is dropped. *)
Lemma stray_repeat_end_is_dropped :
  (forall s, In s [Sample.key_step; Sample.end_step; Sample.key_step] ->
             is_repeat_start s = false)
  /\ _generate_execution_plan [Sample.key_step; Sample.end_step; Sample.key_step]
     = Ok [(0, 0); (2, 0)].
Proof.
  assert (Hno : forall s, In s [Sample.key_step; Sample.end_step; Sample.key_step] ->
                          is_repeat_start s = false).
  { intros s [<-|[<-|[<-|[]]]]; reflexivity. }
  split; [exact Hno|].
  exact (plan_without_repeat_start
           [Sample.key_step; Sample.end_step; Sample.key_step] Hno).
Defined.

(** A loop of two rounds around two key steps, and the same with a count
    of zero. *)
Lemma loop_of_two_around_two_steps :
  (_expand_nested_loops
     (Sample.start_step 2 :: [Sample.key_step; Sample.key_step] ++ [Sample.end_step])
     0 4 0
   = Ok [(0, 0); (1, 1); (2, 1); (3, 1); (1, 2); (2, 2); (3, 2)])
  /\ (_expand_nested_loops
        (Sample.start_step 0 :: [Sample.key_step; Sample.key_step] ++ [Sample.end_step])
        0 4 0
      = Ok [(0, 0)]).
Proof.
  assert (Hbody : List.Forall plain [Sample.key_step; Sample.key_step])
    by (repeat constructor; discriminate).
  split.
  - exact (proj1 (single_loop_unrolls (Sample.start_step 2) Sample.end_step
                    [Sample.key_step; Sample.key_step] 2 0
                    eq_refl eq_refl Hbody eq_refl)).
  - exact (proj1 (single_loop_unrolls (Sample.start_step 0) Sample.end_step
                    [Sample.key_step; Sample.key_step] 0 0
                    eq_refl eq_refl Hbody eq_refl)).
Defined.

(** Starting at index 2 of [repeat_start(2), key, key, repeat_end, key]:
    the second key step of the body once, then the step after the loop. *)
Lemma run_from_inside_a_loop :
  (forall s, In s (drop 2 Sample.loop_then_key) -> is_repeat_start s = false)
  /\ _generate_execution_plan_from_steps (drop 2 Sample.loop_then_key) 2
     = Ok [(2, 0); (4, 0)].
Proof.
  assert (Hno : forall s, In s (drop 2 Sample.loop_then_key) ->
                          is_repeat_start s = false).
  { intros s [<-|[<-|[<-|[]]]]; reflexivity. }
  split; [exact Hno|].
  exact (plan_from_index_without_repeat_start Sample.loop_then_key 2 Hno).
Defined.

(** A disabled step between two enabled ones. *)
Lemma disabled_step_run :
  running Example.started = true
  /\ run_plan Example.quiet_low
       [Sample.disabled_key_step; Sample.key_step] 0 1 ([(0, 0)] ++ [(1, 0)]) 0
       Example.started
     = run_plan Example.quiet_low
         [Sample.disabled_key_step; Sample.key_step] 0 1 [(1, 0)] 0 Example.started
  /\ count_enabled [Sample.disabled_key_step; Sample.key_step] ([(0, 0)] ++ [(1, 0)])
     = Ok 1.
Proof.
  split; [reflexivity|].
  refine (disabled_entries_are_skipped Example.quiet_low
            [Sample.disabled_key_step; Sample.key_step] 0 1 [(0, 0)] [(1, 0)] 0
            Example.started eq_refl _).
  constructor; [|constructor].
  exists Sample.disabled_key_step. split; reflexivity.
Defined.

(** [repeat_start] without a count, a key step, [repeat_end]: planned as one
    round, stopped at the first entry. *)
Lemma bare_repeat_start_run :
  _generate_execution_plan
    (Sample.bare_start_step :: [Sample.key_step] ++ [Sample.end_step])
  = Ok [(0, 0); (1, 1); (2, 1)]
  /\ exists total_valid_steps,
       _execute_steps_for_monitor Example.quiet_low
         (Sample.bare_start_step :: [Sample.key_step] ++ [Sample.end_step]) 0
         Example.started
       = (Ok false,
          step_failed 0 (KeyError "count")
                      (step_started 0 1 total_valid_steps Example.started)).
Proof.
  assert (Hbody : List.Forall plain [Sample.key_step])
    by (repeat constructor; discriminate).
  exact (repeat_start_without_count_stops_the_run Example.quiet_low
           Sample.bare_start_step Sample.end_step [Sample.key_step] 0 Example.started
           eq_refl eq_refl eq_refl Hbody eq_refl eq_refl).
Defined.

(** A miss, then a hit: two captures, one sleep, the click. *)
Lemma second_capture_is_clicked :
  _execute_image_click Screens.found_on_second_capture
    (Example.step "image_click" (Example.search_params 3)) 0 Example.started
  = (Ok tt,
     mkWorld true 1 4
             [CaptureScreenshot 0; TimeSleep 0.5; LogSearchAttempt 1 0.5;
              CaptureScreenshot 0; Click (165, 82)%Z]).
Proof.
  refine (proj1 (image_click_after_misses Screens.found_on_second_capture 0
                   (Example.step "image_click" (Example.search_params 3))
                   (VStr "button.png") 0.75 3 0.5 Example.template 0 0
                   Example.started 1 0.75 (100, 50)%Z (165, 82)%Z
                   (Click (165, 82)%Z)
                   (search_setup Screens.found_on_second_capture 3 eq_refl eq_refl)
                   ltac:(lia) eq_refl eq_refl _ eq_refl eq_refl eq_refl eq_refl
                   eq_refl)).
  intros j Hj. exists 0.5%float, (100, 50)%Z.
  destruct j as [|j]; [split; reflexivity|lia].
Defined.

(** A click type of "middle": the image is found, nothing is clicked; the
    image is not found, the error is the usual one. *)
Lemma middle_click_runs :
  _execute_image_click Example.quiet_hit
    (Example.step "image_click" Screens.middle_click_params) 0 Example.started
  = (Raise (RuntimeError (ImageClickFailed (ValueError (InvalidClickType
              (VStr "middle"))))),
     mkWorld true 1 1 [CaptureScreenshot 0])
  /\ fst (_execute_image_click Example.quiet_low
            (Example.step "image_click" Screens.middle_click_params) 0
            Example.started)
     = Raise (RuntimeError (ImageClickFailed (image_not_found (VStr "button.png")))).
Proof.
  assert (Hsetup : forall e,
             read_template e = (fun _ => Ok (Some Example.template)) ->
             get_monitor_region e = (fun _ => Ok (0, 0, 1920, 1080)%Z) ->
             image_click_setup e
               (Example.step "image_click" Screens.middle_click_params) 0
               (VStr "button.png") 0.75 3 0.5 Example.template 0 0).
  { intros e Hread Hregion. unfold image_click_setup. rewrite Hread, Hregion.
    repeat split; try (vm_compute; reflexivity). eauto. }
  split.
  - refine (proj1 (invalid_click_type_shows_on_a_match Example.quiet_hit 0
                     (Example.step "image_click" Screens.middle_click_params)
                     (VStr "button.png") 0.75 3 0.5 Example.template 0 0
                     Example.started (Hsetup Example.quiet_hit eq_refl eq_refl) _ eq_refl
                     ltac:(lia))
                  0.75%float (100, 50)%Z (165, 82)%Z eq_refl eq_refl eq_refl).
    intros p. reflexivity.
  - rewrite (proj2 (invalid_click_type_shows_on_a_match Example.quiet_low 0
                      (Example.step "image_click" Screens.middle_click_params)
                      (VStr "button.png") 0.75 3 0.5 Example.template 0 0
                      Example.started (Hsetup Example.quiet_low eq_refl eq_refl)
                      (fun p => eq_refl) eq_refl ltac:(lia))
                   eq_refl eq_refl).
    + reflexivity.
    + intros j Hj. exists 0.5%float, (100, 50)%Z. split; reflexivity.
Defined.

(** [retry = -1], and a handler entered with the flag cleared. *)
Lemma search_without_capture_runs :
  _execute_image_click Example.quiet_hit
    (Example.step "image_click" (Example.search_params (-1))) 0 Example.started
  = (Raise (RuntimeError (ImageClickFailed (image_not_found (VStr "button.png")))),
     Example.started)
  /\ _execute_image_click Example.quiet_hit
       (Example.step "image_click" (Example.search_params 3)) 0 Example.idle
     = (Raise (RuntimeError (ImageClickFailed (image_not_found (VStr "button.png")))),
        Example.idle).
Proof.
  split.
  - exact (image_click_without_capture Example.quiet_hit 0
             (Example.step "image_click" (Example.search_params (-1)))
             (VStr "button.png") 0.75 (-1) 0.5 Example.template 0 0 Example.started
             (search_setup Example.quiet_hit (-1) eq_refl eq_refl)
             (or_introl eq_refl)).
  - exact (image_click_without_capture Example.quiet_hit 0
             (Example.step "image_click" (Example.search_params 3))
             (VStr "button.png") 0.75 3 0.5 Example.template 0 0 Example.idle
             (search_setup Example.quiet_hit 3 eq_refl eq_refl)
             (or_intror eq_refl)).
Defined.

(** Offsets (4, 6) at a scale of 1.5: the right click lands at
    (165 + 6, 82 + 9), on the second capture. *)
Lemma offset_click_runs :
  _execute_image_right_click Screens.found_on_second_capture
    (Example.step "image_relative_right_click" (Example.offset_search_params 3)) 0
    Example.started
  = (Ok tt,
     mkWorld true 1 4
             [CaptureScreenshot 0; TimeSleep 0.5; LogSearchAttempt 1 0.5;
              CaptureScreenshot 0; RightClick (171, 91)%Z]).
Proof.
  refine (proj1 (offset_click_after_misses Screens.found_on_second_capture 0
                   (Example.step "image_relative_right_click"
                                 (Example.offset_search_params 3))
                   (VStr "button.png") 0.75 4 6 3 0.5 Example.template 0 0
                   Example.started 1 0.75 (100, 50)%Z (165, 82)%Z 6 9
                   (RightClick (171, 91)%Z)
                   (offset_search_setup Screens.found_on_second_capture 3
                                        eq_refl eq_refl)
                   ltac:(lia) eq_refl eq_refl _ eq_refl eq_refl eq_refl eq_refl
                   eq_refl eq_refl eq_refl)).
  intros j Hj. exists 0.5%float, (100, 50)%Z.
  destruct j as [|j]; [split; reflexivity|lia].
Defined.

(** An upper-case spelling of a refused command. *)
Lemma upper_case_command_run :
  py_lower "DEL /S /Q C:\" = py_lower "del /s /q c:\"
  /\ _validate_command_safety "DEL /S /Q C:\"
     = _validate_command_safety "del /s /q c:\".
Proof.
  split; [vm_compute; reflexivity|].
  apply (safety_check_ignores_case "DEL /S /Q C:\" "del /s /q c:\").
  vm_compute; reflexivity.
Defined.

(** A refused command behind an echo. *)
Lemma prefixed_command_run :
  _validate_command_safety "format c:" = false
  /\ _validate_command_safety (String.append "echo ready && " "format c:") = false.
Proof.
  split; [vm_compute; reflexivity|].
  apply (refused_command_stays_refused_after_a_prefix "format c:" "echo ready && ").
  vm_compute; reflexivity.
Defined.

(** A refused command inside a longer line. *)
Lemma embedded_command_run :
  _validate_command_safety
    (String.append "echo ready && " (String.append "format c:" " /fs:ntfs"))
  = false.
Proof.
  apply (matched_command_stays_refused_inside_any_text
           "format c:" "echo ready && " " /fs:ntfs").
  apply List.Exists_exists.
  exists ("format" ⋅ \s+ ⋅ Cls (Range "a" "z") ⋅ ":")%re.
  split; [|vm_compute; reflexivity].
  vm_compute. do 5 right. left. reflexivity.
Defined.

(** A loop count of 0: no step runs. *)
Lemma unbounded_loop_run :
  (loop_count (world Apps.unbounded) <= 0)%Z
  /\ _execute_loop (_run_steps_for_monitor Example.quiet_hit Apps.one_search)
                   "ループ" Apps.unbounded
     = mkApp (mkWorld false 0 0 [ExecutionButtons false]) 0 0
             [StatusError; LoopErrorDialog "ループ" (AsRaised OverflowError)].
Proof.
  split; [discriminate|].
  apply (nonpositive_loop_count_fails
           (_run_steps_for_monitor Example.quiet_hit Apps.one_search)
           "ループ" Apps.unbounded).
  discriminate.
Defined.

(** The image is not on the screen: the step fails, its error dialog is
    shown, and the run is then reported as completed. *)
Lemma failed_run_is_reported_completed :
  _run_all_steps Example.quiet_low Apps.one_search Apps.fresh
  = mkApp (mkWorld false 1 2
             [StepStarted 0 1 1; CaptureScreenshot 0; TimeSleep 0.5;
              LogSearchAttempt 1 0.5;
              StepErrorDialog 0
                (RuntimeError (ImageClickFailed
                   (RuntimeError (ImageNotFound (VStr "button.png")))));
              ExecutionButtons false; ExecutionButtons false])
          0 0 [LoopStatus "ループ" 1; StatusCompleted; CompletionNotification].
Proof.
  destruct (completion_follows_any_verdict Example.quiet_low Apps.one_search
              Apps.fresh eq_refl eq_refl) as (finished & w' & Hexec & Hrun).
  vm_compute in Hexec. injection Hexec as <- <-. exact Hrun.
Defined.

(** A disabled step is enabled, then the edit is undone: the step comes
    back enabled, with the time in [created_at]. *)
Lemma undo_after_enabling_a_step :
  Editing.undo_stack Desk.after_toggle = [] ++ [Desk.before_toggle]
  /\ Editing.o_enabled <$> Desk.two_steps = [true; false]
  /\ Editing.steps (Editing.undo "id-3" "10:00:01" Desk.later Desk.after_toggle)
     = [Editing.mkObject "key" {[ "key" := VStr "a" ]} "" (VBool true) true;
        Editing.mkObject "key" {[ "key" := VStr "a" ]} "" (VStr "10:00:02") true]
  /\ Editing.shown (Editing.undo "id-3" "10:00:01" Desk.later Desk.after_toggle)
     = [] ++ [Editing.UndoFailed (AttributeError "update_tree")].
Proof.
  split; [reflexivity|]. split; [reflexivity|]. split; [reflexivity|].
  exact (proj1 (proj2 (proj2 (proj2 (proj2 (proj2 (proj2
           (undo_replaces_the_steps_and_fails "id-3" "10:00:01" Desk.later
              Desk.after_toggle [] Desk.before_toggle eq_refl)))))))).
Defined.

(** A step added to a freshly loaded list cannot be taken back. *)
Lemma first_added_step_stays :
  exists ed',
    Editing.add_step "id-1" "10:00:00" None Sample.key_step Desk.untouched = (Ok tt, ed')
    /\ Editing.undo_stack ed' = []
    /\ Editing.undo "id-2" "10:00:01" Desk.later ed'
       = Editing.show Editing.NothingToUndo ed'
    /\ Editing.steps (Editing.undo "id-2" "10:00:01" Desk.later ed')
       = Editing.steps ed'
    /\ length (Editing.steps ed') = 3.
Proof.
  exact (first_edit_cannot_be_undone "id-1" "10:00:00" None Sample.key_step
           Desk.untouched "id-2" "10:00:01" Desk.later eq_refl eq_refl).
Defined.

(** Undo, then redo: the second step stays enabled. *)
Lemma undo_redo_after_enabling_a_step :
  Editing.o_enabled
    <$> Editing.steps (Editing.redo "id-4" "10:00:03" Desk.later
                         (Editing.undo "id-3" "10:00:01" Desk.later Desk.after_toggle))
  = [true; true]
  /\ map Editing.core
         (Editing.steps (Editing.redo "id-4" "10:00:03" Desk.later
                           (Editing.undo "id-3" "10:00:01" Desk.later
                                         Desk.after_toggle)))
     = map Editing.core (Editing.steps Desk.after_toggle).
Proof.
  split; [reflexivity|].
  exact (proj1 (undo_then_redo "id-3" "10:00:01" Desk.later "id-4" "10:00:03"
                  Desk.later Desk.after_toggle [] Desk.before_toggle eq_refl)).
Defined.

(** The snapshot of a second edit goes on the stack. *)
Lemma second_edit_is_recorded :
  Editing.has_state_id Desk.at_work = true
  /\ Editing.undo_stack
       (Editing.save_state "id-2" "10:00:00" Editing.AllStepsCleared Desk.at_work)
     = [Editing.mkSnapshot "id-2" "10:00:00" Editing.AllStepsCleared Desk.two_steps "0"]
  /\ Editing.redo_stack
       (Editing.save_state "id-2" "10:00:00" Editing.AllStepsCleared Desk.at_work)
     = [].
Proof.
  split; [reflexivity|]. split; [reflexivity|].
  exact (proj1 (save_state_history "id-2" "10:00:00" Editing.AllStepsCleared
                  Desk.at_work eq_refl)).
Defined.

(** The second step moved to the front; a move to row 2 of two rows is
    ignored. *)
Lemma move_step_runs :
  Editing.steps (Editing.move_step "id-2" "10:00:00" 1 0 Desk.at_work)
  = [Editing.object_of Sample.disabled_key_step; Editing.object_of Sample.key_step]
  /\ Editing.steps (Editing.move_step "id-2" "10:00:00" 1 0 Desk.at_work) !! 0
     = Editing.steps Desk.at_work !! 1
  /\ Editing.move_step "id-2" "10:00:00" 1 2 Desk.at_work = Desk.at_work.
Proof.
  split; [reflexivity|]. split.
  - refine (proj2 (proj1 (move_step_reorders "id-2" "10:00:00" 1 0 Desk.at_work) _)).
    cbn. lia.
  - refine (proj2 (move_step_reorders "id-2" "10:00:00" 1 2 Desk.at_work) _).
    cbn. lia.
Defined.

(** A copied key step pasted back. *)
Lemma key_step_pasted :
  created_at Sample.key_step <> ""
  /\ from_dict "10:00:00" (to_dict Sample.key_step) = Ok Sample.key_step
  /\ pasted_step "10:00:00" " (copy)" (to_dict Sample.key_step)
     = Ok (mkStep "key" {[ "key" := VStr "a" ]} " (copy)" "t" true).
Proof.
  assert (Hstamp : created_at Sample.key_step <> "") by discriminate.
  split; [exact Hstamp|].
  exact (copy_then_paste "10:00:00" " (copy)" Sample.key_step Hstamp).
Defined.

(** A file with a record that has no comment: accepted, then refused. *)
Lemma file_without_comment_run :
  fst (Loading._validate_config_structure Files.without_comment) = true
  /\ exists e,
       Loading.load_config_file Example.quiet_low "10:00:00" 1 Files.without_comment
                                Files.empty_session
       = Loading.report (Loading.LoadFailed e) Files.empty_session.
Proof.
  apply (checked_file_may_fail_to_load Example.quiet_low "10:00:00" 1
           Files.without_comment [Files.key_record; Files.bare_record]
           Files.bare_record Files.empty_session eq_refl eq_refl).
  - right. left. reflexivity.
  - left. reflexivity.
Defined.

(** A loop count of 20000 in the file is read as 1.  A key step without
    its key loads, but its row cannot be drawn: the list stops before it
    and the load is still reported as completed. *)
Lemma file_with_large_loop_count_run :
  Loading.load_config_file Example.quiet_low "10:00:00" 2 (Files.one_key 1)
                           Files.empty_session
  = Loading.mkSession [mkStep "key" {[ "key" := VStr "a" ]} "" "10:00:00" true]
                      (VInt 1) 1
                      [mkStep "key" {[ "key" := VStr "a" ]} "" "10:00:00" true]
                      [Loading.LoadCompleted 1]
  /\ Loading.load_config_file Example.quiet_low "10:00:00" 2 Files.keyless
                              Files.empty_session
     = Loading.mkSession [mkStep "key" {[ "key" := VStr "a" ]} "" "10:00:00" true;
                          mkStep "key" ∅ "" "10:00:00" true]
                         (VInt 0) 1
                         [mkStep "key" {[ "key" := VStr "a" ]} "" "10:00:00" true]
                         [Loading.RefreshFailed (KeyError "key");
                          Loading.LoadCompleted 2]
  /\ (1 <= Loading.session_loop_count
             (Loading.load_config_file Example.quiet_low "10:00:00" 2
                (Files.one_key 1) Files.empty_session)
       <= 10000)%Z
  /\ Loading.listed
       (Loading.load_config_file Example.quiet_low "10:00:00" 2 Files.keyless
          Files.empty_session)
     `prefix_of`
     Loading.session_steps
       (Loading.load_config_file Example.quiet_low "10:00:00" 2 Files.keyless
          Files.empty_session).
Proof.
  split; [reflexivity|]. split; [reflexivity|].
  destruct (completed_load_is_in_range Example.quiet_low "10:00:00" 2 (Files.one_key 1)
              Files.empty_session 1 eq_refl)
    as (records & m & _ & _ & _ & _ & _ & _ & Hloop & _).
  destruct (completed_load_is_in_range Example.quiet_low "10:00:00" 2 Files.keyless
              Files.empty_session 2 eq_refl)
    as (records' & m' & _ & _ & _ & _ & Hprefix & _).
  split; [exact Hloop|exact Hprefix].
Defined.

(** The file names monitor 1 on a machine with one monitor. *)
Lemma file_for_a_second_monitor_run :
  exists n,
    (1 <= n <= 10000)%Z
    /\ Loading.load_config_file Example.quiet_low "10:00:00" 1 (Files.one_key 1)
                                Files.empty_session
       = Loading.mkSession [mkStep "key" {[ "key" := VStr "a" ]} "" "10:00:00" true]
                           (VInt 1) n [] ([] ++ [Loading.LoadFailed IndexError]).
Proof.
  apply (load_with_a_missing_monitor Example.quiet_low "10:00:00" 1 (Files.one_key 1)
           [Files.key_record]
           [mkStep "key" {[ "key" := VStr "a" ]} "" "10:00:00" true] 1
           Files.empty_session eq_refl eq_refl eq_refl eq_refl).
  - lia.
  - cbn. lia.
Defined.

(** The wait for ten o'clock is interrupted: [echo hello] is not run. *)
Lemma interrupted_command_run :
  _execute_cmd_command Clocks.cancelled Clocks.echo_at_ten Example.started
  = (Ok tt, mkWorld true 1 1 [WaitForScheduledTime (VStr "10:00:00")])
  /\ List.filter spawns
       (trace (snd (_execute_cmd_command Clocks.cancelled Clocks.echo_at_ten
                                         Example.started)))
     = [].
Proof.
  apply (proj1 (scheduled_command_after_the_wait Clocks.cancelled Clocks.echo_at_ten
                  "echo hello" (VStr "10:00:00") Example.started
                  eq_refl ltac:(vm_compute; reflexivity) eq_refl eq_refl)).
  reflexivity.
Defined.

(** Two and a half seconds before ten: two sleeps; a stop request during
    the second one is reported as an interruption. *)
Lemma wait_until_ten_runs :
  due (Clocks.env Example.never) Clocks.just_before_ten (VStr "10:00:00") 2
  /\ Scheduled._wait_for_scheduled_time (Clocks.env Example.never)
       Clocks.just_before_ten (VStr "10:00:00") Example.started
     = (Scheduled.Returns false,
        mkWorld true 1 2 [TimeSleep 1; TimeSleep 1])
  /\ Scheduled._wait_for_scheduled_time (Clocks.env (fun n => n =? 1))
       Clocks.just_before_ten (VStr "10:00:00") Example.started
     = (Scheduled.Returns true,
        mkWorld false 1 2 [TimeSleep 1; TimeSleep 1]).
Proof.
  assert (Hdue : forall stop_at,
             due (Clocks.env stop_at) Clocks.just_before_ten (VStr "10:00:00") 2).
  { intros stop_at.
    exists "10:00:00", "10", "00", "00", 10%Z, 0%Z, 0%Z,
           (Scheduled.mkDateTime 739000 10 0 0 0).
    repeat split; vm_compute; reflexivity. }
  split; [apply Hdue|]. split.
  - exact (proj1 (wait_polls_the_flag (Clocks.env Example.never) Clocks.just_before_ten
                    (VStr "10:00:00") 2 Example.started (Hdue _) eq_refl)
                 eq_refl).
  - exact (proj1 (proj2 (wait_polls_the_flag (Clocks.env (fun n => n =? 1))
                           Clocks.just_before_ten (VStr "10:00:00") 2
                           Example.started (Hdue _) eq_refl))
                 1 ltac:(cbn; lia) eq_refl eq_refl).
Defined.

(** "25:00:00" and "ten" are refused as malformed; an hour of 2^31 is
    reported as a failure of the wait. *)
Lemma malformed_times_run :
  (exists message,
      Scheduled._wait_for_scheduled_time (Clocks.env Example.never)
        Clocks.just_before_ten (VStr "25:00:00") Example.started
      = (Scheduled.FormatError (ValueError message), Example.started))
  /\ (exists message,
         Scheduled._wait_for_scheduled_time (Clocks.env Example.never)
           Clocks.just_before_ten (VStr "ten") Example.started
         = (Scheduled.FormatError (ValueError message), Example.started))
  /\ Scheduled._wait_for_scheduled_time Clocks.reading_long_numbers
       Clocks.just_before_ten (VStr "2147483648:00:00") Example.started
     = (Scheduled.WaitFailure OverflowError, Example.started).
Proof.
  split; [|split].
  - apply (proj1 (proj2 (proj2 (malformed_time_is_refused (Clocks.env Example.never)
                                  Clocks.just_before_ten (VStr "25:00:00")
                                  Example.started))
                        "25:00:00" "25" "00" "00" 25%Z 0%Z 0%Z
                        eq_refl eq_refl eq_refl eq_refl eq_refl));
      [reflexivity|lia].
  - apply (proj1 (proj2 (malformed_time_is_refused (Clocks.env Example.never)
                           Clocks.just_before_ten (VStr "ten") Example.started))
                 "ten"); [reflexivity|]. vm_compute. lia.
  - apply (proj2 (proj2 (proj2 (malformed_time_is_refused Clocks.reading_long_numbers
                                  Clocks.just_before_ten (VStr "2147483648:00:00")
                                  Example.started))
                        "2147483648:00:00" "2147483648" "00" "00"
                        2147483648%Z 0%Z 0%Z
                        eq_refl eq_refl eq_refl eq_refl eq_refl)).
    reflexivity.
Defined.

(** At ten sharp a wait for ten o'clock lasts the whole day. *)
Lemma wait_at_the_same_time :
  time_of_day Clocks.ten_sharp
  /\ Scheduled.target_time Clocks.ten_sharp 10 0 0
     = Ok (Scheduled.mkDateTime 739001 10 0 0 0)
  /\ (Scheduled.microseconds (Scheduled.mkDateTime 739001 10 0 0 0)
      - Scheduled.microseconds Clocks.ten_sharp = 86400000000)%Z
  /\ Scheduled.whole_seconds (Scheduled.mkDateTime 739001 10 0 0 0) Clocks.ten_sharp
     = Ok 86400%Z.
Proof.
  assert (Hnow : time_of_day Clocks.ten_sharp) by (cbv; intuition discriminate).
  split; [exact Hnow|]. split; [reflexivity|].
  split; [|vm_compute; reflexivity].
  apply (proj2 (proj2 (target_is_the_next_occurrence Clocks.ten_sharp 10 0 0
                         (Scheduled.mkDateTime 739001 10 0 0 0) Hnow eq_refl))).
  reflexivity.
Defined.

(** A closed loop whose count is the text "3" stands before a
    [repeat_start] that is never closed: the expansion stops at the count,
    and the error it raises names no step. *)
Lemma text_count_hides_the_open_loop :
  unmatched Sample.text_count_then_open_loop 2
  /\ ~ integer_counts Sample.text_count_then_open_loop
  /\ _generate_execution_plan Sample.text_count_then_open_loop
     = Raise (TypeError "range")
  /\ _execute_steps_for_monitor Example.quiet_low Sample.text_count_then_open_loop 0
       Example.started
     = (Ok false,
        mkWorld false 1 0 [RunErrorDialog (TypeError "range"); ExecutionButtons false]).
Proof.
  split; [|split; [|split]].
  - exists (Sample.start_step 2), 1, 4. repeat split; try reflexivity. discriminate.
  - intros Hcounts.
    destruct (Hcounts Sample.text_count_start_step (or_introl eq_refl) eq_refl)
      as [iterations Hrange].
    discriminate Hrange.
  - vm_compute. reflexivity.
  - vm_compute. reflexivity.
Qed.

(** The stop button is pressed during a capture that finds the image: the
    handler does not read the flag again, clicks and returns; the step
    counts as done and the run ends at the next entry by the interruption
    branch, with no failure reported. *)
Lemma stop_during_a_matching_capture :
  stop_requested Screens.stopped_in_matching_capture 0 = true
  /\ _execute_image_click Screens.stopped_in_matching_capture
       (Example.step "image_click" (Example.search_params 3)) 0 Example.started
     = (Ok tt, mkWorld false 1 2 [CaptureScreenshot 0; Click (165, 82)%Z])
  /\ _execute_steps_for_monitor Screens.stopped_in_matching_capture
       [Example.step "image_click" (Example.search_params 3); Sample.key_step] 0
       Example.started
     = (Ok false,
        mkWorld false 1 2
                [StepStarted 0 1 2; CaptureScreenshot 0; Click (165, 82)%Z;
                 StepSucceeded 0; StatusInterrupted])
  /\ _execute_steps_for_monitor Screens.stopped_in_matching_capture
       [Example.step "image_relative_right_click" (Example.offset_search_params 3);
        Sample.key_step] 0 Example.started
     = (Ok false,
        mkWorld false 1 2
                [StepStarted 0 1 2; CaptureScreenshot 0; RightClick (171, 91)%Z;
                 StepSucceeded 0; StatusInterrupted]).
Proof. repeat split; vm_compute; reflexivity. Qed.
